(** * evote-backend: the voting-token pipeline and the attempt counters

    A shallow embedding of the request handlers of
    [src/controllers/voteController.js] ([issueToken], [submitVote]),
    [src/controllers/authController.js] ([sendOtp], [recordLoginFailure]),
    [src/services/voteService.js] ([isElectionOpen]),
    [src/services/otpService.js] ([sendOtp]) and
    [src/lib/mongo.js] ([withTransaction]).

    The handlers are [async] functions that talk to MongoDB collections.
    Each one is embedded as a program tree ([Prog]) whose nodes are the
    awaited collection calls, in the order the source issues them; the tree
    is then run against an in-memory store ([Db]).  Clock reads
    ([new Date()], [Date.now()]) and the results of [crypto] calls are
    explicit inputs of the handlers. *)

From Stdlib Require Import String Ascii List ZArith Bool Lia.
Import ListNotations.

Open Scope string_scope.
Open Scope Z_scope.

(** ** JavaScript values that end up in documents and response bodies *)

#[warnings="-register-all"]
Inductive JsValue : Type :=
| JStr (s : string)
| JNum (n : Z)
| JDate (ms : Z)
| JBool (b : bool)
| JObj (fields : list (string * JsValue)).

(** An object literal, field by field, in the order it is written. *)
Definition JsObject : Type := list (string * JsValue).

Definition fieldNames (o : JsObject) : list string := map fst o.

Fixpoint getField (name : string) (o : JsObject) : option JsValue :=
  match o with
  | [] => None
  | (k, v) :: rest => if String.eqb k name then Some v else getField name rest
  end.

(** [x || dflt] on a value that is a string or absent: the empty string and
    [undefined] are falsy. *)
Definition js_or (x : option string) (dflt : string) : string :=
  match x with
  | Some s => if String.eqb s "" then dflt else s
  | None => dflt
  end.

(** [!x] on a value that is a string or absent. *)
Definition falsy (x : option string) : bool :=
  match x with
  | Some s => String.eqb s ""
  | None => true
  end.

(** ** Documents

    One record per collection, with the fields the handlers read or write. *)

Module Voter.
Record t : Type := mk
  { voterId : string;
    status : string;          (* 'pending' | 'active' | 'blocked' *)
    hasVoted : bool;
    updatedAt : Z }.
End Voter.

Module VotingToken.
Record Meta : Type := mkMeta { nonce : option string }.
Record t : Type := mk
  { tokenId : string;
    electionId : string;
    spent : bool;
    expiresAt : option Z;     (* a Date, or absent *)
    createdAt : Z;
    updatedAt : Z;
    version : Z;
    meta : option Meta }.
End VotingToken.

Module Candidate.
Record t : Type := mk
  { electionId : string;
    candidateId : string;
    status : string }.
End Candidate.

Module Election.
Record t : Type := mk
  { electionId : string;
    status : string }.        (* 'open' | 'closed' | 'finalized' *)
End Election.

Module OtpAttempt.
Record t : Type := mk
  { phoneHash : string;
    count : Z;
    windowEndsAt : option Z;
    createdAt : Z;
    meta : JsObject }.
End OtpAttempt.

Module LoginAttempt.
Record t : Type := mk
  { voterId : string;
    count : Z;
    windowEndsAt : option Z;
    createdAt : Z;
    meta : JsObject }.
End LoginAttempt.

(** A vote is stored as the object literal handed to [votes.insertOne]. *)
Definition Vote : Type := JsObject.

(** ** The store *)

Definition ObjectId : Type := nat.

(** A stored document: the store's [_id] next to the document. *)
Record Row (T : Type) : Type := mkRow { _id : ObjectId; doc : T }.
Arguments mkRow {T} _ _.
Arguments _id {T} _.
Arguments doc {T} _.

(** [db.collection(name)], indexed by the type of its documents. *)
Inductive Coll : Type -> Type :=
| voters : Coll Voter.t
| votingTokens : Coll VotingToken.t
| candidates : Coll Candidate.t
| votes : Coll Vote
| elections : Coll Election.t
| otp_attempts : Coll OtpAttempt.t
| login_attempts : Coll LoginAttempt.t.

(** Rows are kept in insertion order (the natural order [findOne] and
    [updateOne] scan in); [nextId] is the next [_id] to hand out. *)
Record Db : Type := mkDb
  { rows_voters : list (Row Voter.t);
    rows_votingTokens : list (Row VotingToken.t);
    rows_candidates : list (Row Candidate.t);
    rows_votes : list (Row Vote);
    rows_elections : list (Row Election.t);
    rows_otp_attempts : list (Row OtpAttempt.t);
    rows_login_attempts : list (Row LoginAttempt.t);
    nextId : ObjectId }.

Definition collection {T} (c : Coll T) : Db -> list (Row T) :=
  match c in Coll T return Db -> list (Row T) with
  | voters => rows_voters
  | votingTokens => rows_votingTokens
  | candidates => rows_candidates
  | votes => rows_votes
  | elections => rows_elections
  | otp_attempts => rows_otp_attempts
  | login_attempts => rows_login_attempts
  end.

Definition setCollection {T} (c : Coll T) : list (Row T) -> Db -> Db :=
  match c in Coll T return list (Row T) -> Db -> Db with
  | voters => fun rs db =>
      mkDb rs (rows_votingTokens db) (rows_candidates db) (rows_votes db)
           (rows_elections db) (rows_otp_attempts db) (rows_login_attempts db) (nextId db)
  | votingTokens => fun rs db =>
      mkDb (rows_voters db) rs (rows_candidates db) (rows_votes db)
           (rows_elections db) (rows_otp_attempts db) (rows_login_attempts db) (nextId db)
  | candidates => fun rs db =>
      mkDb (rows_voters db) (rows_votingTokens db) rs (rows_votes db)
           (rows_elections db) (rows_otp_attempts db) (rows_login_attempts db) (nextId db)
  | votes => fun rs db =>
      mkDb (rows_voters db) (rows_votingTokens db) (rows_candidates db) rs
           (rows_elections db) (rows_otp_attempts db) (rows_login_attempts db) (nextId db)
  | elections => fun rs db =>
      mkDb (rows_voters db) (rows_votingTokens db) (rows_candidates db) (rows_votes db)
           rs (rows_otp_attempts db) (rows_login_attempts db) (nextId db)
  | otp_attempts => fun rs db =>
      mkDb (rows_voters db) (rows_votingTokens db) (rows_candidates db) (rows_votes db)
           (rows_elections db) rs (rows_login_attempts db) (nextId db)
  | login_attempts => fun rs db =>
      mkDb (rows_voters db) (rows_votingTokens db) (rows_candidates db) (rows_votes db)
           (rows_elections db) (rows_otp_attempts db) rs (nextId db)
  end.

Definition bumpId (db : Db) : Db :=
  mkDb (rows_voters db) (rows_votingTokens db) (rows_candidates db) (rows_votes db)
       (rows_elections db) (rows_otp_attempts db) (rows_login_attempts db) (S (nextId db)).

Record UpdateResult : Type := mkUpdateResult { matchedCount : Z }.

(** The first row the filter accepts gets the update; [None] when no row
    matches. *)
Fixpoint updateFirst {T} (filter : Row T -> bool) (update : T -> T)
         (rs : list (Row T)) : option (list (Row T)) :=
  match rs with
  | [] => None
  | r :: rest =>
      if filter r then Some (mkRow (_id r) (update (doc r)) :: rest)
      else match updateFirst filter update rest with
           | Some rest' => Some (r :: rest')
           | None => None
           end
  end.

Definition db_findOne {T} (c : Coll T) (filter : Row T -> bool) (db : Db)
  : option (Row T) :=
  find filter (collection c db).

Definition db_insertOne {T} (c : Coll T) (d : T) (db : Db) : Db :=
  bumpId (setCollection c (collection c db ++ [mkRow (nextId db) d]) db).

(** [updateOne(filter, update, { upsert })]: [upsert] is the document an
    upsert inserts when nothing matches ([None] without [upsert: true]). *)
Definition db_updateOne {T} (c : Coll T) (filter : Row T -> bool)
           (update : T -> T) (upsert : option T) (db : Db) : UpdateResult * Db :=
  match updateFirst filter update (collection c db) with
  | Some rs' => (mkUpdateResult 1, setCollection c rs' db)
  | None =>
      match upsert with
      | Some d => (mkUpdateResult 0, db_insertOne c d db)
      | None => (mkUpdateResult 0, db)
      end
  end.

(** ** Handlers as program trees

    A thrown [Error] carries the fields the handlers set on it. *)

Record Error : Type := mkError
  { message : string;
    code : string;
    status : Z;
    details : option JsObject }.

(** One awaited collection call.  [session] tells whether the call passes
    [{ session }], that is, whether it belongs to the open transaction. *)
Inductive Op : Type -> Type :=
| findOne {T} (c : Coll T) (filter : Row T -> bool) (session : bool)
  : Op (option (Row T))
| updateOne {T} (c : Coll T) (filter : Row T -> bool) (update : T -> T)
            (upsert : option T) (session : bool)
  : Op UpdateResult
| insertOne {T} (c : Coll T) (d : T) (session : bool)
  : Op unit.

Inductive Prog (A : Type) : Type :=
| Return (a : A)
| Throw (e : Error)
| Await {X : Type} (op : Op X) (k : X -> Prog A).
Arguments Return {A} _.
Arguments Throw {A} _.
Arguments Await {A X} _ _.

Notation "'const' x '<-' 'await' op ; k" := (Await op (fun x => k))
  (at level 10, x name, op at level 9, k at level 200,
   format "'[v' 'const'  x  '<-'  'await'  op ; '/' k ']'").
Notation "'await' op ; k" := (Await op (fun _ => k))
  (at level 10, op at level 9, k at level 200,
   format "'[v' 'await'  op ; '/' k ']'").

(** Awaiting another [async] function of the repository. *)
Fixpoint bind {A B} (p : Prog A) (f : A -> Prog B) : Prog B :=
  match p with
  | Return a => f a
  | Throw e => Throw e
  | Await op k => Await op (fun x => bind (k x) f)
  end.

Notation "'const' x '<-' 'call' p ; k" := (bind p (fun x => k))
  (at level 10, x name, p at level 9, k at level 200,
   format "'[v' 'const'  x  '<-'  'call'  p ; '/' k ']'").

Definition inSession {X} (op : Op X) : bool :=
  match op with
  | findOne _ _ s => s
  | updateOne _ _ _ _ s => s
  | insertOne _ _ s => s
  end.

(** What one call returns and how it leaves the store it runs against. *)
Definition perform {X} (op : Op X) (db : Db) : X * Db :=
  match op in Op X return X * Db with
  | findOne c filter _ => (db_findOne c filter db, db)
  | updateOne c filter update upsert _ => db_updateOne c filter update upsert db
  | insertOne c d _ => (tt, db_insertOne c d db)
  end.

(** ** Running a program

    Two stores are carried: [committed], what every client sees, and [view],
    what the open transaction sees.  A call that passes the session reads
    and writes [view] only; a call without it goes to the committed data
    (and is visible to the transaction as well).

    [sched] is the interleaving with other clients: before the n-th awaited
    call the n-th element of [sched] (a committed write of someone else) is
    applied.  [[]] is a run without interference. *)

Definition Schedule : Type := list (Db -> Db).

(** Nobody else writes before this call. *)
Definition quiet : Db -> Db := fun db => db.

Definition interfere (sched : Schedule) (db : Db) : Db :=
  match sched with
  | [] => db
  | w :: _ => w db
  end.

Definition step {X} (op : Op X) (committed view : Db) : X * Db * Db :=
  if inSession op then
    let '(x, view') := perform op view in (x, committed, view')
  else
    let '(x, committed') := perform op committed in
    (x, committed', snd (perform op view)).

Fixpoint exec {A} (p : Prog A) (sched : Schedule) (committed view : Db)
  : (Error + A) * Db * Db :=
  match p with
  | Return a => (inr a, committed, view)
  | Throw e => (inl e, committed, view)
  | Await op k =>
      let '(x, committed', view') :=
        step op (interfere sched committed) (interfere sched view) in
      exec (k x) (tl sched) committed' view'
  end.

(** A handler that runs outside any transaction. *)
Definition run {A} (p : Prog A) (sched : Schedule) (db : Db) : (Error + A) * Db :=
  let '(r, committed, _) := exec p sched db db in (r, committed).

(** [withTransaction(fn)] of [src/lib/mongo.js], on a connected client:
    [session.withTransaction] commits what [fn] wrote through the session
    when [fn] returns, and aborts, discarding it, when [fn] throws; the
    error is rethrown to the caller. *)
Definition withTransaction {A} (fn : Prog A) (sched : Schedule) (db : Db)
  : (Error + A) * Db :=
  let '(result, committed, view) := exec fn sched db db in
  match result with
  | inr a => (inr a, view)
  | inl e => (inl e, committed)
  end.

(** The writes of the other clients alone. *)
Definition others (done : Schedule) (db : Db) : Db :=
  fold_left (fun d w => w d) done db.

(** ** Query filters

    The filter objects the handlers pass to [findOne] and [updateOne]. *)

(** [{ electionId }] on [elections] *)
Definition byElectionId (electionId : string) (r : Row Election.t) : bool :=
  String.eqb (Election.electionId (doc r)) electionId.

(** [{ voterId }] on [voters] *)
Definition byVoterId (voterId : string) (r : Row Voter.t) : bool :=
  String.eqb (Voter.voterId (doc r)) voterId.

(** [{ tokenId, electionId }] on [votingTokens] *)
Definition byTokenAndElection (tokenId electionId : string) (r : Row VotingToken.t)
  : bool :=
  String.eqb (VotingToken.tokenId (doc r)) tokenId
  && String.eqb (VotingToken.electionId (doc r)) electionId.

(** [{ _id, spent: false }] on [votingTokens] *)
Definition unspentById (id : ObjectId) (r : Row VotingToken.t) : bool :=
  Nat.eqb (_id r) id && negb (VotingToken.spent (doc r)).

(** [{ electionId, candidateId, status: 'active' }] on [candidates] *)
Definition activeCandidate (electionId candidateId : string) (r : Row Candidate.t)
  : bool :=
  String.eqb (Candidate.electionId (doc r)) electionId
  && String.eqb (Candidate.candidateId (doc r)) candidateId
  && String.eqb (Candidate.status (doc r)) "active".

(** [{ phoneHash }] on [otp_attempts] *)
Definition byPhoneHash (phoneHash : string) (r : Row OtpAttempt.t) : bool :=
  String.eqb (OtpAttempt.phoneHash (doc r)) phoneHash.

(** [{ _id }] *)
Definition byId {T} (id : ObjectId) (r : Row T) : bool := Nat.eqb (_id r) id.

(** [{ voterId }] on [login_attempts] *)
Definition byLoginVoterId (voterId : string) (r : Row LoginAttempt.t) : bool :=
  String.eqb (LoginAttempt.voterId (doc r)) voterId.

(** ** Update documents *)

(** [{ $set: { spent: true, updatedAt: now } }] *)
Definition setSpent (now : Z) (t : VotingToken.t) : VotingToken.t :=
  VotingToken.mk (VotingToken.tokenId t) (VotingToken.electionId t) true
                 (VotingToken.expiresAt t) (VotingToken.createdAt t) now
                 (VotingToken.version t) (VotingToken.meta t).

(** [{ $set: { hasVoted: true, updatedAt: now } }] *)
Definition setHasVoted (now : Z) (v : Voter.t) : Voter.t :=
  Voter.mk (Voter.voterId v) (Voter.status v) true now.

(** [{ $inc: { count: 1 } }] *)
Definition incOtpCount (d : OtpAttempt.t) : OtpAttempt.t :=
  OtpAttempt.mk (OtpAttempt.phoneHash d) (OtpAttempt.count d + 1)
                (OtpAttempt.windowEndsAt d) (OtpAttempt.createdAt d) (OtpAttempt.meta d).

Definition incLoginCount (d : LoginAttempt.t) : LoginAttempt.t :=
  LoginAttempt.mk (LoginAttempt.voterId d) (LoginAttempt.count d + 1)
                  (LoginAttempt.windowEndsAt d) (LoginAttempt.createdAt d)
                  (LoginAttempt.meta d).

(** ** [src/services/voteService.js] *)

(** [isElectionOpen(electionId)]: open when no election document exists. *)
Definition isElectionOpen (electionId : string) : Prog bool :=
  const d <- await (findOne elections (byElectionId electionId) false);
  match d with
  | None => Return true
  | Some d => Return (String.eqb (Election.status (doc d)) "open")
  end.

(** ** [src/controllers/voteController.js] *)

(** What a handler does with [res] / [next]. *)
Inductive Response : Type :=
| json (status : Z) (body : JsObject)      (* res.status(status).json(body) *)
| next (err : Error).                      (* next(err) *)

Module Req.
Record User : Type := mkUser
  { voterId : option string;
    sub : option string }.
(** Body fields are strings or absent. *)
Record Body : Type := mkBody
  { tokenId : option string;
    candidateId : option string;
    electionId : option string;
    nonce : option string }.
Record t : Type := mk
  { user : option User;
    body : option Body }.
End Req.

Record Config : Type := mkConfig { config_electionId : string }.

Definition TOKEN_TTL_MS : Z := 5 * 60 * 1000.

(** [user.voterId || user.sub] with [user = req.user || {}]. *)
Definition voterIdOf (req : Req.t) : option string :=
  match Req.user req with
  | None => None
  | Some user => if falsy (Req.voterId user) then Req.sub user else Req.voterId user
  end.

(** A field of [req.body || {}]. *)
Definition bodyField (field : Req.Body -> option string) (req : Req.t) : option string :=
  match Req.body req with
  | Some b => field b
  | None => None
  end.

(** [(req.body && req.body.electionId) || config.electionId || 'default'] *)
Definition electionIdOf (config : Config) (req : Req.t) : string :=
  js_or (bodyField Req.electionId req)
        (js_or (Some (config_electionId config)) "default").

Definition errorBody (code message : string) (details : JsObject) : JsObject :=
  [("code", JStr code); ("message", JStr message); ("details", JObj details)].

(** The document [issueToken] inserts: no voter field. *)
Definition tokenDoc (tokenId electionId nonce : string) (now expiresAt : Z)
  : VotingToken.t :=
  VotingToken.mk tokenId electionId false (Some expiresAt) now now 1
                 (Some (VotingToken.mkMeta (Some nonce))).

(** The part of [issueToken] after the [voterId] guard.  [tokenId] is the
    result of [crypto.randomUUID()], [nonce] of
    [crypto.randomBytes(16).toString('hex')]. *)
Definition issueTokenProg (voterId electionId : string) (now : Z)
           (tokenId nonce : string) : Prog Response :=
  const isOpen <- call (isElectionOpen electionId);
  if negb isOpen then
    Return (json 409 (errorBody "ELECTION_NOT_OPEN" "Election is not open for voting"
                                [("electionId", JStr electionId)]))
  else
  const voter <- await (findOne voters (byVoterId voterId) false);
  match voter with
  | None => Return (json 404 (errorBody "VOTER_NOT_FOUND" "Voter not found" []))
  | Some voter =>
  if negb (String.eqb (Voter.status (doc voter)) "active") then
    Return (json 403 (errorBody "VOTER_INACTIVE" "Voter is not active"
                                [("status", JStr (Voter.status (doc voter)))]))
  else if Voter.hasVoted (doc voter) then
    Return (json 409 (errorBody "ALREADY_VOTED" "Voter has already cast a vote" []))
  else
  let expiresAt := now + TOKEN_TTL_MS in
  await (insertOne votingTokens (tokenDoc tokenId electionId nonce now expiresAt) false);
  Return (json 201 [("tokenId", JStr tokenId); ("nonce", JStr nonce);
                    ("expiresAt", JDate expiresAt)])
  end.

(** [issueToken(req, res, next)].  No call of it throws on the in-memory
    store, so the [catch] branch is never taken. *)
Definition issueToken (config : Config) (req : Req.t) (now : Z)
           (tokenId nonce : string) (sched : Schedule) (db : Db) : Response * Db :=
  if falsy (voterIdOf req) then
    (json 400 (errorBody "BAD_TOKEN" "Token is missing voterId" []), db)
  else
    let voterId := js_or (voterIdOf req) "" in
    match run (issueTokenProg voterId (electionIdOf config req) now tokenId nonce)
              sched db with
    | (inr res, db') => (res, db')
    | (inl err, db') => (next err, db')
    end.

Record SubmitResult : Type := mkSubmitResult
  { res_electionId : string;
    res_candidateId : string }.

(** [tokenDoc.expiresAt && tokenDoc.expiresAt <= now] *)
Definition expired (expiresAt : option Z) (now : Z) : bool :=
  match expiresAt with
  | Some e => e <=? now
  | None => false
  end.

(** [tokenDoc.meta && tokenDoc.meta.nonce] *)
Definition tokenNonceOf (t : VotingToken.t) : option string :=
  match VotingToken.meta t with
  | Some m => VotingToken.nonce m
  | None => None
  end.

(** The nonce test, taken only when the client sent one ([nonce != null]):
    [!tokenNonce || String(nonce) !== String(tokenNonce)]. *)
Definition nonceMismatch (nonce : option string) (t : VotingToken.t) : bool :=
  match nonce with
  | None => false
  | Some n =>
      let tokenNonce := tokenNonceOf t in
      falsy tokenNonce ||
      negb (String.eqb n (match tokenNonce with Some s => s | None => "" end))
  end.

(** The vote document of step 5. *)
Definition voteDoc (electionId candidateId : string) (now : Z) (serverSig : string)
  : Vote :=
  [("electionId", JStr electionId);
   ("candidateId", JStr candidateId);
   ("createdAt", JDate now);
   ("serverSig", JStr serverSig);
   ("version", JNum 1);
   ("meta", JObj [])].

(** The callback [submitVote] hands to [withTransaction] (lines 172-327);
    every call passes [{ session }].  [serverSig] is the result of
    [crypto.randomBytes(32).toString('hex')]. *)
Definition submitVoteTxn (voterId trimmedTokenId electionId trimmedCandidateId : string)
           (nonce : option string) (now : Z) (serverSig : string)
  : Prog SubmitResult :=
  (* 1) Load voter *)
  const voter <- await (findOne voters (byVoterId voterId) true);
  match voter with
  | None => Throw (mkError "Voter not found" "VOTER_NOT_FOUND" 404 None)
  | Some voter =>
  if negb (String.eqb (Voter.status (doc voter)) "active") then
    Throw (mkError "Voter is not active" "VOTER_INACTIVE" 403
                   (Some [("status", JStr (Voter.status (doc voter)))]))
  else if Voter.hasVoted (doc voter) then
    Throw (mkError "Voter has already cast a vote" "ALREADY_VOTED" 409 None)
  else
  (* 2) Load the voting token *)
  const tokenDoc <- await (findOne votingTokens
                        (byTokenAndElection trimmedTokenId electionId) true);
  match tokenDoc with
  | None => Throw (mkError "Invalid voting token" "INVALID_VOTE_TOKEN" 400 None)
  | Some tokenDoc =>
  if VotingToken.spent (doc tokenDoc) then
    Throw (mkError "Voting token already used" "TOKEN_ALREADY_USED" 409 None)
  else if expired (VotingToken.expiresAt (doc tokenDoc)) now then
    Throw (mkError "Voting token has expired" "TOKEN_EXPIRED" 410 None)
  else if nonceMismatch nonce (doc tokenDoc) then
    Throw (mkError "Token nonce does not match" "TOKEN_NONCE_MISMATCH" 400 None)
  else
  (* 3) Validate candidate *)
  const candidate <- await (findOne candidates
                         (activeCandidate electionId trimmedCandidateId) true);
  match candidate with
  | None => Throw (mkError "Invalid candidate for this election" "INVALID_CANDIDATE" 400 None)
  | Some _ =>
  (* 4) Mark token as spent (single-use) *)
  const updateTokenResult <- await (updateOne votingTokens
                                 (unspentById (_id tokenDoc)) (setSpent now) None true);
  if matchedCount updateTokenResult =? 0 then
    Throw (mkError "Voting token already used" "TOKEN_ALREADY_USED" 409 None)
  else
  (* 5) Insert vote (NO voterId) *)
  await (insertOne votes (voteDoc electionId trimmedCandidateId now serverSig) true);
  (* 6) Mark voter as hasVoted = true *)
  const updateVoterResult <- await (updateOne voters
                                 (byVoterId voterId) (setHasVoted now) None true);
  if matchedCount updateVoterResult =? 0 then
    Throw (mkError "Voter not found during update" "VOTER_NOT_FOUND" 404 None)
  else
  Return (mkSubmitResult electionId trimmedCandidateId)
  end end end.

(** The unit of work as a whole: the callback under [withTransaction]. *)
Definition submit (voterId tokenId electionId candidateId : string)
           (nonce : option string) (now : Z) (serverSig : string)
           (sched : Schedule) (db : Db) : (Error + SubmitResult) * Db :=
  withTransaction
    (submitVoteTxn voterId tokenId electionId candidateId nonce now serverSig)
    sched db.

(** [haystack.includes(needle)] *)
Definition includes (haystack needle : string) : bool :=
  match index 0 needle haystack with
  | Some _ => true
  | None => false
  end.

(** The [catch] block of [submitVote]. *)
Definition submitVoteCatch (err : Error) : Response :=
  if negb (status err =? 0) && negb (String.eqb (code err) "") then
    json (status err)
         (errorBody (code err)
                    (js_or (Some (message err)) "Vote submission failed")
                    (match details err with Some d => d | None => [] end))
  else if negb (String.eqb (message err) "")
          && includes (message err)
               "Transaction numbers are only allowed on a replica set member or mongos"
  then
    json 500 (errorBody "TRANSACTION_NOT_SUPPORTED"
                "MongoDB transactions require a replica set. Please ensure your MongoDB instance is a replica set or use Atlas."
                [])
  else next err.

Section Handlers.

(** [String.prototype.trim] and, for [hashPhone],
    [crypto.createHash('sha256').update(phone).digest('hex')]: library
    functions, left abstract. *)
Variable trim : string -> string.
Variable hashPhone : string -> string.

(** [typeof x !== 'string' || !x.trim()] *)
Definition blank (x : option string) : bool :=
  match x with
  | Some s => String.eqb (trim s) ""
  | None => true
  end.

(** [submitVote(req, res, next)] *)
Definition submitVote (config : Config) (req : Req.t) (now : Z) (serverSig : string)
           (sched : Schedule) (db : Db) : Response * Db :=
  if falsy (voterIdOf req) then
    (json 400 (errorBody "BAD_TOKEN" "Token is missing voterId" []), db)
  else
    let voterId := js_or (voterIdOf req) "" in
    let tokenId := bodyField Req.tokenId req in
    let candidateId := bodyField Req.candidateId req in
    let nonce := bodyField Req.nonce req in
    let electionId := electionIdOf config req in
    if blank tokenId || blank candidateId then
      (json 400 (errorBody "VALIDATION_ERROR" "tokenId and candidateId are required" []),
       db)
    else
      let trimmedTokenId := trim (js_or tokenId "") in
      let trimmedCandidateId := trim (js_or candidateId "") in
      match submit voterId trimmedTokenId electionId trimmedCandidateId nonce now
                   serverSig sched db with
      | (inr result, db') =>
          (json 201 [("status", JStr "accepted");
                     ("electionId", JStr (res_electionId result));
                     ("candidateId", JStr (res_candidateId result))], db')
      | (inl err, db') => (submitVoteCatch err, db')
      end.

(** ** [src/services/otpService.js] *)

Definition OTP_TTL_MS : Z := 5 * 60 * 1000.

Record OtpEntry : Type := mkOtpEntry { otp_code : string; otp_expiresAt : Z }.

(** The module-level [Map] [otpStore]. *)
Definition OtpStore : Type := list (string * OtpEntry).

Fixpoint mapSet (k : string) (v : OtpEntry) (m : OtpStore) : OtpStore :=
  match m with
  | [] => [(k, v)]
  | (k', v') :: rest =>
      if String.eqb k' k then (k, v) :: rest else (k', v') :: mapSet k v rest
  end.

(** What lives outside the database: the stub's store and the console. *)
Record World : Type := mkWorld
  { db : Db;
    otpStore : OtpStore;
    console : list string }.

(** [otpService.sendOtp(phone, phoneHash)]; [code] is the result of
    [generateOtpCode()], [dateNow] of [Date.now()]. *)
Definition otpService_sendOtp (phone phoneHash code : string) (dateNow : Z)
           (w : World) : OtpEntry * World :=
  let expiresAt := dateNow + OTP_TTL_MS in
  (mkOtpEntry code expiresAt,
   mkWorld (db w)
           (mapSet phoneHash (mkOtpEntry code expiresAt) (otpStore w))
           (console w ++ ["[OTP] For phone " ++ phone ++ ": " ++ code
                          ++ " (valid 5 minutes)"])).

(** ** [src/controllers/authController.js] *)

Definition OTP_WINDOW_MS : Z := 60 * 60 * 1000.
Definition OTP_MAX_PER_WINDOW : Z := 10.
Definition LOGIN_WINDOW_MS : Z := 15 * 60 * 1000.
Definition LOGIN_MAX_FAILED : Z := 5.

(** [d.windowEndsAt && d.windowEndsAt > now] *)
Definition windowActive (windowEndsAt : option Z) (now : Z) : bool :=
  match windowEndsAt with
  | Some w => now <? w
  | None => false
  end.

(** [existing && existing.windowEndsAt && existing.windowEndsAt > now]:
    the attempt document when its window is still running. *)
Definition inWindow (existing : option (Row OtpAttempt.t)) (now : Z)
  : option (Row OtpAttempt.t) :=
  match existing with
  | Some e => if windowActive (OtpAttempt.windowEndsAt (doc e)) now then Some e else None
  | None => None
  end.

(** Lines 42-77 of [sendOtp]: [Some res] is the early [return] of the
    rate-limited branch, [None] falls through to the OTP stub. *)
Definition sendOtpCount (phoneHash : string) (now : Z) : Prog (option Response) :=
  const existing <- await (findOne otp_attempts (byPhoneHash phoneHash) false);
  match inWindow existing now with
  | Some existing =>
      if OTP_MAX_PER_WINDOW <=? OtpAttempt.count (doc existing) then
        Return (Some (json 429
          (errorBody "OTP_RATE_LIMITED"
             "Too many OTP requests for this phone. Please try again later."
             [("maxPerWindow", JNum OTP_MAX_PER_WINDOW);
              ("windowMs", JNum OTP_WINDOW_MS)])))
      else
        await (updateOne otp_attempts (byId (_id existing)) incOtpCount None false);
        Return None
  | None =>
      let windowEndsAt := now + OTP_WINDOW_MS in
      let fresh := OtpAttempt.mk phoneHash 1 (Some windowEndsAt) now [] in
      await (updateOne otp_attempts (byPhoneHash phoneHash)
                       (fun _ => fresh) (Some fresh) false);
      Return None
  end.

(** [sendOtp(req, res, next)]; [phone] is [req.body.phone] when it is a
    string. *)
Definition sendOtp (phone : option string) (now : Z) (code : string) (dateNow : Z)
           (sched : Schedule) (w : World) : Response * World :=
  if blank phone then
    (json 400 (errorBody "VALIDATION_ERROR" "Phone is required" []), w)
  else
    let normalizedPhone := trim (js_or phone "") in
    let phoneHash := hashPhone normalizedPhone in
    match run (sendOtpCount phoneHash now) sched (db w) with
    | (inl err, db') => (next err, mkWorld db' (otpStore w) (console w))
    | (inr (Some res), db') => (res, mkWorld db' (otpStore w) (console w))
    | (inr None, db') =>
        let '(_, w') := otpService_sendOtp normalizedPhone phoneHash code dateNow
                          (mkWorld db' (otpStore w) (console w)) in
        (json 200 [("status", JStr "ok");
                   ("message",
                    JStr "OTP sent (stub). Check server logs for code in dev.")],
         w')
    end.

(** [!attemptDoc || !attemptDoc.windowEndsAt || attemptDoc.windowEndsAt <= now] *)
Definition lapsed (attemptDoc : option (Row LoginAttempt.t)) (now : Z) : bool :=
  match attemptDoc with
  | None => true
  | Some a =>
      match LoginAttempt.windowEndsAt (doc a) with
      | None => true
      | Some w => w <=? now
      end
  end.

(** [recordLoginFailure(loginAttempts, voterId, attemptDoc, now)] *)
Definition recordLoginFailure (voterId : string)
           (attemptDoc : option (Row LoginAttempt.t)) (now : Z) : Prog unit :=
  if lapsed attemptDoc now then
    let windowEndsAt := now + LOGIN_WINDOW_MS in
    let fresh := LoginAttempt.mk voterId 1 (Some windowEndsAt) now [] in
    await (updateOne login_attempts (byLoginVoterId voterId)
                     (fun _ => fresh) (Some fresh) false);
    Return tt
  else
    await (updateOne login_attempts (byLoginVoterId voterId) incLoginCount None false);
    Return tt.

(** A failed login as [login] records it: the attempt document is the
    one [login] read with [loginAttempts.findOne({ voterId })] (line 215)
    and hands to [recordLoginFailure] (lines 240 and 261). *)
Definition loginFailure (voterId : string) (now : Z) : Prog unit :=
  const attemptDoc <- await (findOne login_attempts (byLoginVoterId voterId) false);
  recordLoginFailure voterId attemptDoc now.

End Handlers.

(** ** Properties of program trees *)

(** Every awaited call satisfies [okOp] and every thrown error [okErr]. *)
Inductive ProgAll {A} (okOp : forall X, Op X -> Prop) (okErr : Error -> Prop)
  : Prog A -> Prop :=
| ProgAll_Return a : ProgAll okOp okErr (Return a)
| ProgAll_Throw e : okErr e -> ProgAll okOp okErr (Throw e)
| ProgAll_Await X (op : Op X) k :
    okOp X op -> (forall x, ProgAll okOp okErr (k x)) ->
    ProgAll okOp okErr (Await op k).

Definition passesSession (X : Type) (op : Op X) : Prop := inSession op = true.

(** An error the [catch] block of [submitVote] answers with its own code:
    [err.status && err.code]. *)
Definition hasStatusAndCode (e : Error) : Prop :=
  status e <> 0 /\ code e <> "".

(** ** Observations *)

Definition failureCode {A} (r : Error + A) : option string :=
  match r with
  | inl e => Some (code e)
  | inr _ => None
  end.

(** The [code] field of an error response. *)
Definition responseCode (res : Response) : option string :=
  match res with
  | json _ body =>
      match getField "code" body with
      | Some (JStr c) => Some c
      | _ => None
      end
  | next _ => None
  end.

Definition otpCountOf (phoneHash : string) (d : Db) : option Z :=
  option_map (fun r => OtpAttempt.count (doc r))
             (db_findOne otp_attempts (byPhoneHash phoneHash) d).

Definition otpWindowOf (phoneHash : string) (d : Db) : option Z :=
  match db_findOne otp_attempts (byPhoneHash phoneHash) d with
  | Some r => OtpAttempt.windowEndsAt (doc r)
  | None => None
  end.

Definition loginCountOf (voterId : string) (d : Db) : option Z :=
  option_map (fun r => LoginAttempt.count (doc r))
             (db_findOne login_attempts (byLoginVoterId voterId) d).

Definition loginWindowOf (voterId : string) (d : Db) : option Z :=
  match db_findOne login_attempts (byLoginVoterId voterId) d with
  | Some r => LoginAttempt.windowEndsAt (doc r)
  | None => None
  end.

(** [_id]s are unique within a collection and below [nextId], as the store
    hands them out. *)
Definition uniqueIds {T} (rs : list (Row T)) (bound : ObjectId) : Prop :=
  NoDup (map _id rs) /\ forall r, In r rs -> (_id r < bound)%nat.

(** All of [submitVoteTxn]'s own checks pass against [d]. *)
Definition checksPass (voterId tokenId electionId candidateId : string)
           (nonce : option string) (now : Z) (d : Db) : Prop :=
  exists voter token candidate,
    db_findOne voters (byVoterId voterId) d = Some voter /\
    Voter.status (doc voter) = "active" /\
    Voter.hasVoted (doc voter) = false /\
    db_findOne votingTokens (byTokenAndElection tokenId electionId) d = Some token /\
    VotingToken.spent (doc token) = false /\
    expired (VotingToken.expiresAt (doc token)) now = false /\
    nonceMismatch nonce (doc token) = false /\
    db_findOne candidates (activeCandidate electionId candidateId) d = Some candidate.

(** Consecutive handler calls, each on the state the previous one left. *)
Definition sendOtpSeq (trim hashPhone : string -> string) (phone : option string)
           (calls : list (Z * string * Z)) (w : World) : World :=
  fold_left (fun w '(now, code, dateNow) =>
               snd (sendOtp trim hashPhone phone now code dateNow [] w))
            calls w.

Definition loginFailureSeq (voterId : string) (times : list Z) (d : Db) : Db :=
  fold_left (fun d now => snd (run (loginFailure voterId now) [] d)) times d.

(** ** The specification's reading of the checks

    These definitions follow the specification's words (sections 4.2 to 4.4
    and 7); the theorems below compare them with the handlers. *)

Inductive FailureKind : Type :=
| ElectionNotOpen
| VoterNotFound
| VoterInactive
| AlreadyVoted
| InvalidVoteToken
| TokenAlreadyUsed
| TokenExpired
| TokenNonceMismatch
| InvalidCandidate.

(** The machine-readable code each kind is surfaced under. *)
Definition kindCode (k : FailureKind) : string :=
  match k with
  | ElectionNotOpen => "ELECTION_NOT_OPEN"
  | VoterNotFound => "VOTER_NOT_FOUND"
  | VoterInactive => "VOTER_INACTIVE"
  | AlreadyVoted => "ALREADY_VOTED"
  | InvalidVoteToken => "INVALID_VOTE_TOKEN"
  | TokenAlreadyUsed => "TOKEN_ALREADY_USED"
  | TokenExpired => "TOKEN_EXPIRED"
  | TokenNonceMismatch => "TOKEN_NONCE_MISMATCH"
  | InvalidCandidate => "INVALID_CANDIDATE"
  end.

(** An ordered list of preconditions, each with the kind its failure is
    reported as: the first one that does not hold decides. *)
Fixpoint firstFailure (checks : list (bool * FailureKind)) : option FailureKind :=
  match checks with
  | [] => None
  | (holds, kind) :: rest => if holds then firstFailure rest else Some kind
  end.

Definition isSome {T} (x : option T) : bool :=
  match x with Some _ => true | None => false end.

(** A condition on a record that is only there when the lookup found it. *)
Definition whenFound {T} (x : option T) (cond : T -> bool) : bool :=
  match x with Some v => cond v | None => true end.

(** Section 4.2: open when the record is absent or its status is "open". *)
Definition spec_isOpen (electionId : string) (d : Db) : bool :=
  match db_findOne elections (byElectionId electionId) d with
  | None => true
  | Some r => String.eqb (Election.status (doc r)) "open"
  end.

(** Section 4.4, items 4 and 5. *)
Definition spec_notExpired (now : Z) (t : VotingToken.t) : bool :=
  match VotingToken.expiresAt t with
  | Some e => now <? e
  | None => true
  end.

Definition spec_nonceAccepted (nonce : option string) (t : VotingToken.t) : bool :=
  match nonce with
  | None => true
  | Some n =>
      match tokenNonceOf t with
      | Some stored => String.eqb n stored
      | None => false
      end
  end.

(** Section 4.4, the ordered validation of [submit]. *)
Definition spec_submit_failure (voterId tokenId electionId candidateId : string)
           (nonce : option string) (now : Z) (d : Db) : option FailureKind :=
  let voter := option_map doc (db_findOne voters (byVoterId voterId) d) in
  let token :=
    option_map doc (db_findOne votingTokens (byTokenAndElection tokenId electionId) d) in
  let candidate :=
    db_findOne candidates (activeCandidate electionId candidateId) d in
  firstFailure
    [ (isSome voter, VoterNotFound);
      (whenFound voter (fun v => String.eqb (Voter.status v) "active"), VoterInactive);
      (whenFound voter (fun v => negb (Voter.hasVoted v)), AlreadyVoted);
      (isSome token, InvalidVoteToken);
      (whenFound token (fun t => negb (VotingToken.spent t)), TokenAlreadyUsed);
      (whenFound token (spec_notExpired now), TokenExpired);
      (whenFound token (spec_nonceAccepted nonce), TokenNonceMismatch);
      (isSome candidate, InvalidCandidate) ].

(** Section 4.3, the preconditions of [issue]. *)
Definition spec_issue_failure (voterId electionId : string) (d : Db)
  : option FailureKind :=
  let voter := option_map doc (db_findOne voters (byVoterId voterId) d) in
  firstFailure
    [ (spec_isOpen electionId d, ElectionNotOpen);
      (isSome voter, VoterNotFound);
      (whenFound voter (fun v => String.eqb (Voter.status v) "active"), VoterInactive);
      (whenFound voter (fun v => negb (Voter.hasVoted v)), AlreadyVoted) ].

(** Stored tokens carry the nonce [issueToken] gave them (32 hex digits):
    never the empty string. *)
Definition noncesNonEmpty (d : Db) : Prop :=
  forall r, In r (rows_votingTokens d) -> tokenNonceOf (doc r) <> Some "".

(** ** Sample data *)

Module Sample.

Definition isSpace (c : ascii) : bool :=
  match nat_of_ascii c with
  | 9%nat | 10%nat | 11%nat | 12%nat | 13%nat | 32%nat => true
  | _ => false
  end.

Fixpoint trimStart (s : string) : string :=
  match s with
  | String c rest => if isSpace c then trimStart rest else s
  | EmptyString => EmptyString
  end.

Fixpoint revOnto (s acc : string) : string :=
  match s with
  | String c rest => revOnto rest (String c acc)
  | EmptyString => acc
  end.

(** [trim] on ASCII white space, enough for the sample requests. *)
Definition trim (s : string) : string :=
  revOnto (trimStart (revOnto (trimStart s) "")) "".

(** A stand-in for the SHA-256 digest. *)
Definition hashPhone (phone : string) : string := "sha256:" ++ phone.

(** Voter [v1] may vote, [v2] has voted, [v3] has voted and was blocked
    afterwards; token [t1] is issued for election [e1], which has been
    closed since. *)
Definition db0 : Db :=
  mkDb [mkRow 0%nat (Voter.mk "v1" "active" false 0);
        mkRow 1%nat (Voter.mk "v2" "active" true 0);
        mkRow 2%nat (Voter.mk "v3" "blocked" true 0)]
       [mkRow 3%nat (VotingToken.mk "t1" "e1" false (Some 300000) 0 0 1
                                    (Some (VotingToken.mkMeta (Some "n1"))))]
       [mkRow 4%nat (Candidate.mk "e1" "c1" "active")]
       []
       [mkRow 5%nat (Election.mk "e1" "closed")]
       [] [] 6%nat.

(** Another client redeems the token with [_id] 3. *)
Definition spendToken3 (d : Db) : Db :=
  snd (db_updateOne votingTokens (unspentById 3%nat) (setSpent 900) None d).

(** No interference before the three reads, then the other redemption. *)
Definition raceOnToken : Schedule := [quiet; quiet; quiet; spendToken3].

Definition world0 : World := mkWorld db0 [] [].

(** The phone number has used up its ten requests of the window that
    ends at 5000. *)
Definition worldFull : World :=
  mkWorld (setCollection otp_attempts
             [mkRow 6%nat (OtpAttempt.mk (hashPhone "0790") 10 (Some 5000) 0 [])]
             (bumpId db0))
          [(hashPhone "0790", mkOtpEntry "123456" 4000)]
          ["[OTP] For phone 0790: 123456 (valid 5 minutes)"].

Definition config0 : Config := mkConfig "e1".

(** A voter submits token [t1] for candidate [c1]. *)
Definition submitReq (voterId : string) : Req.t :=
  Req.mk (Some (Req.mkUser (Some voterId) None))
         (Some (Req.mkBody (Some " t1 ") (Some "c1") None (Some "n1"))).

Definition issueReq (voterId : string) : Req.t :=
  Req.mk (Some (Req.mkUser (Some voterId) None)) None.

End Sample.

(** * Further handlers

    The rest of [voteController.js], [authController.js] and
    [otpService.js], the election handlers of [adminController.js] and the
    bearer-token middleware, on the same store. *)

(** ** Counting documents *)

(** [collection.countDocuments(filter)] *)
Definition db_countDocuments {T} (c : Coll T) (filter : Row T -> bool) (d : Db) : nat :=
  length (List.filter filter (collection c d)).

(** [{}] *)
Definition anyRow {T} (r : Row T) : bool := true.

(** [{ hasVoted: true }] on [voters] *)
Definition hasVotedTrue (r : Row Voter.t) : bool := Voter.hasVoted (doc r).

(** [{ spent: true }] on [votingTokens] *)
Definition spentTrue (r : Row VotingToken.t) : bool := VotingToken.spent (doc r).

(** The votes that [getTotals] and [finalizeElection] count for one
    candidate: the stage [$match: { electionId }] followed by
    [$group: { _id: '$candidateId', votes: { $sum: 1 } }]. *)
Definition voteIsFor (electionId candidateId : string) (r : Row Vote) : bool :=
  match getField "electionId" (doc r), getField "candidateId" (doc r) with
  | Some (JStr e), Some (JStr c) => String.eqb e electionId && String.eqb c candidateId
  | _, _ => false
  end.

Definition candidateVotes (electionId candidateId : string) (d : Db) : nat :=
  db_countDocuments votes (voteIsFor electionId candidateId) d.

(** ** [getMe] of [authController.js] *)

(** The projection [{ _id: 0, voterId: 1, hasVoted: 1, status: 1 }]. *)
Definition projectVoter (v : Voter.t) : JsObject :=
  [("voterId", JStr (Voter.voterId v));
   ("hasVoted", JBool (Voter.hasVoted v));
   ("status", JStr (Voter.status v))].

Definition getMeProg (voterId : string) : Prog Response :=
  const voter <- await (findOne voters (byVoterId voterId) false);
  match voter with
  | None => Return (json 404 (errorBody "VOTER_NOT_FOUND" "Voter not found" []))
  | Some voter => Return (json 200 (projectVoter (doc voter)))
  end.

(** [getMe(req, res, next)] *)
Definition getMe (req : Req.t) (sched : Schedule) (d : Db) : Response * Db :=
  if falsy (voterIdOf req) then
    (json 400 (errorBody "BAD_TOKEN" "Token is missing voterId" []), d)
  else
    match run (getMeProg (js_or (voterIdOf req) "")) sched d with
    | (inr res, d') => (res, d')
    | (inl err, d') => (next err, d')
    end.

(** ** The election handlers of [adminController.js]

    The election record of this model carries [electionId] and [status];
    the [updatedAt], [createdAt] and [meta] the updates also write are not
    carried. *)

Module AdminReq.
Record t : Type := mk
  { body_electionId : option string;     (* req.body && req.body.electionId *)
    query_electionId : option string }.  (* req.query && req.query.electionId *)
End AdminReq.

(** [getElectionIdFromReq(req)] *)
Definition getElectionIdFromReq (config : Config) (req : AdminReq.t) : string :=
  js_or (AdminReq.body_electionId req)
        (js_or (AdminReq.query_electionId req)
               (js_or (Some (config_electionId config)) "default")).

(** [elections.updateOne({ electionId }, { $set: { electionId, status, .. },
    $setOnInsert: { .. } }, { upsert: true })] *)
Definition upsertElectionStatus (electionId status : string) : Op UpdateResult :=
  updateOne elections (byElectionId electionId)
            (fun _ => Election.mk electionId status)
            (Some (Election.mk electionId status)) false.

(** [openElection(req, res, next)] *)
Definition openElection (config : Config) (req : AdminReq.t) (sched : Schedule) (d : Db)
  : Response * Db :=
  let electionId := getElectionIdFromReq config req in
  match run (await (upsertElectionStatus electionId "open");
             Return (json 200 [("electionId", JStr electionId);
                               ("status", JStr "open")]))
            sched d with
  | (inr res, d') => (res, d')
  | (inl err, d') => (next err, d')
  end.

(** [closeElection(req, res, next)] *)
Definition closeElection (config : Config) (req : AdminReq.t) (sched : Schedule) (d : Db)
  : Response * Db :=
  let electionId := getElectionIdFromReq config req in
  match run (await (upsertElectionStatus electionId "closed");
             Return (json 200 [("electionId", JStr electionId);
                               ("status", JStr "closed")]))
            sched d with
  | (inr res, d') => (res, d')
  | (inl err, d') => (next err, d')
  end.

(** ** Sequences of calls *)

Inductive VoteCall : Type :=
| CallIssueToken (config : Config) (req : Req.t) (now : Z) (tokenId nonce : string)
| CallSubmit (voterId tokenId electionId candidateId : string) (nonce : option string)
             (now : Z) (serverSig : string)
| CallOpenElection (config : Config) (req : AdminReq.t)
| CallCloseElection (config : Config) (req : AdminReq.t).

(** The store one call leaves, without interference. *)
Definition afterCall (call : VoteCall) (d : Db) : Db :=
  match call with
  | CallIssueToken config req now tokenId nonce =>
      snd (issueToken config req now tokenId nonce [] d)
  | CallSubmit v t e c n now sig => snd (submit v t e c n now sig [] d)
  | CallOpenElection config req => snd (openElection config req [] d)
  | CallCloseElection config req => snd (closeElection config req [] d)
  end.

Definition afterCalls (calls : list VoteCall) (d : Db) : Db :=
  fold_left (fun d call => afterCall call d) calls d.

(** A voter row and what it has become: same voter, and once voted, voted. *)
Definition voterKept (a b : Row Voter.t) : Prop :=
  _id a = _id b /\
  Voter.voterId (doc a) = Voter.voterId (doc b) /\
  Voter.status (doc a) = Voter.status (doc b) /\
  (Voter.hasVoted (doc a) = true -> Voter.hasVoted (doc b) = true).

(** A token row and what it has become: same token, and once spent, spent. *)
Definition tokenKept (a b : Row VotingToken.t) : Prop :=
  _id a = _id b /\
  VotingToken.tokenId (doc a) = VotingToken.tokenId (doc b) /\
  VotingToken.electionId (doc a) = VotingToken.electionId (doc b) /\
  VotingToken.expiresAt (doc a) = VotingToken.expiresAt (doc b) /\
  VotingToken.meta (doc a) = VotingToken.meta (doc b) /\
  (VotingToken.spent (doc a) = true -> VotingToken.spent (doc b) = true).

(** How the ballot data may change: voters stay in place, tokens stay in
    place with new ones behind them, votes are only appended. *)
Definition storeKept (d d' : Db) : Prop :=
  Forall2 voterKept (rows_voters d) (rows_voters d') /\
  (exists kept added,
      rows_votingTokens d' = (kept ++ added)%list /\
      Forall2 tokenKept (rows_votingTokens d) kept) /\
  (exists added, rows_votes d' = (rows_votes d ++ added)%list) /\
  rows_candidates d' = rows_candidates d.

(** ** [verifyOtp] of [otpService.js] *)

(** [otpStore.get(key)] *)
Fixpoint mapGet (k : string) (m : OtpStore) : option OtpEntry :=
  match m with
  | [] => None
  | (k', v) :: rest => if String.eqb k' k then Some v else mapGet k rest
  end.

(** [otpStore.delete(key)]; a [Map] holds a key once, so every binding of
    the key goes. *)
Fixpoint mapDelete (k : string) (m : OtpStore) : OtpStore :=
  match m with
  | [] => []
  | (k', v) :: rest =>
      if String.eqb k' k then mapDelete k rest else (k', v) :: mapDelete k rest
  end.

Section Verification.

(** [String.prototype.trim], as before. *)
Variable trim : string -> string.

(** [verifyOtp(phone, phoneHash, code)]; [code] is a string or absent,
    [now] the result of [new Date()]. *)
Definition otpService_verifyOtp (phone phoneHash : string) (code : option string)
           (now : Z) (w : World) : bool * World :=
  match mapGet phoneHash (otpStore w) with
  | None => (false, w)
  | Some entry =>
      if otp_expiresAt entry <? now then
        (false, mkWorld (db w) (mapDelete phoneHash (otpStore w)) (console w))
      else
        let expected := trim (otp_code entry) in
        let provided := trim (js_or code "") in
        if negb (String.eqb expected provided) then (false, w)
        else (true, mkWorld (db w) (mapDelete phoneHash (otpStore w)) (console w))
  end.

End Verification.

(** ** Bearer tokens: [lib/jwt.js], [middlewares/authVoter.js] and
    [middlewares/authAdmin.js] *)

(** [s.split(sep)] for a separator of one character. *)
Fixpoint splitOn (sep : ascii) (s : string) : list string :=
  match s with
  | EmptyString => [EmptyString]
  | String c rest =>
      if Ascii.eqb c sep then EmptyString :: splitOn sep rest
      else match splitOn sep rest with
           | part :: parts => String c part :: parts
           | [] => [String c EmptyString]
           end
  end.

Fixpoint hasChar (c : ascii) (s : string) : bool :=
  match s with
  | EmptyString => false
  | String c' rest => Ascii.eqb c' c || hasChar c rest
  end.

Module Headers.
Record t : Type := mk
  { authorization : option string;      (* req.headers['authorization'] *)
    Authorization : option string }.    (* req.headers['Authorization'] *)
End Headers.

(** [extractBearerToken(req)], the same function in both middlewares. *)
Definition extractBearerToken (headers : Headers.t) : option string :=
  let authHeader :=
    if falsy (Headers.authorization headers) then Headers.Authorization headers
    else Headers.authorization headers in
  if falsy authHeader then None
  else
    match splitOn " " (js_or authHeader "") with
    | [scheme; token] => if String.eqb scheme "Bearer" then Some token else None
    | _ => None
    end.

(** The value of a [scope] or [scopes] claim: an array of strings, a
    string, or something else that is truthy; a falsy value counts as
    absent. *)
Inductive Scope : Type :=
| ScopeArray (items : list string)
| ScopeString (s : string)
| ScopeOther.

(** A token's payload: the scope claims next to the other claims. *)
Record JwtPayload : Type := mkPayload
  { claims : JsObject;
    scope : option Scope;
    scopes : option Scope }.

Definition truthyScope (x : option Scope) : bool :=
  match x with
  | Some (ScopeString s) => negb (String.eqb s "")
  | Some _ => true
  | None => false
  end.

Record SignJwtOptions : Type := mkSignJwtOptions
  { opt_expiresIn : option string;
    opt_subject : option string;
    opt_jwtid : option string;
    opt_scopes : option Scope }.

(** The options [signJwt] hands to [jwt.sign]. *)
Record JwtSignOptions : Type := mkJwtSignOptions
  { algorithm : string;
    expiresIn : string;
    jwtid : string;
    subject : option string }.

(** [db.collection.deleteOne(filter)]: the first row the filter accepts
    goes. *)
Fixpoint deleteFirst {T} (filter : Row T -> bool) (rs : list (Row T)) : list (Row T) :=
  match rs with
  | [] => []
  | r :: rest => if filter r then rest else r :: deleteFirst filter rest
  end.

Definition db_deleteOne {T} (c : Coll T) (filter : Row T -> bool) (d : Db) : Db :=
  setCollection c (deleteFirst filter (collection c d)) d.

Section Authentication.

(** Library functions, left abstract: [String.prototype.trim],
    [s.split(/\s+/)], [jwt.sign] and [jwt.verify] of [jsonwebtoken]
    ([None] when [verify] throws), and the Argon2 check
    [verifyPassword(password, voter.passwordHash)] of [lib/password.js]
    against the hash stored with the voter document (a field the voter
    record of this model does not carry).  [jwtSecret] is
    [config.jwtSecret]. *)
Variable trim : string -> string.
Variable splitSpaces : string -> list string.
Variable jwt_sign : JwtPayload -> string -> JwtSignOptions -> string.
Variable jwt_verify : string -> string -> option JwtPayload.
Variable verifyPassword : string -> Row Voter.t -> bool.
Variable jwtSecret : string.

(** [signJwt(payload, options)]; [uuid] is the result of
    [crypto.randomUUID()]. *)
Definition signJwt (payload : JwtPayload) (options : SignJwtOptions) (uuid : string)
  : string :=
  let jwtId := js_or (opt_jwtid options) uuid in
  let expiresIn := js_or (opt_expiresIn options) "15m" in
  let fullPayload :=
    if truthyScope (opt_scopes options)
       && negb (truthyScope (scope payload)) && negb (truthyScope (scopes payload))
    then mkPayload (claims payload) (opt_scopes options) (scopes payload)
    else payload in
  jwt_sign fullPayload jwtSecret
           (mkJwtSignOptions "HS256" expiresIn jwtId (opt_subject options)).

(** [verifyJwt(token)] *)
Definition verifyJwt (token : string) : Error + JwtPayload :=
  match jwt_verify token jwtSecret with
  | Some decoded => inr decoded
  | None => inl (mkError "Invalid or expired token" "INVALID_TOKEN" 401 (Some []))
  end.

(** [hasScope(payload, requiredScope)], the same function in both
    middlewares. *)
Definition hasScope (payload : JwtPayload) (requiredScope : string) : bool :=
  let scope := if truthyScope (scope payload) then scope payload else scopes payload in
  if negb (truthyScope scope) then false
  else
    match scope with
    | Some (ScopeArray items) => existsb (String.eqb requiredScope) items
    | Some (ScopeString s) => existsb (String.eqb requiredScope) (splitSpaces s)
    | _ => false
    end.

(** The [catch] block of the middlewares. *)
Definition authCatch (err : Error) : Response :=
  json (if status err =? 0 then 401 else status err)
       (errorBody (js_or (Some (code err)) "INVALID_TOKEN")
                  (js_or (Some (message err)) "Invalid or expired token")
                  (match details err with Some d => d | None => [] end)).

(** [authVoter(req, res, next)]: [inr user] stands for [req.user = user;
    next()]. *)
Definition authVoter (headers : Headers.t) : Response + JwtPayload :=
  match extractBearerToken headers with
  | None =>
      inl (json 401 (errorBody "UNAUTHORIZED" "Missing or invalid Authorization header" []))
  | Some token =>
      if String.eqb token "" then
        inl (json 401
               (errorBody "UNAUTHORIZED" "Missing or invalid Authorization header" []))
      else
        match verifyJwt token with
        | inl err => inl (authCatch err)
        | inr decoded =>
            if negb (hasScope decoded "voter") then
              inl (json 403 (errorBody "FORBIDDEN" "Voter scope required" []))
            else inr decoded
        end
  end.

(** [authAdmin(req, res, next)] *)
Definition authAdmin (headers : Headers.t) : Response + JwtPayload :=
  match extractBearerToken headers with
  | None =>
      inl (json 401 (errorBody "UNAUTHORIZED" "Missing or invalid Authorization header" []))
  | Some token =>
      if String.eqb token "" then
        inl (json 401
               (errorBody "UNAUTHORIZED" "Missing or invalid Authorization header" []))
      else
        match verifyJwt token with
        | inl err => inl (authCatch err)
        | inr decoded =>
            if negb (hasScope decoded "admin") then
              inl (json 403 (errorBody "FORBIDDEN" "Admin scope required" []))
            else inr decoded
        end
  end.

(** ** [login] of [authController.js] *)

(** [attemptDoc && attemptDoc.windowEndsAt && attemptDoc.windowEndsAt > now
    && attemptDoc.count >= LOGIN_MAX_FAILED] *)
Definition lockedOut (attemptDoc : option (Row LoginAttempt.t)) (now : Z) : bool :=
  match attemptDoc with
  | None => false
  | Some a =>
      windowActive (LoginAttempt.windowEndsAt (doc a)) now
      && (LOGIN_MAX_FAILED <=? LoginAttempt.count (doc a))
  end.

Definition invalidCredentials : Response :=
  json 401 (errorBody "INVALID_CREDENTIALS" "Invalid voterId or password" []).

(** [login(req, res, next)], the calls one after the other; [voterId] and
    [password] are the body fields when they are strings. *)
Definition login (voterId password : option string) (now : Z) (uuid : string) (d : Db)
  : Response * Db :=
  if blank trim voterId || blank trim password then
    (json 400 (errorBody "VALIDATION_ERROR" "voterId and password are required" []), d)
  else
    let normalizedVoterId := trim (js_or voterId "") in
    let attemptDoc :=
      db_findOne login_attempts (byLoginVoterId normalizedVoterId) d in
    if lockedOut attemptDoc now then
      (json 423
         (errorBody "ACCOUNT_LOCKED"
            "Too many failed login attempts. Please try again after the lockout window."
            [("maxFailedAttempts", JNum LOGIN_MAX_FAILED);
             ("windowMs", JNum LOGIN_WINDOW_MS)]),
       d)
    else
      match db_findOne voters (byVoterId normalizedVoterId) d with
      | None =>
          (invalidCredentials,
           snd (run (recordLoginFailure normalizedVoterId attemptDoc now) [] d))
      | Some voter =>
          if negb (String.eqb (Voter.status (doc voter)) "active") then
            (json 403 (errorBody "VOTER_INACTIVE" "Voter is not active"
                                 [("status", JStr (Voter.status (doc voter)))]),
             d)
          else if negb (verifyPassword (trim (js_or password "")) voter) then
            (invalidCredentials,
             snd (run (recordLoginFailure normalizedVoterId attemptDoc now) [] d))
          else
            let d' := db_deleteOne login_attempts (byLoginVoterId normalizedVoterId) d in
            let token :=
              signJwt (mkPayload [("voterId", JStr (Voter.voterId (doc voter)));
                                  ("hasVoted", JBool (Voter.hasVoted (doc voter)));
                                  ("status", JStr (Voter.status (doc voter)))]
                                 (Some (ScopeArray ["voter"])) None)
                      (mkSignJwtOptions (Some "1h") (Some (Voter.voterId (doc voter)))
                                        None None)
                      uuid in
            (json 200 [("token", JStr token);
                       ("voter", JObj (projectVoter (doc voter)))],
             d')
      end.

(** The answer of [login] to a locked account. *)
Definition accountLocked : Response :=
  json 423
    (errorBody "ACCOUNT_LOCKED"
       "Too many failed login attempts. Please try again after the lockout window."
       [("maxFailedAttempts", JNum 5); ("windowMs", JNum (15 * 60 * 1000))]).

(** Consecutive [login] requests for one voter id, each given by its
    password, its time and its random id. *)
Definition loginSeq (voterId : option string) (calls : list (option string * Z * string))
           (d : Db) : Db :=
  fold_left (fun d '(password, now, uuid) => snd (login voterId password now uuid d))
            calls d.

(** The credentials are wrong for the store: no such voter, or an active
    voter whose password check fails. *)
Definition wrongCredentials (voterId password : option string) (d : Db) : Prop :=
  match db_findOne voters (byVoterId (trim (js_or voterId ""))) d with
  | None => True
  | Some voter =>
      Voter.status (doc voter) = "active" /\
      verifyPassword (trim (js_or password "")) voter = false
  end.

End Authentication.

(** ** errorHandler

    The central error middleware: every missing field of the error is
    replaced by its default. *)
Definition errorHandler (err : Error) : Response :=
  let status' := if status err =? 0 then 500 else status err in
  let code' := js_or (Some (code err)) "INTERNAL_ERROR" in
  let message' := js_or (Some (message err)) "Internal server error" in
  let details' := match details err with Some d => d | None => [] end in
  json status' (errorBody code' message' details').

(** An error with a status, a code and a message. *)
Definition hasEnvelope (e : Error) : Prop :=
  status e <> 0 /\ code e <> "" /\ message e <> "".

(** ** Which collection a call goes to *)

Definition isElections {T} (c : Coll T) : bool :=
  match c with
  | elections => true
  | _ => false
  end.

Definition onElections {X} (op : Op X) : bool :=
  match op with
  | findOne c _ _ => isElections c
  | updateOne c _ _ _ _ => isElections c
  | insertOne c _ _ => isElections c
  end.

(** A call on any collection but [elections]. *)
Definition avoidsElections (X : Type) (op : Op X) : Prop := onElections op = false.

(** The store with the [elections] collection emptied. *)
Definition withoutElections (d : Db) : Db := setCollection elections [] d.

(** Two stores that differ in their [elections] collections at most. *)
Definition sameButElections (d d' : Db) : Prop :=
  withoutElections d = withoutElections d'.

(** Two writes of other clients that differ in what they do to
    [elections] at most, and two interleavings of such writes. *)
Definition sameButElectionsWrite (w w' : Db -> Db) : Prop :=
  forall d d', sameButElections d d' -> sameButElections (w d) (w' d').

Definition sameButElectionsSchedule (sched sched' : Schedule) : Prop :=
  Forall2 sameButElectionsWrite sched sched'.

(** ** Overlapping requests

    A handler that reads with its first awaited call and writes with its
    second one, and another client whose calls all fall between the
    two. *)
Definition between (other : Db -> Db) : Schedule := [quiet; other].

(** Lines 42-77 of another [sendOtp] request, as one step. *)
Definition otherSendOtp (phoneHash : string) (now : Z) (d : Db) : Db :=
  snd (run (sendOtpCount phoneHash now) [] d).

(** ** More sample data *)

Module Sample2.

(** The sample store with a second voter, [v4], who may vote. *)
Definition db1 : Db :=
  setCollection voters
    (rows_voters Sample.db0 ++ [mkRow 6%nat (Voter.mk "v4" "active" false 0)])
    (bumpId Sample.db0).

Definition adminReq (electionId : string) : AdminReq.t :=
  AdminReq.mk (Some electionId) None.

(** The same store before any election record exists: [e1] counts as
    open. *)
Definition db2 : Db := setCollection elections [] db1.

(** Stand-ins for the library functions: the password of voter [v] is
    [pw-v], a signed token shows its id, only [tok-v1] verifies, and a
    scope string is one word. *)
Definition verifyPassword (password : string) (voter : Row Voter.t) : bool :=
  String.eqb password ("pw-" ++ Voter.voterId (doc voter)).

Definition jwt_sign (payload : JwtPayload) (secret : string) (options : JwtSignOptions)
  : string :=
  "jwt." ++ jwtid options.

Definition voterPayload : JwtPayload :=
  mkPayload [("voterId", JStr "v1"); ("sub", JStr "v1")] (Some (ScopeArray ["voter"])) None.

Definition jwt_verify (token secret : string) : option JwtPayload :=
  if String.eqb token "tok-v1" then Some voterPayload else None.

Definition splitSpaces (s : string) : list string := [s].

(** Voter [v1] has five failed logins in the window that ends at 900000. *)
Definition dbLocked : Db :=
  setCollection login_attempts
    [mkRow 7%nat (LoginAttempt.mk "v1" 5 (Some 900000) 0 [])]
    (bumpId db1).

(** Five wrong guesses for one voter id, a second apart. *)
Definition fiveWrong : list (option string * Z * string) :=
  [(Some "guess", 1000, "u1"); (Some "guess", 2000, "u2"); (Some "guess", 3000, "u3");
   (Some "guess", 4000, "u4"); (Some "guess", 5000, "u5")].

(** The phone number has used nine of the ten requests of the window that
    ends at 5000. *)
Definition worldNine : World :=
  mkWorld (setCollection otp_attempts
             [mkRow 6%nat (OtpAttempt.mk (Sample.hashPhone "0790") 9 (Some 5000) 0 [])]
             (bumpId Sample.db0))
          [(Sample.hashPhone "0790", mkOtpEntry "123456" 4000)]
          ["[OTP] For phone 0790: 123456 (valid 5 minutes)"].

(** Voter [v1] is issued a token for [e1] at time 1000. *)
Definition issued : Response * Db :=
  issueToken Sample.config0 (Sample.issueReq "v1") 1000 "uuid-1" "0a1b" [] db2.

End Sample2.

(** * Theorems *)

(** ** The store *)

Lemma find_some_iff_updateFirst {T} (filter : Row T -> bool) (update : T -> T) rs :
  find filter rs = None <-> updateFirst filter update rs = None.
Proof.
  induction rs as [|r rs IH]; simpl; [tauto|].
  destruct (filter r); [split; discriminate|].
  destruct (updateFirst filter update rs); [|tauto].
  split; [intros H; apply IH in H; discriminate | discriminate].
Qed.

Lemma updateFirst_of_find {T} (filter : Row T -> bool) (update : T -> T) rs r :
  find filter rs = Some r -> exists rs', updateFirst filter update rs = Some rs'.
Proof.
  intros H. destruct (updateFirst filter update rs) eqn:E; eauto.
  apply find_some_iff_updateFirst in E. congruence.
Qed.

(** After an update that keeps the filter's verdict on the row it rewrote,
    the filter finds that row, rewritten. *)
Lemma find_after_updateFirst {T} (filter : Row T -> bool) (update : T -> T) rs rs' r :
  find filter rs = Some r ->
  filter (mkRow (_id r) (update (doc r))) = true ->
  updateFirst filter update rs = Some rs' ->
  find filter rs' = Some (mkRow (_id r) (update (doc r))).
Proof.
  revert rs'. induction rs as [|a rs IH]; simpl; intros rs' Hf Hk Hu; [discriminate|].
  destruct (filter a) eqn:Ea.
  - inversion Hf; inversion Hu; subst. simpl. now rewrite Hk.
  - destruct (updateFirst filter update rs) as [rest|]; [|discriminate].
    inversion Hu; subst. simpl. rewrite Ea. now apply IH.
Qed.

(** A weaker filter than the one that found a row matches as well. *)
Lemma updateFirst_matches {T} (found filter : Row T -> bool) (update : T -> T) rs r :
  find found rs = Some r -> filter r = true ->
  exists rs', updateFirst filter update rs = Some rs'.
Proof.
  intros Hf Hr. apply find_some in Hf as [Hin _].
  destruct (updateFirst filter update rs) eqn:E; eauto.
  apply find_some_iff_updateFirst in E.
  now rewrite (find_none _ _ E _ Hin) in Hr.
Qed.

(** ** The unit of work, call by call *)

Ltac step_prog := cbn -[db_findOne db_updateOne db_insertOne Z.leb Z.ltb].

Ltac run_submit := unfold submit, withTransaction, submitVoteTxn; step_prog.

Lemma submit_expired v t e c n now sig d voter token ex :
  db_findOne voters (byVoterId v) d = Some voter ->
  Voter.status (doc voter) = "active" ->
  Voter.hasVoted (doc voter) = false ->
  db_findOne votingTokens (byTokenAndElection t e) d = Some token ->
  VotingToken.spent (doc token) = false ->
  VotingToken.expiresAt (doc token) = Some ex ->
  ex <= now ->
  submit v t e c n now sig [] d
  = (inl (mkError "Voting token has expired" "TOKEN_EXPIRED" 410 None), d).
Proof.
  intros Hv Ha Hn Ht Hs He Hle. run_submit.
  rewrite Hv, Ha, Hn. step_prog. rewrite Ht, Hs, He. step_prog.
  destruct (Z.leb_spec ex now); [reflexivity | lia].
Qed.


(** ** A redemption whose checks pass *)

(** The store a committed redemption leaves: the token row spent, the vote
    appended, the voter row flagged; nothing else touched. *)
Lemma submit_commits v t e c n now sig d voter token :
  db_findOne voters (byVoterId v) d = Some voter ->
  db_findOne votingTokens (byTokenAndElection t e) d = Some token ->
  checksPass v t e c n now d ->
  exists vs' ts',
    updateFirst (byVoterId v) (setHasVoted now) (rows_voters d) = Some vs' /\
    updateFirst (unspentById (_id token)) (setSpent now) (rows_votingTokens d) = Some ts' /\
    submit v t e c n now sig [] d
    = (inr (mkSubmitResult e c),
       mkDb vs' ts' (rows_candidates d)
            (rows_votes d ++ [mkRow (nextId d) (voteDoc e c now sig)])
            (rows_elections d) (rows_otp_attempts d) (rows_login_attempts d)
            (S (nextId d))).
Proof.
  intros Hv Ht (voter' & token' & cand & Hv' & Ha & Hn & Ht' & Hs & He & Hm & Hc).
  rewrite Hv in Hv'; rewrite Ht in Ht'; inversion Hv'; inversion Ht'; subst voter' token'.
  destruct (updateFirst_matches (byVoterId v) (byVoterId v) (setHasVoted now)
              (rows_voters d) voter Hv) as [vs' Hvs].
  { apply find_some in Hv as [_ Hv]. exact Hv. }
  destruct (updateFirst_matches (byTokenAndElection t e) (unspentById (_id token))
              (setSpent now) (rows_votingTokens d) token Ht) as [ts' Hts].
  { unfold unspentById. now rewrite Nat.eqb_refl, Hs. }
  exists vs', ts'. repeat split; try assumption.
  run_submit. rewrite Hv, Ha, Hn. step_prog. rewrite Ht, Hs, He, Hm. step_prog.
  rewrite Hc. step_prog.
  unfold db_updateOne at 1. cbn [collection]. rewrite Hts. step_prog.
  unfold db_updateOne, db_insertOne. cbn. rewrite Hvs. reflexivity.
Qed.


Lemma find_none_of_all {T} (filter : Row T -> bool) rs :
  (forall r, In r rs -> filter r = false) -> find filter rs = None.
Proof.
  induction rs as [|a rs IH]; simpl; intros H; [reflexivity|].
  rewrite (H a (or_introl eq_refl)). apply IH. intros r Hr. apply H. now right.
Qed.

(** The second of two identical calls stops at the voter check. *)
Lemma submit_again_already_voted v t e c n now sig now' sig' d d1 :
  checksPass v t e c n now d ->
  submit v t e c n now sig [] d = (inr (mkSubmitResult e c), d1) ->
  submit v t e c n now' sig' [] d1
  = (inl (mkError "Voter has already cast a vote" "ALREADY_VOTED" 409 None), d1).
Proof.
  intros Hp Hrun.
  pose proof Hp as (voter & token & cand & Hv & Ha & Hn & Ht & _).
  destruct (submit_commits v t e c n now sig d voter token Hv Ht Hp)
    as (vs' & ts' & Hvs & _ & Heq).
  rewrite Heq in Hrun. inversion Hrun; subst d1; clear Hrun.
  assert (Hf : db_findOne voters (byVoterId v)
                 (mkDb vs' ts' (rows_candidates d)
                    (rows_votes d ++ [mkRow (nextId d) (voteDoc e c now sig)])
                    (rows_elections d) (rows_otp_attempts d) (rows_login_attempts d)
                    (S (nextId d)))
               = Some (mkRow (_id voter) (setHasVoted now (doc voter)))).
  { unfold db_findOne; cbn [collection rows_voters].
    apply find_after_updateFirst with (rs := rows_voters d); try assumption.
    apply find_some in Hv as [_ Hv]. exact Hv. }
  run_submit. rewrite Hf. cbn [doc setHasVoted Voter.status Voter.hasVoted].
  rewrite Ha. reflexivity.
Qed.

(** The conditional write of step 4: when another client's write leaves no
    row with the token's [_id] and [spent = false], the write matches
    nothing and the unit aborts. *)
Lemma submit_lost_race v t e c n now sig d token w rest :
  checksPass v t e c n now d ->
  db_findOne votingTokens (byTokenAndElection t e) d = Some token ->
  (forall r, In r (rows_votingTokens (w d)) ->
             _id r = _id token -> VotingToken.spent (doc r) = true) ->
  submit v t e c n now sig (quiet :: quiet :: quiet :: w :: rest) d
  = (inl (mkError "Voting token already used" "TOKEN_ALREADY_USED" 409 None), w d).
Proof.
  intros (voter & token' & cand & Hv & Ha & Hn & Ht' & Hs & He & Hm & Hc) Ht Hw.
  rewrite Ht in Ht'; inversion Ht'; subst token'.
  assert (Hnone : updateFirst (unspentById (_id token)) (setSpent now)
                    (rows_votingTokens (w d)) = None).
  { apply (proj1 (find_some_iff_updateFirst _ _ _)), find_none_of_all. intros r Hr.
    unfold unspentById. destruct (Nat.eqb_spec (_id r) (_id token)) as [E|]; [|reflexivity].
    now rewrite (Hw r Hr E). }
  unfold quiet. run_submit. rewrite Hv, Ha, Hn. step_prog.
  rewrite Ht, Hs, He, Hm. step_prog. rewrite Hc. step_prog.
  unfold db_updateOne. cbn [collection]. rewrite Hnone. reflexivity.
Qed.

(** C1 (amended): of two sequential [submit] calls with identical valid
    arguments the first succeeds and returns [{electionId, candidateId}];
    the second fails with AlreadyVoted, because the voter check comes
    before the token checks.  The token-spend write is conditional on
    [(_id, spent = false)], and when it matches no row the call aborts with
    TokenAlreadyUsed. *)
Theorem submit_twice_sequentially v t e c n now sig d :
  checksPass v t e c n now d ->
  exists d1,
    submit v t e c n now sig [] d = (inr (mkSubmitResult e c), d1) /\
    (forall now' sig',
        submit v t e c n now' sig' [] d1
        = (inl (mkError "Voter has already cast a vote" "ALREADY_VOTED" 409 None), d1)) /\
    (forall token w rest,
        db_findOne votingTokens (byTokenAndElection t e) d = Some token ->
        (forall r, In r (rows_votingTokens (w d)) ->
                   _id r = _id token -> VotingToken.spent (doc r) = true) ->
        submit v t e c n now sig (quiet :: quiet :: quiet :: w :: rest) d
        = (inl (mkError "Voting token already used" "TOKEN_ALREADY_USED" 409 None),
           w d)).
Proof.
  intros Hp.
  pose proof Hp as (voter & token & cand & Hv & _ & _ & Ht & _).
  destruct (submit_commits v t e c n now sig d voter token Hv Ht Hp)
    as (vs' & ts' & _ & _ & Heq).
  eexists. split; [exact Heq|]. split.
  - intros now' sig'. eapply submit_again_already_voted; eassumption.
  - intros token' w rest Ht' Hw. now apply submit_lost_race with (token := token').
Qed.

Lemma submit_twice_sequentially_witness :
  checksPass "v1" "t1" "e1" "c1" (Some "n1") 1000 Sample.db0 /\
  exists d1,
    submit "v1" "t1" "e1" "c1" (Some "n1") 1000 "sig" [] Sample.db0
    = (inr (mkSubmitResult "e1" "c1"), d1) /\
    (forall now' sig',
        submit "v1" "t1" "e1" "c1" (Some "n1") now' sig' [] d1
        = (inl (mkError "Voter has already cast a vote" "ALREADY_VOTED" 409 None), d1)) /\
    (forall token w rest,
        db_findOne votingTokens (byTokenAndElection "t1" "e1") Sample.db0 = Some token ->
        (forall r, In r (rows_votingTokens (w Sample.db0)) ->
                   _id r = _id token -> VotingToken.spent (doc r) = true) ->
        submit "v1" "t1" "e1" "c1" (Some "n1") 1000 "sig"
               (quiet :: quiet :: quiet :: w :: rest) Sample.db0
        = (inl (mkError "Voting token already used" "TOKEN_ALREADY_USED" 409 None),
           w Sample.db0)).
Proof.
  assert (H : checksPass "v1" "t1" "e1" "c1" (Some "n1") 1000 Sample.db0).
  { do 3 eexists. repeat split; reflexivity. }
  split; [exact H|].
  exact (submit_twice_sequentially "v1" "t1" "e1" "c1" (Some "n1") 1000 "sig"
           Sample.db0 H).
Defined.

(** C1 as stated fails: after the first call has committed, the same call
    again is answered ALREADY_VOTED, not TOKEN_ALREADY_USED. *)
Lemma submit_twice_second_call_counterexample :
  let args := submit "v1" "t1" "e1" "c1" (Some "n1") 1000 "sig" [] in
  checksPass "v1" "t1" "e1" "c1" (Some "n1") 1000 Sample.db0 /\
  fst (args Sample.db0) = inr (mkSubmitResult "e1" "c1") /\
  failureCode (fst (args (snd (args Sample.db0)))) = Some "ALREADY_VOTED" /\
  failureCode (fst (args (snd (args Sample.db0)))) <> Some "TOKEN_ALREADY_USED".
Proof.
  cbv zeta. split; [do 3 eexists; repeat split; reflexivity|].
  split; [reflexivity|]. split; [reflexivity|]. vm_compute. discriminate.
Qed.

(** The race of step 4 on the sample store: the other client's redemption
    lands between the reads and the conditional write. *)
Example submit_lost_race_sample :
  submit "v1" "t1" "e1" "c1" (Some "n1") 1000 "sig" Sample.raceOnToken Sample.db0
  = (inl (mkError "Voting token already used" "TOKEN_ALREADY_USED" 409 None),
     Sample.spendToken3 Sample.db0).
Proof. reflexivity. Qed.


(** A sequential redemption succeeds only when every check passed. *)
Lemma submit_success_inv v t e c n now sig d r d' :
  submit v t e c n now sig [] d = (inr r, d') -> checksPass v t e c n now d.
Proof.
  run_submit.
  destruct (db_findOne voters (byVoterId v) d) as [voter|] eqn:Hv;
    step_prog; [|discriminate].
  destruct (String.eqb (Voter.status (doc voter)) "active") eqn:Ha;
    step_prog; [|discriminate].
  destruct (Voter.hasVoted (doc voter)) eqn:Hn; step_prog; [discriminate|].
  destruct (db_findOne votingTokens (byTokenAndElection t e) d) as [token|] eqn:Ht;
    step_prog; [|discriminate].
  destruct (VotingToken.spent (doc token)) eqn:Hs; step_prog; [discriminate|].
  destruct (expired (VotingToken.expiresAt (doc token)) now) eqn:He;
    step_prog; [discriminate|].
  destruct (nonceMismatch n (doc token)) eqn:Hm; step_prog; [discriminate|].
  destruct (db_findOne candidates (activeCandidate e c) d) as [cand|] eqn:Hc;
    step_prog; [|discriminate].
  intros _. exists voter, token, cand.
  apply String.eqb_eq in Ha. repeat split; assumption.
Qed.

(** ** The vote record *)

(** C2 (amended): for every successful [submit] the one Vote record
    inserted has exactly the fields electionId, candidateId, createdAt,
    serverSig, version and meta, with version = 1 and meta empty; its
    values are the election, the candidate, the time and the server's
    random signature, so it holds no voter identifier and no token
    identifier. *)
Theorem vote_record_fields v t e c n now sig d r d' :
  submit v t e c n now sig [] d = (inr r, d') ->
  exists vote,
    rows_votes d' = (rows_votes d ++ [mkRow (nextId d) vote])%list /\
    vote = [("electionId", JStr e); ("candidateId", JStr c); ("createdAt", JDate now);
            ("serverSig", JStr sig); ("version", JNum 1); ("meta", JObj [])] /\
    fieldNames vote
    = ["electionId"; "candidateId"; "createdAt"; "serverSig"; "version"; "meta"].
Proof.
  intros Hrun.
  pose proof (submit_success_inv _ _ _ _ _ _ _ _ _ _ Hrun) as Hp.
  pose proof Hp as (voter & token & cand & Hv & _ & _ & Ht & _).
  destruct (submit_commits v t e c n now sig d voter token Hv Ht Hp)
    as (vs' & ts' & _ & _ & Heq).
  rewrite Heq in Hrun. inversion Hrun; subst.
  eexists. split; [reflexivity|]. split; reflexivity.
Qed.

Lemma vote_record_fields_witness :
  submit "v1" "t1" "e1" "c1" (Some "n1") 1000 "sig" [] Sample.db0
  = (inr (mkSubmitResult "e1" "c1"),
     snd (submit "v1" "t1" "e1" "c1" (Some "n1") 1000 "sig" [] Sample.db0)) /\
  exists vote,
    rows_votes (snd (submit "v1" "t1" "e1" "c1" (Some "n1") 1000 "sig" [] Sample.db0))
    = (rows_votes Sample.db0 ++ [mkRow (nextId Sample.db0) vote])%list /\
    vote = [("electionId", JStr "e1"); ("candidateId", JStr "c1");
            ("createdAt", JDate 1000); ("serverSig", JStr "sig");
            ("version", JNum 1); ("meta", JObj [])] /\
    fieldNames vote
    = ["electionId"; "candidateId"; "createdAt"; "serverSig"; "version"; "meta"].
Proof.
  split; [reflexivity|].
  apply (vote_record_fields "v1" "t1" "e1" "c1" (Some "n1") 1000 "sig" Sample.db0
           (mkSubmitResult "e1" "c1")).
  reflexivity.
Defined.

(** C2 as stated fails: the inserted record also has the fields [version]
    and [meta], and its signature field is [serverSig]; its field set is
    not the four names of the claim. *)
Lemma vote_record_fields_counterexample :
  let d1 := snd (submit "v1" "t1" "e1" "c1" (Some "n1") 1000 "sig" [] Sample.db0) in
  fst (submit "v1" "t1" "e1" "c1" (Some "n1") 1000 "sig" [] Sample.db0)
  = inr (mkSubmitResult "e1" "c1") /\
  exists row,
    rows_votes d1 = (rows_votes Sample.db0 ++ [row])%list /\
    In "version" (fieldNames (doc row)) /\
    In "meta" (fieldNames (doc row)) /\
    ~ (forall f, In f (fieldNames (doc row)) <->
                 In f ["electionId"; "candidateId"; "createdAt"; "serverSignature"]).
Proof.
  cbv zeta. split; [reflexivity|].
  eexists. split; [reflexivity|]. cbn.
  split; [tauto|]. split; [tauto|].
  intros H. destruct (proj1 (H "version")) as [E|[E|[E|[E|[]]]]];
    [tauto | discriminate E..].
Qed.


(** ** Aborted transactions *)

(** A program whose calls all pass the session leaves the committed data
    to the other clients, and throws only what its [Throw]s carry. *)
Lemma exec_in_session {A} (okErr : Error -> Prop) (p : Prog A) :
  ProgAll passesSession okErr p ->
  forall sched committed view r committed' view',
    exec p sched committed view = (r, committed', view') ->
    (exists done rest, sched = (done ++ rest)%list /\ committed' = others done committed)
    /\ (forall e, r = inl e -> okErr e).
Proof.
  induction 1 as [a | e He | X op k Hop _ IH]; intros sched c v r c' v' Hrun.
  - inversion Hrun; subst. split; [exists [], sched; auto | discriminate].
  - inversion Hrun; subst. split; [exists [], sched; auto|].
    intros e' E; inversion E; subst; exact He.
  - cbn [exec] in Hrun. unfold step in Hrun. rewrite Hop in Hrun.
    destruct (perform op (interfere sched v)) as [x v1].
    apply IH in Hrun as [(done & rest & Hs & Hc) Herr]. split; [|exact Herr].
    destruct sched as [|w sched]; cbn [interfere tl] in *.
    + destruct done; [|discriminate]. exists [], []. auto.
    + exists (w :: done), rest. subst. auto.
Qed.

Ltac prog_all :=
  repeat first
    [ apply ProgAll_Return
    | apply ProgAll_Throw; split; cbn; discriminate
    | apply ProgAll_Await; [reflexivity | intros]
    | match goal with
      | |- ProgAll _ _ (match ?x with _ => _ end) => destruct x
      end ].

(** Every call of the transaction callback passes the session, and every
    error it throws has a status and a code. *)
Lemma submitVoteTxn_in_session v t e c n now sig :
  ProgAll passesSession hasStatusAndCode (submitVoteTxn v t e c n now sig).
Proof. unfold submitVoteTxn. prog_all. Qed.

(** An aborted unit of work leaves the store to the other clients. *)
Lemma submit_abort v t e c n now sig sched d err d' :
  submit v t e c n now sig sched d = (inl err, d') ->
  exists done rest, sched = (done ++ rest)%list /\ d' = others done d.
Proof.
  unfold submit, withTransaction. intros Hrun.
  destruct (exec (submitVoteTxn v t e c n now sig) sched d d) as [[r c'] v'] eqn:E.
  destruct r as [err'|]; [|discriminate]. inversion Hrun; subst.
  now apply (exec_in_session _ _ (submitVoteTxn_in_session v t e c n now sig) _ _ _ _ _ _ E).
Qed.

(** The handler as a whole: any answer but 201 leaves the store as it was
    (without interference). *)
Lemma submitVote_rejects_without_effect trim config req now sig d :
  snd (submitVote trim config req now sig [] d) = d \/
  exists body, fst (submitVote trim config req now sig [] d) = json 201 body.
Proof.
  unfold submitVote. destruct (falsy (voterIdOf req)); [now left|].
  destruct (_ || _); [now left|].
  destruct (submit _ _ _ _ _ _ _ _ _) as [[err|res] d'] eqn:E.
  - left. destruct (submit_abort _ _ _ _ _ _ _ _ _ _ _ E) as (done & rest & Hs & ->).
    destruct done; [reflexivity | discriminate].
  - right. eexists. reflexivity.
Qed.

(** C3: a [submit] call that fails with a named failure kind, whichever
    check or conditional write stopped it, changes no stored record: the
    store is left as the other clients' writes alone make it, and is the
    store before the call when nobody else wrote (token still unspent, no
    Vote inserted, the voter's hasVoted unchanged). *)
Theorem submit_failure_changes_nothing v t e c n now sig sched d err d' :
  submit v t e c n now sig sched d = (inl err, d') ->
  (exists done rest, sched = (done ++ rest)%list /\ d' = others done d) /\
  (sched = [] -> d' = d /\
                 rows_votingTokens d' = rows_votingTokens d /\
                 rows_votes d' = rows_votes d /\
                 rows_voters d' = rows_voters d).
Proof.
  intros Hrun. destruct (submit_abort _ _ _ _ _ _ _ _ _ _ _ Hrun) as (done & rest & Hs & Hc).
  split; [eauto|]. intros ->.
  destruct done; [|discriminate]. cbn in Hc. subst. auto.
Qed.

Lemma submit_failure_changes_nothing_witness :
  (submit "v1" "t1" "e1" "nobody" (Some "n1") 1000 "sig" [] Sample.db0
   = (inl (mkError "Invalid candidate for this election" "INVALID_CANDIDATE" 400 None),
      Sample.db0) /\
   (exists done rest, [] = (done ++ rest)%list /\ Sample.db0 = others done Sample.db0) /\
   (@nil (Db -> Db) = [] ->
    Sample.db0 = Sample.db0 /\
    rows_votingTokens Sample.db0 = rows_votingTokens Sample.db0 /\
    rows_votes Sample.db0 = rows_votes Sample.db0 /\
    rows_voters Sample.db0 = rows_voters Sample.db0)) /\
  (submit "v1" "t1" "e1" "c1" (Some "n1") 1000 "sig" Sample.raceOnToken Sample.db0
   = (inl (mkError "Voting token already used" "TOKEN_ALREADY_USED" 409 None),
      Sample.spendToken3 Sample.db0) /\
   exists done rest,
     Sample.raceOnToken = (done ++ rest)%list /\
     Sample.spendToken3 Sample.db0 = others done Sample.db0).
Proof.
  split.
  - split; [reflexivity|].
    apply (submit_failure_changes_nothing "v1" "t1" "e1" "nobody" (Some "n1") 1000 "sig"
             [] Sample.db0
             (mkError "Invalid candidate for this election" "INVALID_CANDIDATE" 400 None)).
    reflexivity.
  - split; [reflexivity|].
    apply (submit_failure_changes_nothing "v1" "t1" "e1" "c1" (Some "n1") 1000 "sig"
             Sample.raceOnToken Sample.db0
             (mkError "Voting token already used" "TOKEN_ALREADY_USED" 409 None)).
    reflexivity.
Defined.

(** The three places the claim names, on the sample store: an unknown
    candidate, the lost race at the token write, and a voter row that is
    gone at the voter update. *)
Example submit_invalid_candidate_sample :
  submit "v1" "t1" "e1" "nobody" (Some "n1") 1000 "sig" [] Sample.db0
  = (inl (mkError "Invalid candidate for this election" "INVALID_CANDIDATE" 400 None),
     Sample.db0).
Proof. reflexivity. Qed.

Example submit_voter_vanished_sample :
  let dropVoters := setCollection voters [] in
  submit "v1" "t1" "e1" "c1" (Some "n1") 1000 "sig"
         [quiet; quiet; quiet; quiet; quiet; dropVoters] Sample.db0
  = (inl (mkError "Voter not found during update" "VOTER_NOT_FOUND" 404 None),
     dropVoters Sample.db0).
Proof. reflexivity. Qed.


(** ** The order of the checks *)

Lemma expired_negb_spec now t :
  expired (VotingToken.expiresAt t) now = negb (spec_notExpired now t).
Proof.
  unfold expired, spec_notExpired. destruct (VotingToken.expiresAt t); [|reflexivity].
  apply Z.leb_antisym.
Qed.

Lemma nonceMismatch_negb_spec n t :
  tokenNonceOf t <> Some "" ->
  nonceMismatch n t = negb (spec_nonceAccepted n t).
Proof.
  unfold nonceMismatch, spec_nonceAccepted, falsy. intros H.
  destruct n as [n|]; [|reflexivity].
  destruct (tokenNonceOf t) as [s|]; [|reflexivity].
  destruct (String.eqb_spec s ""); [subst; congruence | reflexivity].
Qed.

(** The handler against the specification's ordered list, without
    interference. *)
Lemma submit_refines_spec v t e c n now sig d :
  noncesNonEmpty d ->
  failureCode (fst (submit v t e c n now sig [] d))
  = option_map kindCode (spec_submit_failure v t e c n now d).
Proof.
  intros Hne. unfold spec_submit_failure.
  destruct (db_findOne voters (byVoterId v) d) as [voter|] eqn:Hv.
  2:{ run_submit. rewrite Hv. step_prog. reflexivity. }
  destruct (String.eqb (Voter.status (doc voter)) "active") eqn:Ha.
  2:{ run_submit. rewrite Hv. step_prog. rewrite Ha. step_prog. reflexivity. }
  destruct (Voter.hasVoted (doc voter)) eqn:Hn.
  1:{ run_submit. rewrite Hv. step_prog. rewrite Ha, Hn. step_prog. reflexivity. }
  destruct (db_findOne votingTokens (byTokenAndElection t e) d) as [token|] eqn:Ht.
  2:{ run_submit. rewrite Hv. step_prog. rewrite Ha, Hn. step_prog. rewrite Ht. step_prog. reflexivity. }
  assert (Hnon : tokenNonceOf (doc token) <> Some "").
  { apply Hne. unfold db_findOne in Ht. now apply find_some in Ht as [Hin _]. }
  pose proof (expired_negb_spec now (doc token)) as He.
  pose proof (nonceMismatch_negb_spec n (doc token) Hnon) as Hm.
  destruct (VotingToken.spent (doc token)) eqn:Hs.
  1:{ run_submit. rewrite Hv. step_prog. rewrite Ha, Hn. step_prog.
      rewrite Ht. step_prog. rewrite Hs. step_prog. reflexivity. }
  destruct (spec_notExpired now (doc token)) eqn:He'.
  2:{ run_submit. rewrite Hv. step_prog. rewrite Ha, Hn. step_prog.
      rewrite Ht. step_prog. rewrite Hs, He. step_prog. now rewrite He'. }
  destruct (spec_nonceAccepted n (doc token)) eqn:Hm'.
  2:{ run_submit. rewrite Hv. step_prog. rewrite Ha, Hn. step_prog.
      rewrite Ht. step_prog. rewrite Hs, He, Hm. step_prog. now rewrite He', Hm'. }
  destruct (db_findOne candidates (activeCandidate e c) d) as [cand|] eqn:Hc.
  2:{ run_submit. rewrite Hv. step_prog. rewrite Ha, Hn. step_prog.
      rewrite Ht. step_prog. rewrite Hs, He, Hm. step_prog. rewrite Hc. step_prog.
      now rewrite He', Hm'. }
  assert (Hp : checksPass v t e c n now d).
  { exists voter, token, cand. apply String.eqb_eq in Ha.
    repeat split; assumption. }
  destruct (submit_commits v t e c n now sig d voter token Hv Ht Hp)
    as (vs' & ts' & _ & _ & Heq).
  rewrite Heq. step_prog. now rewrite Ha, Hn, Hs, He', Hm'.
Qed.


(** What [submit] throws reaches the client under its own code. *)
Lemma submit_error_surfaced v t e c n now sig sched d err d' :
  submit v t e c n now sig sched d = (inl err, d') -> hasStatusAndCode err.
Proof.
  unfold submit, withTransaction. intros Hrun.
  destruct (exec (submitVoteTxn v t e c n now sig) sched d d) as [[r c'] v'] eqn:E.
  destruct r as [err'|]; [|discriminate]. inversion Hrun; subst.
  now apply (exec_in_session _ _ (submitVoteTxn_in_session v t e c n now sig) _ _ _ _ _ _ E).
Qed.

Lemma submitVoteCatch_code err :
  hasStatusAndCode err -> responseCode (submitVoteCatch err) = Some (code err).
Proof.
  intros [Hs Hc]. unfold submitVoteCatch.
  destruct (Z.eqb_spec (status err) 0); [contradiction|].
  destruct (String.eqb_spec (code err) ""); [contradiction|]. reflexivity.
Qed.

(** The handler answers a well-formed request with the outcome of the
    unit of work on the parsed arguments. *)
Lemma submitVote_response trim config req now sig sched d :
  falsy (voterIdOf req) = false ->
  blank trim (bodyField Req.tokenId req) = false ->
  blank trim (bodyField Req.candidateId req) = false ->
  responseCode (fst (submitVote trim config req now sig sched d))
  = failureCode
      (fst (submit (js_or (voterIdOf req) "")
                   (trim (js_or (bodyField Req.tokenId req) ""))
                   (electionIdOf config req)
                   (trim (js_or (bodyField Req.candidateId req) ""))
                   (bodyField Req.nonce req) now sig sched d)).
Proof.
  intros Hv Ht Hc. unfold submitVote. rewrite Hv, Ht, Hc. cbn [orb].
  destruct (submit _ _ _ _ _ _ _ _ _) as [[err|res] d'] eqn:E; cbn [fst failureCode].
  - apply submitVoteCatch_code. eapply submit_error_surfaced; eassumption.
  - reflexivity.
Qed.

(** C4: [submit] checks, in this order, voter found / active / not voted,
    token found for (tokenId, electionId), token unspent, token unexpired,
    nonce equal when supplied, candidate active in the election; the first
    check that fails decides the failure kind, and the handler reports
    that kind's code unchanged. *)
Theorem submit_first_failing_check v t e c n now sig d :
  noncesNonEmpty d ->
  failureCode (fst (submit v t e c n now sig [] d))
  = option_map kindCode (spec_submit_failure v t e c n now d) /\
  (forall trim config req,
      falsy (voterIdOf req) = false ->
      blank trim (bodyField Req.tokenId req) = false ->
      blank trim (bodyField Req.candidateId req) = false ->
      v = js_or (voterIdOf req) "" ->
      t = trim (js_or (bodyField Req.tokenId req) "") ->
      e = electionIdOf config req ->
      c = trim (js_or (bodyField Req.candidateId req) "") ->
      n = bodyField Req.nonce req ->
      responseCode (fst (submitVote trim config req now sig [] d))
      = option_map kindCode (spec_submit_failure v t e c n now d)).
Proof.
  intros Hne. split; [now apply submit_refines_spec|].
  intros trim config req Hv Ht Hc -> -> -> -> ->.
  rewrite submitVote_response by assumption. now apply submit_refines_spec.
Qed.

Lemma submit_first_failing_check_witness :
  noncesNonEmpty Sample.db0 /\
  failureCode (fst (submit "v2" "t1" "e1" "nobody" (Some "bad") 400000 "sig" []
                           Sample.db0))
  = Some "ALREADY_VOTED" /\
  responseCode (fst (submitVote Sample.trim Sample.config0 (Sample.submitReq "v1")
                                400000 "sig" [] Sample.db0))
  = Some "TOKEN_EXPIRED".
Proof.
  assert (H : noncesNonEmpty Sample.db0).
  { intros r [<-|[]]. discriminate. }
  split; [exact H|]. split.
  - exact (proj1 (submit_first_failing_check "v2" "t1" "e1" "nobody" (Some "bad")
                    400000 "sig" Sample.db0 H)).
  - exact (proj2 (submit_first_failing_check "v1" "t1" "e1" "c1" (Some "n1")
                    400000 "sig" Sample.db0 H)
                 Sample.trim Sample.config0 (Sample.submitReq "v1")
                 eq_refl eq_refl eq_refl eq_refl eq_refl eq_refl eq_refl eq_refl).
Defined.


(** ** Issuing a token *)

(** C5: [issue] checks election open, voter found, voter active, voter not
    voted, in this order, and the first failure decides the kind; on
    success it stores exactly one new VotingToken row, unspent and expiring
    five minutes after now, built from the election, the time and the two
    random values only (no voter in it), leaves every existing row as it
    was, and returns [{tokenId, nonce, expiresAt}]. *)
Theorem issueToken_checks_then_inserts config req now tokenId nonce d v :
  voterIdOf req = Some v -> v <> "" ->
  let e := electionIdOf config req in
  match spec_issue_failure v e d with
  | Some kind =>
      responseCode (fst (issueToken config req now tokenId nonce [] d))
      = Some (kindCode kind) /\
      snd (issueToken config req now tokenId nonce [] d) = d
  | None =>
      issueToken config req now tokenId nonce [] d
      = (json 201 [("tokenId", JStr tokenId); ("nonce", JStr nonce);
                   ("expiresAt", JDate (now + 5 * 60 * 1000))],
         mkDb (rows_voters d)
              (rows_votingTokens d
               ++ [mkRow (nextId d)
                         (VotingToken.mk tokenId e false (Some (now + 5 * 60 * 1000))
                                         now now 1
                                         (Some (VotingToken.mkMeta (Some nonce))))])
              (rows_candidates d) (rows_votes d) (rows_elections d)
              (rows_otp_attempts d) (rows_login_attempts d) (S (nextId d)))
  end.
Proof.
  intros Hv Hne e. unfold issueToken. rewrite Hv. cbn [falsy js_or].
  destruct (String.eqb_spec v ""); [contradiction|].
  fold e. unfold spec_issue_failure, spec_isOpen, run, issueTokenProg, isElectionOpen.
  step_prog.
  destruct (db_findOne elections (byElectionId e) d) as [el|]; step_prog.
  - destruct (String.eqb (Election.status (doc el)) "open"); step_prog; [|auto].
    destruct (db_findOne voters (byVoterId v) d) as [voter|]; step_prog; [|auto].
    destruct (String.eqb (Voter.status (doc voter)) "active"); step_prog; [|auto].
    destruct (Voter.hasVoted (doc voter)); step_prog; [auto|]. reflexivity.
  - destruct (db_findOne voters (byVoterId v) d) as [voter|]; step_prog; [|auto].
    destruct (String.eqb (Voter.status (doc voter)) "active"); step_prog; [|auto].
    destruct (Voter.hasVoted (doc voter)); step_prog; [auto|]. reflexivity.
Qed.

Lemma issueToken_checks_then_inserts_witness :
  (voterIdOf (Sample.issueReq "v1") = Some "v1" /\ "v1" <> "") /\
  issueToken (mkConfig "e2") (Sample.issueReq "v1") 1000 "uuid-1" "0a1b" [] Sample.db0
  = (json 201 [("tokenId", JStr "uuid-1"); ("nonce", JStr "0a1b");
               ("expiresAt", JDate 301000)],
     mkDb (rows_voters Sample.db0)
          (rows_votingTokens Sample.db0
           ++ [mkRow 6%nat
                     (VotingToken.mk "uuid-1" "e2" false (Some 301000) 1000 1000 1
                                     (Some (VotingToken.mkMeta (Some "0a1b"))))])
          (rows_candidates Sample.db0) (rows_votes Sample.db0)
          (rows_elections Sample.db0) (rows_otp_attempts Sample.db0)
          (rows_login_attempts Sample.db0) 7%nat).
Proof.
  split; [split; [reflexivity | discriminate]|].
  exact (issueToken_checks_then_inserts (mkConfig "e2") (Sample.issueReq "v1") 1000
           "uuid-1" "0a1b" Sample.db0 "v1" eq_refl (fun E => ltac:(discriminate E))).
Defined.


(** ** Expiry *)

(** C6: a [submit] by an eligible voter naming an unspent token whose
    [expiresAt] is not after now fails with TokenExpired, whatever the
    nonce and the candidate; and a token is redeemed only when it is
    unspent and its [expiresAt] is after now. *)
Theorem expired_token_rejected :
  (forall v t e c n now sig d voter token ex,
      db_findOne voters (byVoterId v) d = Some voter ->
      Voter.status (doc voter) = "active" ->
      Voter.hasVoted (doc voter) = false ->
      db_findOne votingTokens (byTokenAndElection t e) d = Some token ->
      VotingToken.spent (doc token) = false ->
      VotingToken.expiresAt (doc token) = Some ex ->
      ex <= now ->
      submit v t e c n now sig [] d
      = (inl (mkError "Voting token has expired" "TOKEN_EXPIRED" 410 None), d)) /\
  (forall v t e c n now sig d r d',
      submit v t e c n now sig [] d = (inr r, d') ->
      exists token,
        db_findOne votingTokens (byTokenAndElection t e) d = Some token /\
        VotingToken.spent (doc token) = false /\
        forall ex, VotingToken.expiresAt (doc token) = Some ex -> now < ex).
Proof.
  split.
  - intros. eapply submit_expired; eassumption.
  - intros v t e c n now sig d r d' Hrun.
    apply submit_success_inv in Hrun
      as (voter & token & cand & _ & _ & _ & Ht & Hs & He & _).
    exists token. repeat split; try assumption.
    intros ex Hex. rewrite Hex in He. cbn in He. now apply Z.leb_gt.
Qed.

Lemma expired_token_rejected_witness :
  submit "v1" "t1" "e1" "c1" (Some "n1") 300000 "sig" [] Sample.db0
  = (inl (mkError "Voting token has expired" "TOKEN_EXPIRED" 410 None), Sample.db0) /\
  exists token,
    db_findOne votingTokens (byTokenAndElection "t1" "e1") Sample.db0 = Some token /\
    VotingToken.spent (doc token) = false /\
    forall ex, VotingToken.expiresAt (doc token) = Some ex -> 299999 < ex.
Proof.
  split.
  - apply (proj1 expired_token_rejected "v1" "t1" "e1" "c1" (Some "n1") 300000 "sig"
             Sample.db0 (mkRow 0%nat (Voter.mk "v1" "active" false 0))
             (mkRow 3%nat (VotingToken.mk "t1" "e1" false (Some 300000) 0 0 1
                                          (Some (VotingToken.mkMeta (Some "n1")))))
             300000); reflexivity.
  - apply (proj2 expired_token_rejected "v1" "t1" "e1" "c1" (Some "n1") 299999 "sig"
             Sample.db0 (mkSubmitResult "e1" "c1")
             (snd (submit "v1" "t1" "e1" "c1" (Some "n1") 299999 "sig" [] Sample.db0))).
    reflexivity.
Defined.


(** ** A voter who has voted *)

(** C8 (amended): for an active voter whose [hasVoted] is true, every
    [submit] call fails with AlreadyVoted, and every [issue] call fails
    with AlreadyVoted when the election is open and with ElectionNotOpen
    when it is not; the calls change nothing, so retries fare the same. *)
Theorem already_voted_stays_rejected v d voter :
  db_findOne voters (byVoterId v) d = Some voter ->
  Voter.status (doc voter) = "active" ->
  Voter.hasVoted (doc voter) = true ->
  (forall t e c n now sig,
      submit v t e c n now sig [] d
      = (inl (mkError "Voter has already cast a vote" "ALREADY_VOTED" 409 None), d)) /\
  (forall config req now tokenId nonce,
      voterIdOf req = Some v -> v <> "" ->
      issueToken config req now tokenId nonce [] d
      = (if spec_isOpen (electionIdOf config req) d
         then json 409 (errorBody "ALREADY_VOTED" "Voter has already cast a vote" [])
         else json 409 (errorBody "ELECTION_NOT_OPEN" "Election is not open for voting"
                                  [("electionId", JStr (electionIdOf config req))]),
         d)).
Proof.
  intros Hv Ha Hn. split.
  - intros. run_submit. rewrite Hv. step_prog. now rewrite Ha, Hn.
  - intros config req now tokenId nonce Hreq Hne.
    unfold issueToken. rewrite Hreq. cbn [falsy js_or].
    destruct (String.eqb_spec v ""); [contradiction|].
    unfold spec_isOpen, run, issueTokenProg, isElectionOpen. step_prog.
    destruct (db_findOne elections (byElectionId (electionIdOf config req)) d) as [el|];
      step_prog.
    + destruct (String.eqb (Election.status (doc el)) "open"); step_prog; [|reflexivity].
      rewrite Hv. step_prog. now rewrite Ha, Hn.
    + rewrite Hv. step_prog. now rewrite Ha, Hn.
Qed.

Lemma already_voted_stays_rejected_witness :
  submit "v2" "t1" "e1" "c1" (Some "n1") 1000 "sig" [] Sample.db0
  = (inl (mkError "Voter has already cast a vote" "ALREADY_VOTED" 409 None), Sample.db0)
  /\
  issueToken (mkConfig "e2") (Sample.issueReq "v2") 1000 "uuid-1" "0a1b" [] Sample.db0
  = (json 409 (errorBody "ALREADY_VOTED" "Voter has already cast a vote" []), Sample.db0).
Proof.
  pose proof (already_voted_stays_rejected "v2" Sample.db0
                (mkRow 1%nat (Voter.mk "v2" "active" true 0))
                eq_refl eq_refl eq_refl) as [Hsubmit Hissue].
  split.
  - apply Hsubmit.
  - exact (Hissue (mkConfig "e2") (Sample.issueReq "v2") 1000 "uuid-1" "0a1b"
                  eq_refl (fun E => ltac:(discriminate E))).
Defined.

(** C8 as stated fails: once the election is closed, [issue] answers a
    voter who has voted with ELECTION_NOT_OPEN; and a voter who has voted
    and is no longer active gets VOTER_INACTIVE from [submit]. *)
Lemma already_voted_counterexample :
  (exists voter,
      db_findOne voters (byVoterId "v2") Sample.db0 = Some voter /\
      Voter.hasVoted (doc voter) = true) /\
  responseCode (fst (issueToken Sample.config0 (Sample.issueReq "v2") 1000
                                "uuid-1" "0a1b" [] Sample.db0))
  = Some "ELECTION_NOT_OPEN" /\
  responseCode (fst (issueToken Sample.config0 (Sample.issueReq "v2") 1000
                                "uuid-1" "0a1b" [] Sample.db0))
  <> Some "ALREADY_VOTED" /\
  (exists voter,
      db_findOne voters (byVoterId "v3") Sample.db0 = Some voter /\
      Voter.hasVoted (doc voter) = true) /\
  failureCode (fst (submit "v3" "t1" "e1" "c1" (Some "n1") 1000 "sig" [] Sample.db0))
  = Some "VOTER_INACTIVE".
Proof.
  split; [eexists; split; reflexivity|].
  split; [reflexivity|]. split; [vm_compute; discriminate|].
  split; [eexists; split; reflexivity | reflexivity].
Qed.

(** ** The election record *)

Lemma sameButElections_refl d : sameButElections d d.
Proof. reflexivity. Qed.

Lemma sameButElections_set els d : sameButElections (setCollection elections els d) d.
Proof. reflexivity. Qed.

(** A call on another collection returns the same and leaves the same,
    whatever [elections] holds. *)
Lemma perform_sameButElections {X} (op : Op X) d d' :
  onElections op = false -> sameButElections d d' ->
  fst (perform op d) = fst (perform op d') /\
  sameButElections (snd (perform op d)) (snd (perform op d')).
Proof.
  unfold sameButElections, withoutElections. intros Hop H.
  destruct d, d'. cbn in H. inversion H; subst.
  destruct op as [T c filter s | T c filter update upsert s | T c x s];
    destruct c; try discriminate Hop;
    unfold perform, db_findOne, db_updateOne, db_insertOne;
    cbn [collection setCollection bumpId
         fst snd rows_voters rows_votingTokens rows_candidates rows_votes
         rows_elections rows_otp_attempts rows_login_attempts nextId];
    try (split; reflexivity);
    match goal with
    | |- context [updateFirst ?f ?u ?rs] =>
        destruct (updateFirst f u rs); [split; reflexivity|];
        destruct upsert; split; reflexivity
    end.
Qed.

Lemma step_sameButElections {X} (op : Op X) c c' v v' :
  onElections op = false -> sameButElections c c' -> sameButElections v v' ->
  fst (fst (step op c v)) = fst (fst (step op c' v')) /\
  sameButElections (snd (fst (step op c v))) (snd (fst (step op c' v'))) /\
  sameButElections (snd (step op c v)) (snd (step op c' v')).
Proof.
  intros Hop Hc Hv. unfold step.
  destruct (perform_sameButElections op c c' Hop Hc) as [Hc1 Hc2].
  destruct (perform_sameButElections op v v' Hop Hv) as [Hv1 Hv2].
  destruct (inSession op).
  - destruct (perform op v), (perform op v'). cbn in *. auto.
  - destruct (perform op c), (perform op c'). cbn in *. auto.
Qed.

Lemma interfere_sameButElections sched sched' d d' :
  sameButElectionsSchedule sched sched' -> sameButElections d d' ->
  sameButElections (interfere sched d) (interfere sched' d').
Proof. intros [|w w' s s' Hw _] H; cbn; auto. Qed.

(** A program that never calls [elections] runs the same, outside that
    collection, in any two worlds that differ there only. *)
Lemma exec_sameButElections {A} (okErr : Error -> Prop) (p : Prog A) :
  ProgAll avoidsElections okErr p ->
  forall sched sched' c c' v v',
    sameButElectionsSchedule sched sched' ->
    sameButElections c c' -> sameButElections v v' ->
    fst (fst (exec p sched c v)) = fst (fst (exec p sched' c' v')) /\
    sameButElections (snd (fst (exec p sched c v))) (snd (fst (exec p sched' c' v'))) /\
    sameButElections (snd (exec p sched c v)) (snd (exec p sched' c' v')).
Proof.
  induction 1 as [a | e He | X op k Hop _ IH]; intros sched sched' c c' v v' Hs Hc Hv.
  - cbn. auto.
  - cbn. auto.
  - cbn [exec].
    destruct (step_sameButElections op _ _ _ _ Hop
                (interfere_sameButElections _ _ _ _ Hs Hc)
                (interfere_sameButElections _ _ _ _ Hs Hv)) as (Hx & Hc1 & Hv1).
    destruct (step op (interfere sched c) (interfere sched v)) as [[x c1] v1].
    destruct (step op (interfere sched' c') (interfere sched' v')) as [[x' c1'] v1'].
    cbn [fst snd] in Hx, Hc1, Hv1. subst x'.
    apply IH; auto.
    destruct Hs; cbn; [constructor | assumption].
Qed.

(** No call of the transaction callback is on [elections]. *)
Lemma submitVoteTxn_avoids_elections v t e c n now sig :
  ProgAll avoidsElections (fun _ => True) (submitVoteTxn v t e c n now sig).
Proof.
  unfold submitVoteTxn.
  repeat first
    [ apply ProgAll_Return
    | apply ProgAll_Throw; exact I
    | apply ProgAll_Await; [reflexivity | intros ?]
    | match goal with |- ProgAll _ _ (match ?x with _ => _ end) => destruct x end
    | match goal with |- ProgAll _ _ (if ?x then _ else _) => destruct x end
    | progress cbn [bind] ].
Qed.

(** C9: [submit] never consults the election's status.  None of its
    awaited calls is on the [elections] collection; hence any two runs
    that differ only in what [elections] holds, at the start and in what
    the other clients write to it meanwhile, end with the same outcome and
    the same store outside [elections].  And whenever [submit]'s own
    checks pass, the redemption is carried out whatever [elections] holds
    (closed and finalized elections included): the call returns
    {electionId, candidateId} and leaves the store with the voter row
    flagged [hasVoted], the token row spent, the vote appended, and
    [elections] as it was. *)
Theorem submit_ignores_election_status v t e c n now sig :
  ProgAll avoidsElections (fun _ => True) (submitVoteTxn v t e c n now sig) /\
  (forall sched sched' d d',
      sameButElectionsSchedule sched sched' -> sameButElections d d' ->
      fst (submit v t e c n now sig sched d) = fst (submit v t e c n now sig sched' d') /\
      sameButElections (snd (submit v t e c n now sig sched d))
                       (snd (submit v t e c n now sig sched' d'))) /\
  (forall d els,
      checksPass v t e c n now d ->
      exists voter token vs' ts',
        db_findOne voters (byVoterId v) d = Some voter /\
        db_findOne votingTokens (byTokenAndElection t e) d = Some token /\
        updateFirst (byVoterId v) (setHasVoted now) (rows_voters d) = Some vs' /\
        updateFirst (unspentById (_id token)) (setSpent now) (rows_votingTokens d)
        = Some ts' /\
        find (byVoterId v) vs' = Some (mkRow (_id voter) (setHasVoted now (doc voter))) /\
        submit v t e c n now sig [] (setCollection elections els d)
        = (inr (mkSubmitResult e c),
           mkDb vs' ts' (rows_candidates d)
                (rows_votes d ++ [mkRow (nextId d) (voteDoc e c now sig)])
                els (rows_otp_attempts d) (rows_login_attempts d) (S (nextId d)))).
Proof.
  split; [apply submitVoteTxn_avoids_elections|]. split.
  - intros sched sched' d d' Hs Hd. unfold submit, withTransaction.
    destruct (exec_sameButElections _ _ (submitVoteTxn_avoids_elections v t e c n now sig)
                sched sched' d d' d d' Hs Hd Hd) as (Hr & Hc & Hv).
    destruct (exec (submitVoteTxn v t e c n now sig) sched d d) as [[r c1] v1].
    destruct (exec (submitVoteTxn v t e c n now sig) sched' d' d') as [[r' c1'] v1'].
    cbn [fst snd] in Hr, Hc, Hv. subst r'. destruct r; cbn [fst snd]; auto.
  - intros d els Hp.
    assert (Hp' : checksPass v t e c n now (setCollection elections els d)).
    { destruct Hp as (voter & token & cand & H). now exists voter, token, cand. }
    pose proof Hp as (voter & token & cand & Hv & _ & _ & Ht & _).
    destruct (submit_commits v t e c n now sig (setCollection elections els d)
                voter token Hv Ht Hp') as (vs' & ts' & Hvs & Hts & Heq).
    exists voter, token, vs', ts'. repeat split; try assumption.
    apply (find_after_updateFirst (byVoterId v) (setHasVoted now) (rows_voters d));
      try assumption.
    apply find_some in Hv as [_ Hv]. exact Hv.
Qed.

Lemma submit_ignores_election_status_witness :
  (exists d',
      submit "v1" "t1" "e1" "c1" (Some "n1") 1000 "sig" []
             (setCollection elections [mkRow 5%nat (Election.mk "e1" "finalized")]
                            Sample.db0)
      = (inr (mkSubmitResult "e1" "c1"), d') /\
      rows_elections d' = [mkRow 5%nat (Election.mk "e1" "finalized")] /\
      option_map (fun r => Voter.hasVoted (doc r)) (db_findOne voters (byVoterId "v1") d')
      = Some true /\
      option_map (fun r => VotingToken.spent (doc r))
                 (db_findOne votingTokens (byTokenAndElection "t1" "e1") d')
      = Some true /\
      length (rows_votes d') = 1%nat) /\
  fst (submit "v2" "t1" "e1" "c1" (Some "n1") 1000 "sig" []
              (setCollection elections [] Sample.db0))
  = fst (submit "v2" "t1" "e1" "c1" (Some "n1") 1000 "sig" [] Sample.db0).
Proof.
  split.
  - destruct (proj2 (proj2 (submit_ignores_election_status
                              "v1" "t1" "e1" "c1" (Some "n1") 1000 "sig"))
                    Sample.db0 [mkRow 5%nat (Election.mk "e1" "finalized")])
      as (voter & token & vs' & ts' & Hv & Ht & Hvs & Hts & _ & Heq).
    { do 3 eexists. repeat split; reflexivity. }
    inversion Hv; subst voter. inversion Ht; subst token.
    inversion Hvs; subst vs'. inversion Hts; subst ts'.
    eexists. split; [exact Heq|]. repeat split.
  - apply (proj1 (proj2 (submit_ignores_election_status
                           "v2" "t1" "e1" "c1" (Some "n1") 1000 "sig"))).
    + constructor.
    + reflexivity.
Defined.

(** The sample election is closed, and the redemption goes through. *)
Example submit_closed_election_sample :
  option_map (fun r => Election.status (doc r))
             (db_findOne elections (byElectionId "e1") Sample.db0) = Some "closed" /\
  fst (submit "v1" "t1" "e1" "c1" (Some "n1") 1000 "sig" [] Sample.db0)
  = inr (mkSubmitResult "e1" "c1").
Proof. split; reflexivity. Qed.


(** ** The attempt counters *)

Lemma updateFirst_ids {T} (filter : Row T -> bool) (update : T -> T) rs rs' :
  updateFirst filter update rs = Some rs' -> map _id rs' = map _id rs.
Proof.
  revert rs'. induction rs as [|a rs IH]; simpl; intros rs' H; [discriminate|].
  destruct (filter a).
  - now inversion H.
  - destruct (updateFirst filter update rs) as [rest|]; [|discriminate].
    inversion H; subst. simpl. f_equal. now apply IH.
Qed.

Lemma find_app_none {T} (filter : Row T -> bool) rs r :
  find filter rs = None -> filter r = true -> find filter (rs ++ [r]) = Some r.
Proof.
  induction rs as [|a rs IH]; simpl; intros H Hr.
  - now rewrite Hr.
  - destruct (filter a); [discriminate | auto].
Qed.

(** Updating by the [_id] of the row a filter found, in a collection with
    unique [_id]s, rewrites that very row. *)
Lemma find_after_update_byId {T} (filter : Row T -> bool) (update : T -> T) rs e :
  NoDup (map _id rs) ->
  find filter rs = Some e ->
  filter (mkRow (_id e) (update (doc e))) = true ->
  exists rs',
    updateFirst (byId (_id e)) update rs = Some rs' /\
    find filter rs' = Some (mkRow (_id e) (update (doc e))).
Proof.
  induction rs as [|a rs IH]; simpl; intros Hnd Hf Hk; [discriminate|].
  inversion Hnd as [|? ? Hnotin Hnd']; subst.
  destruct (filter a) eqn:Ea.
  - inversion Hf; subst. unfold byId at 1. rewrite Nat.eqb_refl.
    eexists. split; [reflexivity|]. simpl. now rewrite Hk.
  - assert (Hneq : byId (_id e) a = false).
    { unfold byId. apply Nat.eqb_neq. intros E. apply Hnotin. rewrite E.
      apply in_map. now apply find_some in Hf as [Hin _]. }
    rewrite Hneq. destruct (IH Hnd' Hf Hk) as (rs' & Hu & Hfind).
    rewrite Hu. eexists. split; [reflexivity|]. simpl. now rewrite Ea.
Qed.

Lemma updateFirst_Forall {T} (P : Row T -> Prop) (filter : Row T -> bool)
      (update : T -> T) rs rs' :
  (forall r, In r rs -> filter r = true -> P (mkRow (_id r) (update (doc r)))) ->
  Forall P rs -> updateFirst filter update rs = Some rs' -> Forall P rs'.
Proof.
  revert rs'. induction rs as [|a rs IH]; simpl; intros rs' Hup Hall Hu; [discriminate|].
  inversion Hall; subst. destruct (filter a) eqn:Ea.
  - inversion Hu; subst. constructor; auto.
  - destruct (updateFirst filter update rs) as [rest|]; [|discriminate].
    inversion Hu; subst. constructor; auto.
Qed.

Lemma same_id_same_row {T} (rs : list (Row T)) a b :
  NoDup (map _id rs) -> In a rs -> In b rs -> _id a = _id b -> a = b.
Proof.
  induction rs as [|x rs IH]; simpl; intros Hnd Ha Hb E; [contradiction|].
  inversion Hnd as [|? ? Hnotin Hnd']; subst.
  destruct Ha as [<-|Ha], Hb as [<-|Hb]; auto.
  - exfalso. apply Hnotin. rewrite E. now apply in_map.
  - exfalso. apply Hnotin. rewrite <- E. now apply in_map.
Qed.

Lemma uniqueIds_update {T} (filter : Row T -> bool) (update : T -> T) rs rs' bound :
  uniqueIds rs bound -> updateFirst filter update rs = Some rs' -> uniqueIds rs' bound.
Proof.
  intros [Hnd Hlt] Hu. pose proof (updateFirst_ids _ _ _ _ Hu) as Hids. split.
  - now rewrite Hids.
  - intros r Hr. apply (in_map _id) in Hr. rewrite Hids in Hr.
    apply in_map_iff in Hr as (r0 & <- & Hr0). auto.
Qed.

Lemma uniqueIds_insert {T} (rs : list (Row T)) bound d :
  uniqueIds rs bound -> uniqueIds (rs ++ [mkRow bound d]) (S bound).
Proof.
  intros [Hnd Hlt]. split.
  - rewrite map_app. simpl. apply NoDup_app; [assumption | repeat constructor; auto |].
    intros x Hx [<-|[]]. apply in_map_iff in Hx as (r & E & Hr).
    apply Hlt in Hr. lia.
  - intros r Hr. apply in_app_or in Hr as [Hr|[<-|[]]]; [apply Hlt in Hr|simpl]; lia.
Qed.


(** The counting part of [sendOtp] as one store operation. *)
Lemma sendOtpCount_run ph now d :
  run (sendOtpCount ph now) [] d
  = match inWindow (db_findOne otp_attempts (byPhoneHash ph) d) now with
    | Some existing =>
        if OTP_MAX_PER_WINDOW <=? OtpAttempt.count (doc existing) then
          (inr (Some (json 429
             (errorBody "OTP_RATE_LIMITED"
                "Too many OTP requests for this phone. Please try again later."
                [("maxPerWindow", JNum OTP_MAX_PER_WINDOW);
                 ("windowMs", JNum OTP_WINDOW_MS)]))), d)
        else
          (inr None,
           snd (db_updateOne otp_attempts (byId (_id existing)) incOtpCount None d))
    | None =>
        let fresh := OtpAttempt.mk ph 1 (Some (now + OTP_WINDOW_MS)) now [] in
        (inr None,
         snd (db_updateOne otp_attempts (byPhoneHash ph) (fun _ => fresh) (Some fresh) d))
    end.
Proof.
  unfold run, sendOtpCount. step_prog.
  destruct (inWindow (db_findOne otp_attempts (byPhoneHash ph) d) now) as [existing|].
  - destruct (OTP_MAX_PER_WINDOW <=? OtpAttempt.count (doc existing)); [reflexivity|].
    step_prog. now destruct (db_updateOne _ _ _ _ d).
  - step_prog. now destruct (db_updateOne _ _ _ _ d).
Qed.

Lemma loginFailure_run v now d :
  run (loginFailure v now) [] d
  = (inr tt,
     if lapsed (db_findOne login_attempts (byLoginVoterId v) d) now then
       let fresh := LoginAttempt.mk v 1 (Some (now + LOGIN_WINDOW_MS)) now [] in
       snd (db_updateOne login_attempts (byLoginVoterId v) (fun _ => fresh) (Some fresh) d)
     else
       snd (db_updateOne login_attempts (byLoginVoterId v) incLoginCount None d)).
Proof.
  unfold run, loginFailure, recordLoginFailure. step_prog.
  destruct (lapsed (db_findOne login_attempts (byLoginVoterId v) d) now);
    step_prog; now destruct (db_updateOne _ _ _ _ d).
Qed.

(** What [updateOne] leaves in the collection it writes. *)
Lemma rows_after_updateOne_otp filter update upsert d :
  rows_otp_attempts (snd (db_updateOne otp_attempts filter update upsert d))
  = match updateFirst filter update (rows_otp_attempts d), upsert with
    | Some rs', _ => rs'
    | None, Some fresh => (rows_otp_attempts d ++ [mkRow (nextId d) fresh])%list
    | None, None => rows_otp_attempts d
    end /\
  nextId (snd (db_updateOne otp_attempts filter update upsert d))
  = match updateFirst filter update (rows_otp_attempts d), upsert with
    | None, Some _ => S (nextId d)
    | _, _ => nextId d
    end.
Proof.
  unfold db_updateOne. cbn [collection].
  destruct (updateFirst filter update (rows_otp_attempts d)); [split; reflexivity|].
  destruct upsert; split; reflexivity.
Qed.

Lemma rows_after_updateOne_login filter update upsert d :
  rows_login_attempts (snd (db_updateOne login_attempts filter update upsert d))
  = match updateFirst filter update (rows_login_attempts d), upsert with
    | Some rs', _ => rs'
    | None, Some fresh => (rows_login_attempts d ++ [mkRow (nextId d) fresh])%list
    | None, None => rows_login_attempts d
    end.
Proof.
  unfold db_updateOne. cbn [collection].
  destruct (updateFirst filter update (rows_login_attempts d)); [reflexivity|].
  destruct upsert; reflexivity.
Qed.

(** An upsert by a filter that the fresh document satisfies: afterwards the
    filter finds the fresh document. *)
Lemma find_after_upsert {T} (filter : Row T -> bool) (fresh : T) rs id :
  (forall i, filter (mkRow i fresh) = true) ->
  exists i,
    find filter (match updateFirst filter (fun _ => fresh) rs with
                 | Some rs' => rs'
                 | None => (rs ++ [mkRow id fresh])%list
                 end)
    = Some (mkRow i fresh).
Proof.
  intros Hk. destruct (find filter rs) as [r|] eqn:Hf.
  - destruct (updateFirst_of_find filter (fun _ => fresh) rs r Hf) as [rs' Hu].
    rewrite Hu. exists (_id r).
    now apply (find_after_updateFirst filter (fun _ => fresh) rs rs' r).
  - rewrite (proj1 (find_some_iff_updateFirst filter (fun _ => fresh) rs) Hf).
    exists id. now apply find_app_none.
Qed.

(** A call outside the window, or the first one, opens a window. *)
Lemma sendOtpCount_opens ph now d :
  inWindow (db_findOne otp_attempts (byPhoneHash ph) d) now = None ->
  exists i,
    db_findOne otp_attempts (byPhoneHash ph) (snd (run (sendOtpCount ph now) [] d))
    = Some (mkRow i (OtpAttempt.mk ph 1 (Some (now + OTP_WINDOW_MS)) now [])).
Proof.
  intros Hw. rewrite sendOtpCount_run, Hw. cbn [snd]. unfold db_findOne at 1.
  cbn [collection]. rewrite (proj1 (rows_after_updateOne_otp _ _ _ _)).
  apply find_after_upsert. intros i. unfold byPhoneHash. cbn. apply String.eqb_refl.
Qed.

(** A call inside the window, below the maximum, adds one. *)
Lemma sendOtpCount_counts ph now d e wend :
  NoDup (map _id (rows_otp_attempts d)) ->
  db_findOne otp_attempts (byPhoneHash ph) d = Some e ->
  OtpAttempt.windowEndsAt (doc e) = Some wend -> now < wend ->
  OtpAttempt.count (doc e) < OTP_MAX_PER_WINDOW ->
  db_findOne otp_attempts (byPhoneHash ph) (snd (run (sendOtpCount ph now) [] d))
  = Some (mkRow (_id e) (incOtpCount (doc e))).
Proof.
  intros Hnd Hf Hw Hlt Hc. rewrite sendOtpCount_run, Hf. unfold inWindow, windowActive.
  rewrite Hw. destruct (Z.ltb_spec now wend); [|lia].
  destruct (Z.leb_spec OTP_MAX_PER_WINDOW (OtpAttempt.count (doc e))); [lia|].
  cbn [snd]. unfold db_findOne at 1. cbn [collection].
  rewrite (proj1 (rows_after_updateOne_otp _ _ _ _)).
  destruct (find_after_update_byId (byPhoneHash ph) incOtpCount (rows_otp_attempts d) e
              Hnd Hf) as (rs' & Hu & Hfind).
  { apply find_some in Hf as [_ Hf]. exact Hf. }
  now rewrite Hu.
Qed.

(** Unique [_id]s survive the counting. *)
Lemma sendOtpCount_uniqueIds ph now d :
  uniqueIds (rows_otp_attempts d) (nextId d) ->
  uniqueIds (rows_otp_attempts (snd (run (sendOtpCount ph now) [] d)))
            (nextId (snd (run (sendOtpCount ph now) [] d))).
Proof.
  intros Hu. rewrite sendOtpCount_run.
  destruct (inWindow _ now) as [existing|].
  - destruct (OTP_MAX_PER_WINDOW <=? _); [exact Hu|]. cbn [snd].
    destruct (rows_after_updateOne_otp (byId (_id existing)) incOtpCount None d)
      as [-> ->].
    destruct (updateFirst _ _ _) eqn:E; [|exact Hu]. eapply uniqueIds_update; eassumption.
  - cbn [snd].
    match goal with
    | |- context [db_updateOne otp_attempts ?f ?u ?up d] =>
        destruct (rows_after_updateOne_otp f u up d) as [-> ->]
    end.
    destruct (updateFirst _ _ _) eqn:E.
    + eapply uniqueIds_update; eassumption.
    + now apply uniqueIds_insert.
Qed.


Lemma loginFailure_opens v now d :
  lapsed (db_findOne login_attempts (byLoginVoterId v) d) now = true ->
  exists i,
    db_findOne login_attempts (byLoginVoterId v) (snd (run (loginFailure v now) [] d))
    = Some (mkRow i (LoginAttempt.mk v 1 (Some (now + LOGIN_WINDOW_MS)) now [])).
Proof.
  intros Hl. rewrite loginFailure_run, Hl. cbn [snd]. unfold db_findOne at 1.
  cbn [collection]. rewrite rows_after_updateOne_login.
  apply find_after_upsert. intros i. unfold byLoginVoterId. cbn. apply String.eqb_refl.
Qed.

Lemma loginFailure_counts v now d e wend :
  db_findOne login_attempts (byLoginVoterId v) d = Some e ->
  LoginAttempt.windowEndsAt (doc e) = Some wend -> now < wend ->
  db_findOne login_attempts (byLoginVoterId v) (snd (run (loginFailure v now) [] d))
  = Some (mkRow (_id e) (incLoginCount (doc e))).
Proof.
  intros Hf Hw Hlt. rewrite loginFailure_run, Hf. unfold lapsed. rewrite Hw.
  destruct (Z.leb_spec wend now); [lia|].
  cbn [snd]. unfold db_findOne at 1. cbn [collection].
  rewrite rows_after_updateOne_login.
  destruct (updateFirst_of_find (byLoginVoterId v) incLoginCount
              (rows_login_attempts d) e Hf) as [rs' Hu].
  rewrite Hu. apply (find_after_updateFirst _ _ (rows_login_attempts d)); try assumption.
  apply find_some in Hf as [_ Hf]. exact Hf.
Qed.

(** Failed logins inside a running window: one more each. *)
Lemma loginFailureSeq_counts v ts : forall d e wend,
  db_findOne login_attempts (byLoginVoterId v) d = Some e ->
  LoginAttempt.windowEndsAt (doc e) = Some wend ->
  Forall (fun t => t < wend) ts ->
  exists e',
    db_findOne login_attempts (byLoginVoterId v) (loginFailureSeq v ts d) = Some e' /\
    LoginAttempt.count (doc e') = LoginAttempt.count (doc e) + Z.of_nat (length ts) /\
    LoginAttempt.windowEndsAt (doc e') = Some wend.
Proof.
  induction ts as [|t ts IH]; intros d e wend Hf Hw Hall.
  - exists e. cbn. repeat split; auto. lia.
  - inversion Hall as [|? ? Ht Hall']; subst.
    pose proof (loginFailure_counts v t d e wend Hf Hw Ht) as Hstep.
    destruct (IH _ _ wend Hstep Hw Hall') as (e' & Hf' & Hc' & Hw').
    exists e'. unfold loginFailureSeq in *. cbn [fold_left]. repeat split; auto.
    rewrite Hc'. cbn [doc incLoginCount LoginAttempt.count length]. lia.
Qed.

(** The store part of a [sendOtp] call on a phone number that is there. *)
Lemma sendOtp_db trim hashPhone phone now code dateNow w :
  blank trim phone = false ->
  db (snd (sendOtp trim hashPhone phone now code dateNow [] w))
  = snd (run (sendOtpCount (hashPhone (trim (js_or phone ""))) now) [] (db w)).
Proof.
  intros Hb. unfold sendOtp. rewrite Hb.
  destruct (run _ [] (db w)) as [[err|[res|]] d']; reflexivity.
Qed.

(** OTP requests inside a running window, up to the maximum: one more
    each. *)
Lemma sendOtpSeq_counts trim hashPhone phone calls : forall w e wend,
  blank trim phone = false ->
  uniqueIds (rows_otp_attempts (db w)) (nextId (db w)) ->
  db_findOne otp_attempts (byPhoneHash (hashPhone (trim (js_or phone "")))) (db w)
  = Some e ->
  OtpAttempt.windowEndsAt (doc e) = Some wend ->
  Forall (fun call => fst (fst call) < wend) calls ->
  OtpAttempt.count (doc e) + Z.of_nat (length calls) <= OTP_MAX_PER_WINDOW ->
  exists e',
    db_findOne otp_attempts (byPhoneHash (hashPhone (trim (js_or phone ""))))
               (db (sendOtpSeq trim hashPhone phone calls w)) = Some e' /\
    OtpAttempt.count (doc e') = OtpAttempt.count (doc e) + Z.of_nat (length calls) /\
    OtpAttempt.windowEndsAt (doc e') = Some wend.
Proof.
  induction calls as [|[[now code] dateNow] calls IH]; intros w e wend Hb Hu Hf Hw Hall Hle.
  - exists e. cbn. repeat split; auto. lia.
  - inversion Hall as [|? ? Ht Hall']; subst. cbn [fst] in Ht.
    cbn [length] in Hle.
    set (w1 := snd (sendOtp trim hashPhone phone now code dateNow [] w)).
    assert (Hdb : db w1 = snd (run (sendOtpCount (hashPhone (trim (js_or phone ""))) now)
                                   [] (db w))) by now apply sendOtp_db.
    assert (Hf1 : db_findOne otp_attempts
                    (byPhoneHash (hashPhone (trim (js_or phone "")))) (db w1)
                  = Some (mkRow (_id e) (incOtpCount (doc e)))).
    { rewrite Hdb. apply sendOtpCount_counts with (wend := wend); try assumption.
      - apply Hu.
      - lia. }
    assert (Hu1 : uniqueIds (rows_otp_attempts (db w1)) (nextId (db w1))).
    { rewrite Hdb. now apply sendOtpCount_uniqueIds. }
    destruct (IH w1 _ wend Hb Hu1 Hf1 Hw Hall') as (e' & Hf' & Hc' & Hw').
    { cbn [doc incOtpCount OtpAttempt.count]. lia. }
    exists e'. repeat split; auto.
    rewrite Hc'. cbn [doc incOtpCount OtpAttempt.count length]. lia.
Qed.


(** X21: with requests handled one after the other (no two of them
    overlap), K recorded attempts for one subject key inside one window
    (the one that opens it and K - 1 more before it ends) leave the stored
    count at K, and an attempt made when no record exists or when the
    recorded window has ended resets the record to count 1 with a window
    ending [now + windowDuration].  For the OTP counter the attempts are
    recorded up to the maximum of 10 a window; the login counter is the
    one [recordLoginFailure] keeps. *)
Theorem attempt_counter_counts trim hashPhone :
  (forall phone now code dateNow w,
      blank trim phone = false ->
      inWindow (db_findOne otp_attempts
                  (byPhoneHash (hashPhone (trim (js_or phone "")))) (db w)) now = None ->
      otpCountOf (hashPhone (trim (js_or phone "")))
                 (db (snd (sendOtp trim hashPhone phone now code dateNow [] w)))
      = Some 1 /\
      otpWindowOf (hashPhone (trim (js_or phone "")))
                  (db (snd (sendOtp trim hashPhone phone now code dateNow [] w)))
      = Some (now + 60 * 60 * 1000)) /\
  (forall phone t0 code0 dateNow0 calls w,
      blank trim phone = false ->
      uniqueIds (rows_otp_attempts (db w)) (nextId (db w)) ->
      inWindow (db_findOne otp_attempts
                  (byPhoneHash (hashPhone (trim (js_or phone "")))) (db w)) t0 = None ->
      Forall (fun call => fst (fst call) < t0 + 60 * 60 * 1000) calls ->
      1 + Z.of_nat (length calls) <= 10 ->
      otpCountOf (hashPhone (trim (js_or phone "")))
                 (db (sendOtpSeq trim hashPhone phone ((t0, code0, dateNow0) :: calls) w))
      = Some (1 + Z.of_nat (length calls))) /\
  (forall v now d,
      lapsed (db_findOne login_attempts (byLoginVoterId v) d) now = true ->
      loginCountOf v (snd (run (loginFailure v now) [] d)) = Some 1 /\
      loginWindowOf v (snd (run (loginFailure v now) [] d))
      = Some (now + 15 * 60 * 1000)) /\
  (forall v t0 ts d,
      lapsed (db_findOne login_attempts (byLoginVoterId v) d) t0 = true ->
      Forall (fun t => t < t0 + 15 * 60 * 1000) ts ->
      loginCountOf v (loginFailureSeq v (t0 :: ts) d) = Some (1 + Z.of_nat (length ts))).
Proof.
  split; [|split; [|split]].
  - intros phone now code dateNow w Hb Hw. rewrite sendOtp_db by assumption.
    destruct (sendOtpCount_opens _ now (db w) Hw) as [i Hi].
    unfold otpCountOf, otpWindowOf. now rewrite Hi.
  - intros phone t0 code0 dateNow0 calls w Hb Hu Hw Hall Hle.
    change (sendOtpSeq trim hashPhone phone ((t0, code0, dateNow0) :: calls) w)
      with (sendOtpSeq trim hashPhone phone calls
              (snd (sendOtp trim hashPhone phone t0 code0 dateNow0 [] w))).
    set (w1 := snd (sendOtp trim hashPhone phone t0 code0 dateNow0 [] w)).
    assert (Hdb : db w1 = snd (run (sendOtpCount (hashPhone (trim (js_or phone ""))) t0)
                                   [] (db w))) by now apply sendOtp_db.
    destruct (sendOtpCount_opens _ t0 (db w) Hw) as [i Hi]. rewrite <- Hdb in Hi.
    assert (Hu1 : uniqueIds (rows_otp_attempts (db w1)) (nextId (db w1))).
    { rewrite Hdb. now apply sendOtpCount_uniqueIds. }
    destruct (sendOtpSeq_counts trim hashPhone phone calls w1 _ (t0 + 60 * 60 * 1000)
                Hb Hu1 Hi eq_refl Hall) as (e' & Hf' & Hc' & _).
    { cbn [doc OtpAttempt.count]. unfold OTP_MAX_PER_WINDOW. lia. }
    unfold otpCountOf. rewrite Hf'. cbn [option_map]. now rewrite Hc'.
  - intros v now d Hl. destruct (loginFailure_opens v now d Hl) as [i Hi].
    unfold loginCountOf, loginWindowOf. now rewrite Hi.
  - intros v t0 ts d Hl Hall.
    change (loginFailureSeq v (t0 :: ts) d)
      with (loginFailureSeq v ts (snd (run (loginFailure v t0) [] d))).
    destruct (loginFailure_opens v t0 d Hl) as [i Hi].
    destruct (loginFailureSeq_counts v ts _ _ (t0 + 15 * 60 * 1000) Hi eq_refl Hall)
      as (e' & Hf' & Hc' & _).
    unfold loginCountOf. rewrite Hf'. cbn [option_map]. now rewrite Hc'.
Qed.

Lemma attempt_counter_counts_witness :
  otpCountOf (Sample.hashPhone "0790")
             (db (sendOtpSeq Sample.trim Sample.hashPhone (Some " 0790 ")
                             [(1000, "111111", 1001); (2000, "222222", 2001);
                              (3000, "333333", 3001)]
                             Sample.world0))
  = Some 3 /\
  loginCountOf "v1" (loginFailureSeq "v1" [1000; 2000; 3000] Sample.db0) = Some 3.
Proof.
  pose proof (attempt_counter_counts Sample.trim Sample.hashPhone)
    as (_ & Hotp & _ & Hlogin).
  split.
  - apply (Hotp (Some " 0790 ") 1000 "111111" 1001
                [(2000, "222222", 2001); (3000, "333333", 3001)] Sample.world0).
    + reflexivity.
    + split; [constructor | intros r []].
    + reflexivity.
    + repeat constructor.
    + discriminate.
  - apply (Hlogin "v1" 1000 [2000; 3000] Sample.db0).
    + reflexivity.
    + repeat constructor.
Defined.

(** X22: a send-OTP request handled without overlap that finds the
    running window's count at 10 or more is answered OTP_RATE_LIMITED and
    changes nothing (no increment, no OTP generated); and with requests
    handled one after the other no request takes a stored count above
    10. *)
Theorem otp_count_never_exceeds_max trim hashPhone phone now code dateNow w :
  (forall existing wend,
      blank trim phone = false ->
      db_findOne otp_attempts (byPhoneHash (hashPhone (trim (js_or phone "")))) (db w)
      = Some existing ->
      OtpAttempt.windowEndsAt (doc existing) = Some wend -> now < wend ->
      10 <= OtpAttempt.count (doc existing) ->
      sendOtp trim hashPhone phone now code dateNow [] w
      = (json 429
           (errorBody "OTP_RATE_LIMITED"
              "Too many OTP requests for this phone. Please try again later."
              [("maxPerWindow", JNum 10); ("windowMs", JNum (60 * 60 * 1000))]),
         w)) /\
  (uniqueIds (rows_otp_attempts (db w)) (nextId (db w)) ->
   Forall (fun r => OtpAttempt.count (doc r) <= 10) (rows_otp_attempts (db w)) ->
   let w' := snd (sendOtp trim hashPhone phone now code dateNow [] w) in
   uniqueIds (rows_otp_attempts (db w')) (nextId (db w')) /\
   Forall (fun r => OtpAttempt.count (doc r) <= 10) (rows_otp_attempts (db w'))).
Proof.
  split.
  - intros existing wend Hb Hf Hw Hlt Hc. unfold sendOtp. rewrite Hb.
    rewrite sendOtpCount_run, Hf. unfold inWindow, windowActive. rewrite Hw.
    destruct (Z.ltb_spec now wend); [|lia].
    destruct (Z.leb_spec OTP_MAX_PER_WINDOW (OtpAttempt.count (doc existing)));
      [|unfold OTP_MAX_PER_WINDOW in *; lia].
    now destruct w.
  - intros Hu Hall w'. subst w'.
    destruct (blank trim phone) eqn:Hb.
    { unfold sendOtp. rewrite Hb. cbn [snd]. auto. }
    rewrite sendOtp_db by assumption. split; [now apply sendOtpCount_uniqueIds|].
    rewrite sendOtpCount_run.
    set (ph := hashPhone (trim (js_or phone ""))).
    destruct (db_findOne otp_attempts (byPhoneHash ph) (db w)) as [e|] eqn:Hf;
      cbn [inWindow].
    + destruct (windowActive (OtpAttempt.windowEndsAt (doc e)) now).
      * destruct (Z.leb_spec OTP_MAX_PER_WINDOW (OtpAttempt.count (doc e)));
          cbn [snd]; [exact Hall|].
        rewrite (proj1 (rows_after_updateOne_otp _ _ _ _)).
        destruct (updateFirst (byId (_id e)) incOtpCount (rows_otp_attempts (db w)))
          as [rs'|] eqn:E; [|exact Hall].
        eapply updateFirst_Forall; [|exact Hall|exact E].
        intros r Hr Hid. unfold byId in Hid. apply Nat.eqb_eq in Hid.
        assert (r = e) as ->.
        { apply (same_id_same_row (rows_otp_attempts (db w))); auto.
          - apply Hu.
          - now apply find_some in Hf as [Hin _]. }
        cbn. unfold OTP_MAX_PER_WINDOW in *. lia.
      * cbn [snd]. rewrite (proj1 (rows_after_updateOne_otp _ _ _ _)).
        destruct (updateFirst _ _ (rows_otp_attempts (db w))) as [rs'|] eqn:E.
        -- eapply updateFirst_Forall; [|exact Hall|exact E]. intros; cbn; lia.
        -- apply Forall_app. split; [exact Hall|]. repeat constructor. cbn. lia.
    + cbn [snd]. rewrite (proj1 (rows_after_updateOne_otp _ _ _ _)).
      destruct (updateFirst _ _ (rows_otp_attempts (db w))) as [rs'|] eqn:E.
      * eapply updateFirst_Forall; [|exact Hall|exact E]. intros; cbn; lia.
      * apply Forall_app. split; [exact Hall|]. repeat constructor. cbn. lia.
Qed.

Lemma otp_count_never_exceeds_max_witness :
  sendOtp Sample.trim Sample.hashPhone (Some " 0790 ") 1000 "654321" 1001 []
          Sample.worldFull
  = (json 429
       (errorBody "OTP_RATE_LIMITED"
          "Too many OTP requests for this phone. Please try again later."
          [("maxPerWindow", JNum 10); ("windowMs", JNum (60 * 60 * 1000))]),
     Sample.worldFull) /\
  Forall (fun r => OtpAttempt.count (doc r) <= 10)
         (rows_otp_attempts
            (db (snd (sendOtp Sample.trim Sample.hashPhone (Some " 0791 ") 1000 "654321"
                              1001 [] Sample.worldFull)))).
Proof.
  split.
  - apply (proj1 (otp_count_never_exceeds_max Sample.trim Sample.hashPhone
                    (Some " 0790 ") 1000 "654321" 1001 Sample.worldFull)
                 (mkRow 6%nat (OtpAttempt.mk (Sample.hashPhone "0790") 10 (Some 5000) 0 []))
                 5000); reflexivity.
  - apply (proj2 (otp_count_never_exceeds_max Sample.trim Sample.hashPhone
                    (Some " 0791 ") 1000 "654321" 1001 Sample.worldFull)).
    + split; [repeat constructor; intros [] | intros r [<-|[]]; repeat constructor].
    + repeat constructor. discriminate.
Defined.

(** ** The attempt counters under overlapping requests *)

(** C7: the counters lose attempts when requests for one subject key
    overlap.  No record exists for the phone: a [sendOtp] request reads
    (line 42), a second request for the same phone is handled, and accepted,
    before the first one writes (lines 64-76); both are answered 200 and
    the stored count is 1, where the same two requests handled one after
    the other leave 2.  Likewise a failed login that read no record (line
    215) and writes (lines 307-319) after five more failures for the same
    voter id were recorded inside the window leaves the count at 1, where
    the six failures handled one after the other leave 6. *)
Theorem attempt_counter_loses_overlapping_attempts :
  otpCountOf (Sample.hashPhone "0790") (db Sample.world0) = None /\
  fst (run (sendOtpCount (Sample.hashPhone "0790") 1500) [] (db Sample.world0))
  = inr None /\
  fst (sendOtp Sample.trim Sample.hashPhone (Some "0790") 1000 "111111" 1001
               (between (otherSendOtp (Sample.hashPhone "0790") 1500)) Sample.world0)
  = json 200 [("status", JStr "ok");
              ("message", JStr "OTP sent (stub). Check server logs for code in dev.")] /\
  otpCountOf (Sample.hashPhone "0790")
             (db (snd (sendOtp Sample.trim Sample.hashPhone (Some "0790") 1000 "111111"
                               1001
                               (between (otherSendOtp (Sample.hashPhone "0790") 1500))
                               Sample.world0)))
  = Some 1 /\
  otpCountOf (Sample.hashPhone "0790")
             (db (sendOtpSeq Sample.trim Sample.hashPhone (Some "0790")
                             [(1000, "111111", 1001); (1500, "222222", 1501)]
                             Sample.world0))
  = Some 2 /\
  loginCountOf "v1" Sample.db0 = None /\
  loginCountOf "v1"
               (snd (run (loginFailure "v1" 1000)
                         (between (loginFailureSeq "v1" [1100; 1200; 1300; 1400; 1500]))
                         Sample.db0))
  = Some 1 /\
  loginCountOf "v1" (loginFailureSeq "v1" [1000; 1100; 1200; 1300; 1400; 1500] Sample.db0)
  = Some 6.
Proof. repeat split; reflexivity. Qed.

(** C10: the stored count exceeds the maximum when two requests overlap.
    The record of the phone stands at 9 in a window that ends at 5000: a
    [sendOtp] request reads 9 (line 42), a second request for the same
    phone is handled, and accepted, before the first one increments (lines
    57-60); the first is answered 200 as well, its OTP is stored, and the
    count is 11 with the window still running.  Handled one after the
    other, the second of the two is answered 429 and the count stays at
    10. *)
Theorem otp_count_exceeds_max_when_requests_overlap :
  otpCountOf (Sample.hashPhone "0790") (db Sample2.worldNine) = Some 9 /\
  otpWindowOf (Sample.hashPhone "0790") (db Sample2.worldNine) = Some 5000 /\
  fst (run (sendOtpCount (Sample.hashPhone "0790") 1500) [] (db Sample2.worldNine))
  = inr None /\
  fst (sendOtp Sample.trim Sample.hashPhone (Some "0790") 1000 "111111" 1001
               (between (otherSendOtp (Sample.hashPhone "0790") 1500)) Sample2.worldNine)
  = json 200 [("status", JStr "ok");
              ("message", JStr "OTP sent (stub). Check server logs for code in dev.")] /\
  mapGet (Sample.hashPhone "0790")
         (otpStore (snd (sendOtp Sample.trim Sample.hashPhone (Some "0790") 1000 "111111"
                                 1001
                                 (between (otherSendOtp (Sample.hashPhone "0790") 1500))
                                 Sample2.worldNine)))
  = Some (mkOtpEntry "111111" (1001 + 5 * 60 * 1000)) /\
  otpCountOf (Sample.hashPhone "0790")
             (db (snd (sendOtp Sample.trim Sample.hashPhone (Some "0790") 1000 "111111"
                               1001
                               (between (otherSendOtp (Sample.hashPhone "0790") 1500))
                               Sample2.worldNine)))
  = Some 11 /\
  OTP_MAX_PER_WINDOW < 11 /\
  fst (sendOtp Sample.trim Sample.hashPhone (Some "0790") 1500 "222222" 1501 []
               (snd (sendOtp Sample.trim Sample.hashPhone (Some "0790") 1000 "111111"
                             1001 [] Sample2.worldNine)))
  = json 429
      (errorBody "OTP_RATE_LIMITED"
         "Too many OTP requests for this phone. Please try again later."
         [("maxPerWindow", JNum 10); ("windowMs", JNum (60 * 60 * 1000))]) /\
  otpCountOf (Sample.hashPhone "0790")
             (db (sendOtpSeq Sample.trim Sample.hashPhone (Some "0790")
                             [(1000, "111111", 1001); (1500, "222222", 1501)]
                             Sample2.worldNine))
  = Some 10.
Proof. repeat split; reflexivity. Qed.

(** * Further properties *)

(** ** One ballot per redemption *)

Lemma count_after_updateFirst {T} (p filter : Row T -> bool) (update : T -> T) rs rs' r :
  find filter rs = Some r ->
  p r = false -> p (mkRow (_id r) (update (doc r))) = true ->
  updateFirst filter update rs = Some rs' ->
  length (List.filter p rs') = S (length (List.filter p rs)).
Proof.
  revert rs'. induction rs as [|a rs IH]; simpl; intros rs' Hf Hp Hp' Hu; [discriminate|].
  destruct (filter a) eqn:Ea.
  - inversion Hf; inversion Hu; subst. simpl. now rewrite Hp, Hp'.
  - destruct (updateFirst filter update rs) as [rest|]; [|discriminate].
    inversion Hu; subst. simpl. destruct (p a); simpl; now rewrite (IH rest).
Qed.

Lemma length_after_updateFirst {T} (filter : Row T -> bool) (update : T -> T) rs rs' :
  updateFirst filter update rs = Some rs' -> length rs' = length rs.
Proof.
  intros H. apply updateFirst_ids in H.
  now rewrite <- (length_map _id rs'), H, length_map.
Qed.

Lemma filter_anyRow {T} (rs : list (Row T)) : List.filter anyRow rs = rs.
Proof. induction rs; simpl; congruence. Qed.

Lemma voteIsFor_voteDoc e c now sig e' c' i :
  voteIsFor e' c' (mkRow i (voteDoc e c now sig))
  = (String.eqb e e' && String.eqb c c')%bool.
Proof. reflexivity. Qed.

(** X1: every accepted [submit] adds exactly one to the voters counted as
    having voted, to the spent tokens and to the votes counted for the
    chosen candidate of that election; it adds or removes no voter and no
    token, and changes no other candidate's count. *)
Theorem submit_counts_one_ballot v t e c n now sig d r d1 :
  submit v t e c n now sig [] d = (inr r, d1) ->
  db_countDocuments voters hasVotedTrue d1 = S (db_countDocuments voters hasVotedTrue d) /\
  db_countDocuments voters anyRow d1 = db_countDocuments voters anyRow d /\
  db_countDocuments votingTokens spentTrue d1
  = S (db_countDocuments votingTokens spentTrue d) /\
  db_countDocuments votingTokens anyRow d1 = db_countDocuments votingTokens anyRow d /\
  candidateVotes e c d1 = S (candidateVotes e c d) /\
  (forall e' c', (e', c') <> (e, c) -> candidateVotes e' c' d1 = candidateVotes e' c' d).
Proof.
  intros Hrun.
  pose proof (submit_success_inv _ _ _ _ _ _ _ _ _ _ Hrun) as Hp.
  pose proof Hp as (voter & token & cand & Hv & _ & Hn & Ht & Hs & _).
  destruct (submit_commits v t e c n now sig d voter token Hv Ht Hp)
    as (vs' & ts' & Hvs & Hts & Heq).
  rewrite Heq in Hrun. inversion Hrun; subst d1 r; clear Hrun.
  unfold candidateVotes, db_countDocuments. cbn [collection rows_voters rows_votingTokens rows_votes].
  rewrite !filter_anyRow.
  destruct (find (unspentById (_id token)) (rows_votingTokens d)) as [tok|] eqn:Hft.
  2:{ apply find_some_iff_updateFirst with (update := setSpent now) in Hft. congruence. }
  pose proof (find_some _ _ Hft) as [_ Hunspent].
  unfold unspentById in Hunspent. apply andb_prop in Hunspent as [_ Hunspent].
  apply negb_true_iff in Hunspent.
  repeat split.
  - apply (count_after_updateFirst hasVotedTrue (byVoterId v) (setHasVoted now)
             (rows_voters d) vs' voter); auto.
  - eapply length_after_updateFirst; eassumption.
  - apply (count_after_updateFirst spentTrue (unspentById (_id token)) (setSpent now)
             (rows_votingTokens d) ts' tok); auto.
  - eapply length_after_updateFirst; eassumption.
  - rewrite filter_app, length_app. cbn [List.filter]. rewrite voteIsFor_voteDoc.
    rewrite !String.eqb_refl. cbn. lia.
  - intros e' c' Hne. rewrite filter_app, length_app. cbn [List.filter].
    rewrite voteIsFor_voteDoc.
    destruct (String.eqb_spec e e'), (String.eqb_spec c c'); subst;
      try congruence; cbn; lia.
Qed.

Lemma submit_counts_one_ballot_witness :
  submit "v1" "t1" "e1" "c1" (Some "n1") 1000 "sig" [] Sample.db0
  = (inr (mkSubmitResult "e1" "c1"),
     snd (submit "v1" "t1" "e1" "c1" (Some "n1") 1000 "sig" [] Sample.db0)) /\
  db_countDocuments voters hasVotedTrue
    (snd (submit "v1" "t1" "e1" "c1" (Some "n1") 1000 "sig" [] Sample.db0)) = 3%nat /\
  candidateVotes "e1" "c1"
    (snd (submit "v1" "t1" "e1" "c1" (Some "n1") 1000 "sig" [] Sample.db0)) = 1%nat.
Proof.
  split; [reflexivity|].
  pose proof (submit_counts_one_ballot "v1" "t1" "e1" "c1" (Some "n1") 1000 "sig"
                Sample.db0 (mkSubmitResult "e1" "c1") _ eq_refl)
    as (Hvoted & _ & _ & _ & Hvotes & _).
  split; [exact Hvoted | exact Hvotes].
Defined.

(** ** A redeemed token *)

(** Updating through a filter that pins the [_id] of the row another
    filter found rewrites that row, when [_id]s are unique. *)
Lemma find_after_update_pinned {T} (filter pinned : Row T -> bool) (update : T -> T) rs e :
  NoDup (map _id rs) ->
  find filter rs = Some e ->
  pinned e = true ->
  (forall r, pinned r = true -> _id r = _id e) ->
  filter (mkRow (_id e) (update (doc e))) = true ->
  exists rs',
    updateFirst pinned update rs = Some rs' /\
    find filter rs' = Some (mkRow (_id e) (update (doc e))).
Proof.
  induction rs as [|a rs IH]; simpl; intros Hnd Hf Hpe Hpin Hk; [discriminate|].
  inversion Hnd as [|? ? Hnotin Hnd']; subst.
  destruct (filter a) eqn:Ea.
  - inversion Hf; subst. rewrite Hpe.
    eexists. split; [reflexivity|]. simpl. now rewrite Hk.
  - destruct (pinned a) eqn:Epa.
    + exfalso. apply Hnotin. rewrite (Hpin a Epa).
      apply in_map. now apply find_some in Hf as [Hin _].
    + destruct (IH Hnd' Hf Hpe Hpin Hk) as (rs' & Hu & Hfind).
      rewrite Hu. eexists. split; [reflexivity|]. simpl. now rewrite Ea.
Qed.

(** After a redemption the token row that was found is the one marked
    spent. *)
Lemma submit_spends_the_token v t e c n now sig d r d1 token :
  NoDup (map _id (rows_votingTokens d)) ->
  db_findOne votingTokens (byTokenAndElection t e) d = Some token ->
  submit v t e c n now sig [] d = (inr r, d1) ->
  db_findOne votingTokens (byTokenAndElection t e) d1
  = Some (mkRow (_id token) (setSpent now (doc token))).
Proof.
  intros Hnd Ht Hrun.
  pose proof (submit_success_inv _ _ _ _ _ _ _ _ _ _ Hrun) as Hp.
  pose proof Hp as (voter & token' & cand & Hv & _ & _ & Ht' & Hs & _).
  rewrite Ht in Ht'; inversion Ht'; subst token'.
  destruct (submit_commits v t e c n now sig d voter token Hv Ht Hp)
    as (vs' & ts' & _ & Hts & Heq).
  rewrite Heq in Hrun. inversion Hrun; subst d1 r; clear Hrun.
  destruct (find_after_update_pinned (byTokenAndElection t e) (unspentById (_id token))
              (setSpent now) (rows_votingTokens d) token Hnd Ht) as (rs' & Hu & Hfind).
  - unfold unspentById. now rewrite Nat.eqb_refl, Hs.
  - intros r0 Hr0. unfold unspentById in Hr0. apply andb_prop in Hr0 as [Hid _].
    now apply Nat.eqb_eq in Hid.
  - apply find_some in Ht as [_ Ht]. exact Ht.
  - unfold db_findOne. cbn [collection rows_votingTokens]. congruence.
Qed.

(** X2: with unique token [_id]s, once a [submit] has redeemed a token no
    later [submit] naming that token and election succeeds, whoever the
    voter; a voter who is still eligible is answered TOKEN_ALREADY_USED. *)
Theorem redeemed_token_cannot_be_reused v t e c n now sig d r d1 :
  NoDup (map _id (rows_votingTokens d)) ->
  submit v t e c n now sig [] d = (inr r, d1) ->
  forall v2 c2 n2 now2 sig2,
    (forall r2 d2, submit v2 t e c2 n2 now2 sig2 [] d1 <> (inr r2, d2)) /\
    (forall voter2,
        db_findOne voters (byVoterId v2) d1 = Some voter2 ->
        Voter.status (doc voter2) = "active" ->
        Voter.hasVoted (doc voter2) = false ->
        submit v2 t e c2 n2 now2 sig2 [] d1
        = (inl (mkError "Voting token already used" "TOKEN_ALREADY_USED" 409 None), d1)).
Proof.
  intros Hnd Hrun v2 c2 n2 now2 sig2.
  pose proof (submit_success_inv _ _ _ _ _ _ _ _ _ _ Hrun)
    as (_ & token & _ & _ & _ & _ & Ht & _).
  pose proof (submit_spends_the_token _ _ _ _ _ _ _ _ _ _ _ Hnd Ht Hrun) as Hspent.
  split.
  - intros r2 d2 Hrun2.
    apply submit_success_inv in Hrun2 as (_ & token2 & _ & _ & _ & _ & Ht2 & Hs2 & _).
    rewrite Hspent in Ht2. inversion Ht2; subst token2. discriminate Hs2.
  - intros voter2 Hv2 Ha2 Hn2. run_submit. rewrite Hv2, Ha2, Hn2. step_prog.
    now rewrite Hspent.
Qed.

Lemma redeemed_token_cannot_be_reused_witness :
  NoDup (map _id (rows_votingTokens Sample2.db1)) /\
  submit "v4" "t1" "e1" "c1" None 2000 "sig2" []
         (snd (submit "v1" "t1" "e1" "c1" (Some "n1") 1000 "sig" [] Sample2.db1))
  = (inl (mkError "Voting token already used" "TOKEN_ALREADY_USED" 409 None),
     snd (submit "v1" "t1" "e1" "c1" (Some "n1") 1000 "sig" [] Sample2.db1)).
Proof.
  assert (Hnd : NoDup (map _id (rows_votingTokens Sample2.db1))).
  { repeat constructor. intros []. }
  split; [exact Hnd|].
  apply (proj2 (redeemed_token_cannot_be_reused "v1" "t1" "e1" "c1" (Some "n1") 1000 "sig"
                  Sample2.db1 (mkSubmitResult "e1" "c1") _ Hnd eq_refl
                  "v4" "c1" None 2000 "sig2")
               (mkRow 6%nat (Voter.mk "v4" "active" false 0)));
    reflexivity.
Defined.

(** ** From issue to redemption *)

(** An answer 201 of [issueToken] means the token row was appended. *)
Lemma issueToken_201_inv config req now tokenId nonce d body d1 :
  issueToken config req now tokenId nonce [] d = (json 201 body, d1) ->
  d1 = db_insertOne votingTokens
         (tokenDoc tokenId (electionIdOf config req) nonce now (now + TOKEN_TTL_MS)) d.
Proof.
  unfold issueToken. destruct (falsy (voterIdOf req)); [discriminate|].
  unfold run, issueTokenProg, isElectionOpen. step_prog.
  destruct (db_findOne elections _ d) as [el|]; step_prog.
  - destruct (String.eqb (Election.status (doc el)) "open"); step_prog; [|discriminate].
    destruct (db_findOne voters _ d) as [voter|]; step_prog; [|discriminate].
    destruct (String.eqb (Voter.status (doc voter)) "active"); step_prog; [|discriminate].
    destruct (Voter.hasVoted (doc voter)); step_prog; [discriminate|].
    intros H; now inversion H.
  - destruct (db_findOne voters _ d) as [voter|]; step_prog; [|discriminate].
    destruct (String.eqb (Voter.status (doc voter)) "active"); step_prog; [|discriminate].
    destruct (Voter.hasVoted (doc voter)); step_prog; [discriminate|].
    intros H; now inversion H.
Qed.

Lemma find_app_miss {T} (filter : Row T -> bool) rs r :
  find filter rs = None -> filter r = false -> find filter (rs ++ [r]) = None.
Proof.
  induction rs as [|a rs IH]; simpl; intros H Hr.
  - now rewrite Hr.
  - destruct (filter a); [discriminate | auto].
Qed.

(** The token row a lookup by (tokenId, electionId) finds after
    [issueToken] stored a token under a fresh [tokenId]. *)
Lemma issued_token_found tokenId e nonce now d :
  db_findOne votingTokens (byTokenAndElection tokenId e) d = None ->
  db_findOne votingTokens (byTokenAndElection tokenId e)
             (db_insertOne votingTokens (tokenDoc tokenId e nonce now (now + TOKEN_TTL_MS)) d)
  = Some (mkRow (nextId d) (tokenDoc tokenId e nonce now (now + TOKEN_TTL_MS))).
Proof.
  intros Hfresh. unfold db_findOne, db_insertOne. cbn [collection rows_votingTokens bumpId setCollection].
  apply find_app_none; [exact Hfresh|].
  unfold byTokenAndElection. cbn. now rewrite !String.eqb_refl.
Qed.

(** X3: a token that [issueToken] has just issued under a fresh [tokenId]
    is redeemed by [submit], before its five minutes are over, for any
    active candidate of the election, with the issued nonce or with none,
    and by any voter who is eligible: the token is not tied to the voter
    it was issued to. *)
Theorem issued_token_redeems config req now tokenId nonce d body d1 :
  issueToken config req now tokenId nonce [] d = (json 201 body, d1) ->
  db_findOne votingTokens (byTokenAndElection tokenId (electionIdOf config req)) d = None ->
  nonce <> "" ->
  forall v2 voter2 c cand n2 now2 sig,
    db_findOne voters (byVoterId v2) d = Some voter2 ->
    Voter.status (doc voter2) = "active" ->
    Voter.hasVoted (doc voter2) = false ->
    db_findOne candidates (activeCandidate (electionIdOf config req) c) d = Some cand ->
    n2 = None \/ n2 = Some nonce ->
    now2 < now + 5 * 60 * 1000 ->
    fst (submit v2 tokenId (electionIdOf config req) c n2 now2 sig [] d1)
    = inr (mkSubmitResult (electionIdOf config req) c).
Proof.
  intros Hissue Hfresh Hnonce v2 voter2 c cand n2 now2 sig Hv Ha Hn Hc Hn2 Hlt.
  apply issueToken_201_inv in Hissue. subst d1.
  set (e := electionIdOf config req) in *.
  pose proof (issued_token_found tokenId e nonce now d Hfresh) as Ht.
  assert (Hp : checksPass v2 tokenId e c n2 now2
                 (db_insertOne votingTokens
                    (tokenDoc tokenId e nonce now (now + TOKEN_TTL_MS)) d)).
  { exists voter2, (mkRow (nextId d) (tokenDoc tokenId e nonce now (now + TOKEN_TTL_MS))), cand.
    repeat split; try assumption; try reflexivity.
    - cbn. apply Z.leb_gt. unfold TOKEN_TTL_MS. lia.
    - destruct Hn2 as [->| ->]; [reflexivity|]. cbn.
      destruct (String.eqb_spec nonce ""); [contradiction|]. cbn.
      now rewrite String.eqb_refl. }
  assert (Hv' : db_findOne voters (byVoterId v2)
                  (db_insertOne votingTokens
                     (tokenDoc tokenId e nonce now (now + TOKEN_TTL_MS)) d)
                = Some voter2) by exact Hv.
  destruct (submit_commits v2 tokenId e c n2 now2 sig _ voter2 _ Hv' Ht Hp)
    as (vs' & ts' & _ & _ & Heq).
  now rewrite Heq.
Qed.

Lemma issued_token_redeems_witness :
  fst (submit "v4" "uuid-1" "e1" "c1" (Some "0a1b") 2000 "sig" [] (snd Sample2.issued))
  = inr (mkSubmitResult "e1" "c1") /\
  fst (submit "v1" "uuid-1" "e1" "c1" None 2000 "sig" [] (snd Sample2.issued))
  = inr (mkSubmitResult "e1" "c1").
Proof.
  pose proof (issued_token_redeems Sample.config0 (Sample.issueReq "v1") 1000
                "uuid-1" "0a1b" Sample2.db2 _ _ eq_refl eq_refl
                (fun E => ltac:(discriminate E))) as H.
  split.
  - apply (H "v4" (mkRow 6%nat (Voter.mk "v4" "active" false 0)) "c1"
             (mkRow 4%nat (Candidate.mk "e1" "c1" "active")));
      try reflexivity. now right.
  - apply (H "v1" (mkRow 0%nat (Voter.mk "v1" "active" false 0)) "c1"
             (mkRow 4%nat (Candidate.mk "e1" "c1" "active")));
      try reflexivity. now left.
Defined.

(** X4: a token that [issueToken] has just issued under a fresh [tokenId]
    is refused with TOKEN_EXPIRED from five minutes after its issue on,
    whatever the nonce and the candidate, and the refusal changes
    nothing. *)
Theorem issued_token_expires config req now tokenId nonce d body d1 :
  issueToken config req now tokenId nonce [] d = (json 201 body, d1) ->
  db_findOne votingTokens (byTokenAndElection tokenId (electionIdOf config req)) d = None ->
  forall v2 voter2 c n2 now2 sig,
    db_findOne voters (byVoterId v2) d = Some voter2 ->
    Voter.status (doc voter2) = "active" ->
    Voter.hasVoted (doc voter2) = false ->
    now + 5 * 60 * 1000 <= now2 ->
    submit v2 tokenId (electionIdOf config req) c n2 now2 sig [] d1
    = (inl (mkError "Voting token has expired" "TOKEN_EXPIRED" 410 None), d1).
Proof.
  intros Hissue Hfresh v2 voter2 c n2 now2 sig Hv Ha Hn Hle.
  apply issueToken_201_inv in Hissue. subst d1.
  apply (submit_expired v2 tokenId (electionIdOf config req) c n2 now2 sig _ voter2
           (mkRow (nextId d)
                  (tokenDoc tokenId (electionIdOf config req) nonce now (now + TOKEN_TTL_MS)))
           (now + TOKEN_TTL_MS)); try assumption; try reflexivity.
  now apply issued_token_found.
Qed.

Lemma issued_token_expires_witness :
  submit "v1" "uuid-1" "e1" "c1" (Some "0a1b") 301000 "sig" [] (snd Sample2.issued)
  = (inl (mkError "Voting token has expired" "TOKEN_EXPIRED" 410 None),
     snd Sample2.issued).
Proof.
  apply (issued_token_expires Sample.config0 (Sample.issueReq "v1") 1000
           "uuid-1" "0a1b" Sample2.db2 _ _ eq_refl eq_refl
           "v1" (mkRow 0%nat (Voter.mk "v1" "active" false 0)));
    reflexivity.
Defined.

(** X5: a token that [issueToken] has just issued under a fresh [tokenId]
    is refused with TOKEN_NONCE_MISMATCH when the caller sends a nonce
    other than the issued one, before any look at the candidate. *)
Theorem issued_token_needs_its_nonce config req now tokenId nonce d body d1 :
  issueToken config req now tokenId nonce [] d = (json 201 body, d1) ->
  db_findOne votingTokens (byTokenAndElection tokenId (electionIdOf config req)) d = None ->
  forall v2 voter2 c n2 now2 sig,
    db_findOne voters (byVoterId v2) d = Some voter2 ->
    Voter.status (doc voter2) = "active" ->
    Voter.hasVoted (doc voter2) = false ->
    now2 < now + 5 * 60 * 1000 ->
    n2 <> nonce ->
    submit v2 tokenId (electionIdOf config req) c (Some n2) now2 sig [] d1
    = (inl (mkError "Token nonce does not match" "TOKEN_NONCE_MISMATCH" 400 None), d1).
Proof.
  intros Hissue Hfresh v2 voter2 c n2 now2 sig Hv Ha Hn Hlt Hne.
  apply issueToken_201_inv in Hissue. subst d1.
  pose proof (issued_token_found tokenId _ nonce now d Hfresh) as Ht.
  change TOKEN_TTL_MS with 300000 in *.
  run_submit.
  change (db_findOne voters (byVoterId v2) (db_insertOne votingTokens _ d))
    with (db_findOne voters (byVoterId v2) d).
  rewrite Hv, Ha, Hn. step_prog. rewrite Ht. step_prog.
  destruct (Z.leb_spec (now + 300000) now2); [lia|].
  unfold nonceMismatch. cbn.
  destruct (String.eqb_spec nonce ""); cbn; [reflexivity|].
  destruct (String.eqb_spec n2 nonce); [contradiction | reflexivity].
Qed.

Lemma issued_token_needs_its_nonce_witness :
  submit "v1" "uuid-1" "e1" "c1" (Some "ffff") 2000 "sig" [] (snd Sample2.issued)
  = (inl (mkError "Token nonce does not match" "TOKEN_NONCE_MISMATCH" 400 None),
     snd Sample2.issued).
Proof.
  apply (issued_token_needs_its_nonce Sample.config0 (Sample.issueReq "v1") 1000
           "uuid-1" "0a1b" Sample2.db2 _ _ eq_refl eq_refl
           "v1" (mkRow 0%nat (Voter.mk "v1" "active" false 0)));
    try reflexivity. discriminate.
Defined.

(** X6: a token is good for the election it was issued for only: naming
    another election, for which no token of that [tokenId] is stored,
    [submit] answers INVALID_VOTE_TOKEN. *)
Theorem issued_token_is_scoped_to_its_election config req now tokenId nonce d body d1 :
  issueToken config req now tokenId nonce [] d = (json 201 body, d1) ->
  forall v2 voter2 e2 c n2 now2 sig,
    db_findOne voters (byVoterId v2) d = Some voter2 ->
    Voter.status (doc voter2) = "active" ->
    Voter.hasVoted (doc voter2) = false ->
    e2 <> electionIdOf config req ->
    db_findOne votingTokens (byTokenAndElection tokenId e2) d = None ->
    submit v2 tokenId e2 c n2 now2 sig [] d1
    = (inl (mkError "Invalid voting token" "INVALID_VOTE_TOKEN" 400 None), d1).
Proof.
  intros Hissue v2 voter2 e2 c n2 now2 sig Hv Ha Hn Hne Hnone.
  apply issueToken_201_inv in Hissue. subst d1.
  assert (Ht : db_findOne votingTokens (byTokenAndElection tokenId e2)
                 (db_insertOne votingTokens
                    (tokenDoc tokenId (electionIdOf config req) nonce now
                              (now + TOKEN_TTL_MS)) d) = None).
  { unfold db_findOne, db_insertOne.
    cbn [collection rows_votingTokens bumpId setCollection].
    apply find_app_miss; [exact Hnone|]. unfold byTokenAndElection. cbn.
    destruct (String.eqb_spec (electionIdOf config req) e2); [congruence|].
    apply andb_false_r. }
  change TOKEN_TTL_MS with 300000 in *.
  run_submit.
  change (db_findOne voters (byVoterId v2) (db_insertOne votingTokens _ d))
    with (db_findOne voters (byVoterId v2) d).
  rewrite Hv, Ha, Hn. step_prog. now rewrite Ht.
Qed.

Lemma issued_token_is_scoped_to_its_election_witness :
  submit "v1" "uuid-1" "e2" "c1" (Some "0a1b") 2000 "sig" [] (snd Sample2.issued)
  = (inl (mkError "Invalid voting token" "INVALID_VOTE_TOKEN" 400 None),
     snd Sample2.issued).
Proof.
  apply (issued_token_is_scoped_to_its_election Sample.config0 (Sample.issueReq "v1") 1000
           "uuid-1" "0a1b" Sample2.db2 _ _ eq_refl
           "v1" (mkRow 0%nat (Voter.mk "v1" "active" false 0)));
    try reflexivity. discriminate.
Defined.

(** ** What the ballot data never does *)

Lemma voterKept_refl a : voterKept a a.
Proof. unfold voterKept. auto. Qed.

Lemma tokenKept_refl a : tokenKept a a.
Proof. unfold tokenKept. repeat split; auto. Qed.

Lemma voterKept_trans a b c : voterKept a b -> voterKept b c -> voterKept a c.
Proof. unfold voterKept. intuition congruence. Qed.

Lemma tokenKept_trans a b c : tokenKept a b -> tokenKept b c -> tokenKept a c.
Proof. unfold tokenKept. intuition congruence. Qed.

Lemma Forall2_refl_of {A} (R : A -> A -> Prop) (l : list A) :
  (forall a, R a a) -> Forall2 R l l.
Proof. intros H. induction l; constructor; auto. Qed.

Lemma Forall2_trans_of {A} (R : A -> A -> Prop) :
  (forall a b c, R a b -> R b c -> R a c) ->
  forall l1 l2 l3, Forall2 R l1 l2 -> Forall2 R l2 l3 -> Forall2 R l1 l3.
Proof.
  intros Htrans l1 l2 l3 H12. revert l3.
  induction H12; intros l3 H23; inversion H23; subst; constructor; eauto.
Qed.

Lemma updateFirst_Forall2 {T} (R : Row T -> Row T -> Prop) (filter : Row T -> bool)
      (update : T -> T) rs rs' :
  (forall r, R r r) ->
  (forall r, R r (mkRow (_id r) (update (doc r)))) ->
  updateFirst filter update rs = Some rs' -> Forall2 R rs rs'.
Proof.
  intros Hrefl Hupd. revert rs'.
  induction rs as [|a rs IH]; simpl; intros rs' Hu; [discriminate|].
  destruct (filter a).
  - inversion Hu; subst. constructor; [apply Hupd | now apply Forall2_refl_of].
  - destruct (updateFirst filter update rs) as [rest|]; [|discriminate].
    inversion Hu; subst. constructor; auto.
Qed.

Lemma storeKept_refl d : storeKept d d.
Proof.
  repeat split.
  - apply Forall2_refl_of, voterKept_refl.
  - exists (rows_votingTokens d), []. split; [now rewrite app_nil_r|].
    apply Forall2_refl_of, tokenKept_refl.
  - exists []. now rewrite app_nil_r.
Qed.

Lemma storeKept_trans d1 d2 d3 : storeKept d1 d2 -> storeKept d2 d3 -> storeKept d1 d3.
Proof.
  intros (Hv12 & (k12 & a12 & Ht12 & Hk12) & (v12 & Hvo12) & Hc12)
         (Hv23 & (k23 & a23 & Ht23 & Hk23) & (v23 & Hvo23) & Hc23).
  repeat split.
  - eapply Forall2_trans_of; eauto using voterKept_trans.
  - rewrite Ht12 in Hk23. apply Forall2_app_inv_l in Hk23 as (k & a & Hk & Ha & ->).
    exists k, (a ++ a23)%list. split; [now rewrite Ht23, app_assoc|].
    eapply Forall2_trans_of; eauto using tokenKept_trans.
  - exists (v12 ++ v23)%list. now rewrite Hvo23, Hvo12, app_assoc.
  - congruence.
Qed.

(** [issueToken] either leaves the store or appends the token row. *)
Lemma issueToken_store config req now tokenId nonce d :
  snd (issueToken config req now tokenId nonce [] d) = d \/
  snd (issueToken config req now tokenId nonce [] d)
  = db_insertOne votingTokens
      (tokenDoc tokenId (electionIdOf config req) nonce now (now + TOKEN_TTL_MS)) d.
Proof.
  unfold issueToken. destruct (falsy (voterIdOf req)); [now left|].
  unfold run, issueTokenProg, isElectionOpen. step_prog.
  destruct (db_findOne elections _ d) as [el|]; step_prog.
  - destruct (String.eqb (Election.status (doc el)) "open"); step_prog; [|now left].
    destruct (db_findOne voters _ d) as [voter|]; step_prog; [|now left].
    destruct (String.eqb (Voter.status (doc voter)) "active"); step_prog; [|now left].
    destruct (Voter.hasVoted (doc voter)); step_prog; [now left | now right].
  - destruct (db_findOne voters _ d) as [voter|]; step_prog; [|now left].
    destruct (String.eqb (Voter.status (doc voter)) "active"); step_prog; [|now left].
    destruct (Voter.hasVoted (doc voter)); step_prog; [now left | now right].
Qed.

(** The election handlers write the [elections] collection only. *)
Lemma upsertElectionStatus_store e st d :
  let d' := snd (run (await (upsertElectionStatus e st); Return tt) [] d) in
  rows_voters d' = rows_voters d /\
  rows_votingTokens d' = rows_votingTokens d /\
  rows_votes d' = rows_votes d /\
  rows_candidates d' = rows_candidates d /\
  rows_otp_attempts d' = rows_otp_attempts d /\
  rows_login_attempts d' = rows_login_attempts d.
Proof.
  unfold run, upsertElectionStatus. step_prog. unfold db_updateOne, db_insertOne.
  cbn [collection]. destruct (updateFirst _ _ (rows_elections d)); cbn; auto 10.
Qed.

Lemma openElection_store config req d :
  snd (openElection config req [] d)
  = snd (run (await (upsertElectionStatus (getElectionIdFromReq config req) "open");
              Return tt) [] d).
Proof.
  unfold openElection, run, upsertElectionStatus. step_prog.
  now destruct (db_updateOne _ _ _ _ d).
Qed.

Lemma closeElection_store config req d :
  snd (closeElection config req [] d)
  = snd (run (await (upsertElectionStatus (getElectionIdFromReq config req) "closed");
              Return tt) [] d).
Proof.
  unfold closeElection, run, upsertElectionStatus. step_prog.
  now destruct (db_updateOne _ _ _ _ d).
Qed.

Lemma storeKept_of_same d d' :
  rows_voters d' = rows_voters d ->
  rows_votingTokens d' = rows_votingTokens d ->
  rows_votes d' = rows_votes d ->
  rows_candidates d' = rows_candidates d ->
  storeKept d d'.
Proof.
  intros Hv Ht Hvo Hc. unfold storeKept. rewrite Hv, Ht, Hvo, Hc.
  apply storeKept_refl.
Qed.

Lemma afterCall_kept call d : storeKept d (afterCall call d).
Proof.
  destruct call as [config req now tokenId nonce | v t e c n now sig | config req | config req];
    cbn [afterCall].
  - destruct (issueToken_store config req now tokenId nonce d) as [-> | ->];
      [apply storeKept_refl|].
    unfold db_insertOne. cbn. repeat split.
    + apply Forall2_refl_of, voterKept_refl.
    + eexists _, _. split; [reflexivity|]. apply Forall2_refl_of, tokenKept_refl.
    + exists []. now rewrite app_nil_r.
  - destruct (submit v t e c n now sig [] d) as [[err|r] d'] eqn:Hrun; cbn [snd].
    + destruct (submit_abort _ _ _ _ _ _ _ _ _ _ _ Hrun) as (done & rest & Hs & ->).
      destruct done; [apply storeKept_refl | discriminate].
    + pose proof (submit_success_inv _ _ _ _ _ _ _ _ _ _ Hrun) as Hp.
      pose proof Hp as (voter & token & cand & Hv & _ & _ & Ht & _).
      destruct (submit_commits v t e c n now sig d voter token Hv Ht Hp)
        as (vs' & ts' & Hvs & Hts & Heq).
      rewrite Heq in Hrun. inversion Hrun; subst d' r. cbn. repeat split.
      * eapply updateFirst_Forall2; [apply voterKept_refl | | exact Hvs].
        intros r0. unfold voterKept. cbn. auto.
      * exists ts', []. split; [now rewrite app_nil_r|].
        eapply updateFirst_Forall2; [apply tokenKept_refl | | exact Hts].
        intros r0. unfold tokenKept. cbn. repeat split; auto.
      * eexists. reflexivity.
  - rewrite openElection_store.
    pose proof (upsertElectionStatus_store (getElectionIdFromReq config req) "open" d)
      as (Hv & Ht & Hvo & Hc & _).
    now apply storeKept_of_same.
  - rewrite closeElection_store.
    pose proof (upsertElectionStatus_store (getElectionIdFromReq config req) "closed" d)
      as (Hv & Ht & Hvo & Hc & _).
    now apply storeKept_of_same.
Qed.

(** X7: whatever sequence of [issueToken], [submit], [openElection] and
    [closeElection] calls is made, no voter or token row disappears or
    changes its identity, a voter's [hasVoted] and a token's [spent] never
    go back to false, a token's election, expiry and nonce never change,
    tokens and votes are only appended, and no stored vote is altered. *)
Theorem ballot_data_only_grows calls d : storeKept d (afterCalls calls d).
Proof.
  revert d. induction calls as [|call calls IH]; intros d.
  - apply storeKept_refl.
  - cbn [afterCalls fold_left]. fold (afterCalls calls (afterCall call d)).
    eapply storeKept_trans; [apply afterCall_kept | apply IH].
Qed.

(** ** Opening and closing an election *)

Lemma rows_after_updateOne_elections filter update upsert d :
  rows_elections (snd (db_updateOne elections filter update upsert d))
  = match updateFirst filter update (rows_elections d), upsert with
    | Some rs', _ => rs'
    | None, Some fresh => (rows_elections d ++ [mkRow (nextId d) fresh])%list
    | None, None => rows_elections d
    end.
Proof.
  unfold db_updateOne. cbn [collection].
  destruct (updateFirst filter update (rows_elections d)); [reflexivity|].
  destruct upsert; reflexivity.
Qed.

Lemma run_upsertElectionStatus e st d :
  snd (run (await (upsertElectionStatus e st); Return tt) [] d)
  = snd (db_updateOne elections (byElectionId e) (fun _ => Election.mk e st)
                      (Some (Election.mk e st)) d).
Proof.
  unfold run, upsertElectionStatus. step_prog. now destruct (db_updateOne _ _ _ _ d).
Qed.

(** After the upsert the election's record carries the status written. *)
Lemma election_after_upsert e st d :
  exists i,
    db_findOne elections (byElectionId e)
               (snd (run (await (upsertElectionStatus e st); Return tt) [] d))
    = Some (mkRow i (Election.mk e st)).
Proof.
  rewrite run_upsertElectionStatus. unfold db_findOne. cbn [collection].
  rewrite rows_after_updateOne_elections. apply find_after_upsert.
  intros i. unfold byElectionId. cbn. apply String.eqb_refl.
Qed.

(** An update through one filter leaves what another filter finds, when
    the rows the first accepts are none of the second's before or after. *)
Lemma find_other_after_updateFirst {T} (filter other : Row T -> bool) (update : T -> T)
      rs rs' :
  (forall r, filter r = true ->
             other r = false /\ other (mkRow (_id r) (update (doc r))) = false) ->
  updateFirst filter update rs = Some rs' -> find other rs' = find other rs.
Proof.
  intros H. revert rs'. induction rs as [|a rs IH]; simpl; intros rs' Hu; [discriminate|].
  destruct (filter a) eqn:Ea.
  - inversion Hu; subst. simpl. destruct (H a Ea) as [-> ->]. reflexivity.
  - destruct (updateFirst filter update rs) as [rest|]; [|discriminate].
    inversion Hu; subst. simpl. destruct (other a); [reflexivity | now apply IH].
Qed.

Lemma find_app_hit {T} (filter : Row T -> bool) rs more r :
  find filter rs = Some r -> find filter (rs ++ more) = Some r.
Proof.
  induction rs as [|a rs IH]; simpl; intros H; [discriminate|].
  destruct (filter a); auto.
Qed.

Lemma other_election_after_upsert e st e' d :
  e' <> e ->
  db_findOne elections (byElectionId e')
             (snd (run (await (upsertElectionStatus e st); Return tt) [] d))
  = db_findOne elections (byElectionId e') d.
Proof.
  intros Hne. rewrite run_upsertElectionStatus. unfold db_findOne. cbn [collection].
  rewrite rows_after_updateOne_elections.
  destruct (updateFirst _ _ (rows_elections d)) as [rs'|] eqn:E.
  - eapply find_other_after_updateFirst; [|exact E].
    intros r Hr. unfold byElectionId in *. cbn. apply String.eqb_eq in Hr.
    rewrite Hr. split; apply String.eqb_neq; congruence.
  - destruct (find (byElectionId e') (rows_elections d)) as [r|] eqn:Hf.
    + now apply find_app_hit.
    + apply find_app_miss; [exact Hf|]. unfold byElectionId. cbn.
      apply String.eqb_neq. congruence.
Qed.

Lemma isElectionOpen_run e d :
  run (isElectionOpen e) [] d = (inr (spec_isOpen e d), d).
Proof.
  unfold run, isElectionOpen, spec_isOpen. step_prog.
  now destruct (db_findOne elections (byElectionId e) d).
Qed.

(** X8: the gate follows the last election call: after [openElection] for
    an election [isElectionOpen] answers true, after [closeElection] it
    answers false and every [issueToken] request for that election that
    carries a voter id is answered ELECTION_NOT_OPEN and stores nothing. *)
Theorem election_gate_follows_admin config areq d :
  fst (run (isElectionOpen (getElectionIdFromReq config areq)) []
           (snd (openElection config areq [] d))) = inr true /\
  fst (run (isElectionOpen (getElectionIdFromReq config areq)) []
           (snd (closeElection config areq [] d))) = inr false /\
  (forall config2 req now tokenId nonce v,
      voterIdOf req = Some v -> v <> "" ->
      electionIdOf config2 req = getElectionIdFromReq config areq ->
      issueToken config2 req now tokenId nonce [] (snd (closeElection config areq [] d))
      = (json 409 (errorBody "ELECTION_NOT_OPEN" "Election is not open for voting"
                             [("electionId", JStr (getElectionIdFromReq config areq))]),
         snd (closeElection config areq [] d))).
Proof.
  set (e := getElectionIdFromReq config areq).
  split; [|split].
  - rewrite openElection_store, isElectionOpen_run. fold e. cbn [fst]. unfold spec_isOpen.
    destruct (election_after_upsert e "open" d) as [i ->]. reflexivity.
  - rewrite closeElection_store, isElectionOpen_run. fold e. cbn [fst]. unfold spec_isOpen.
    destruct (election_after_upsert e "closed" d) as [i ->]. reflexivity.
  - intros config2 req now tokenId nonce v Hv Hne He.
    rewrite closeElection_store. fold e.
    destruct (election_after_upsert e "closed" d) as [i Hi].
    unfold issueToken. rewrite Hv. cbn [falsy js_or].
    destruct (String.eqb_spec v ""); [contradiction|].
    unfold run at 1. unfold issueTokenProg, isElectionOpen. rewrite He. step_prog.
    rewrite Hi. reflexivity.
Qed.

Lemma election_gate_follows_admin_witness :
  issueToken Sample.config0 (Sample.issueReq "v1") 1000 "uuid-1" "0a1b" []
             (snd (closeElection Sample.config0 (Sample2.adminReq "e1") [] Sample2.db2))
  = (json 409 (errorBody "ELECTION_NOT_OPEN" "Election is not open for voting"
                         [("electionId", JStr "e1")]),
     snd (closeElection Sample.config0 (Sample2.adminReq "e1") [] Sample2.db2)).
Proof.
  apply (proj2 (proj2 (election_gate_follows_admin Sample.config0 (Sample2.adminReq "e1")
                         Sample2.db2))
               Sample.config0 (Sample.issueReq "v1") 1000 "uuid-1" "0a1b" "v1");
    try reflexivity. discriminate.
Defined.

(** X9: opening or closing one election leaves the gate of every other
    election as it was. *)
Theorem election_gate_is_per_election config areq d e' :
  e' <> getElectionIdFromReq config areq ->
  fst (run (isElectionOpen e') [] (snd (openElection config areq [] d)))
  = fst (run (isElectionOpen e') [] d) /\
  fst (run (isElectionOpen e') [] (snd (closeElection config areq [] d)))
  = fst (run (isElectionOpen e') [] d).
Proof.
  intros Hne. rewrite openElection_store, closeElection_store, !isElectionOpen_run.
  cbn [fst]. unfold spec_isOpen.
  now rewrite !other_election_after_upsert by assumption.
Qed.

Lemma election_gate_is_per_election_witness :
  fst (run (isElectionOpen "e2") []
           (snd (closeElection Sample.config0 (Sample2.adminReq "e1") [] Sample2.db2)))
  = inr true.
Proof.
  rewrite (proj2 (election_gate_is_per_election Sample.config0 (Sample2.adminReq "e1")
                    Sample2.db2 "e2" (fun E => ltac:(discriminate E)))).
  reflexivity.
Defined.

(** ** [getMe] after a vote *)

(** X10: [getMe] shows the vote: for the voter of an accepted [submit] it
    answers [hasVoted: false] before the call and [hasVoted: true] after
    it, and reads without writing. *)
Theorem getMe_shows_the_vote req v t e c n now sig d r d1 :
  voterIdOf req = Some v -> v <> "" ->
  submit v t e c n now sig [] d = (inr r, d1) ->
  getMe req [] d
  = (json 200 [("voterId", JStr v); ("hasVoted", JBool false); ("status", JStr "active")],
     d) /\
  getMe req [] d1
  = (json 200 [("voterId", JStr v); ("hasVoted", JBool true); ("status", JStr "active")],
     d1).
Proof.
  intros Hreq Hne Hrun.
  pose proof (submit_success_inv _ _ _ _ _ _ _ _ _ _ Hrun) as Hp.
  pose proof Hp as (voter & token & cand & Hv & Ha & Hn & Ht & _).
  destruct (submit_commits v t e c n now sig d voter token Hv Ht Hp)
    as (vs' & ts' & Hvs & _ & Heq).
  rewrite Heq in Hrun. inversion Hrun; subst d1 r; clear Hrun.
  assert (Hid : Voter.voterId (doc voter) = v).
  { apply find_some in Hv as [_ Hv]. now apply String.eqb_eq in Hv. }
  unfold getMe. rewrite Hreq. cbn [falsy js_or].
  destruct (String.eqb_spec v ""); [contradiction|].
  unfold run, getMeProg. step_prog. split.
  - rewrite Hv. unfold projectVoter. now rewrite Hid, Ha, Hn.
  - assert (Hf : db_findOne voters (byVoterId v)
                   (mkDb vs' ts' (rows_candidates d)
                      (rows_votes d ++ [mkRow (nextId d) (voteDoc e c now sig)])
                      (rows_elections d) (rows_otp_attempts d) (rows_login_attempts d)
                      (S (nextId d)))
                 = Some (mkRow (_id voter) (setHasVoted now (doc voter)))).
    { unfold db_findOne; cbn [collection rows_voters].
      apply find_after_updateFirst with (rs := rows_voters d); try assumption.
      apply find_some in Hv as [_ Hv]. exact Hv. }
    rewrite Hf. unfold projectVoter. cbn. now rewrite Hid, Ha.
Qed.

Lemma getMe_shows_the_vote_witness :
  getMe (Sample.issueReq "v1") []
        (snd (submit "v1" "t1" "e1" "c1" (Some "n1") 1000 "sig" [] Sample.db0))
  = (json 200 [("voterId", JStr "v1"); ("hasVoted", JBool true);
               ("status", JStr "active")],
     snd (submit "v1" "t1" "e1" "c1" (Some "n1") 1000 "sig" [] Sample.db0)).
Proof.
  apply (proj2 (getMe_shows_the_vote (Sample.issueReq "v1") "v1" "t1" "e1" "c1"
                  (Some "n1") 1000 "sig" Sample.db0 (mkSubmitResult "e1" "c1") _
                  eq_refl (fun E => ltac:(discriminate E)) eq_refl)).
Defined.

(** ** One-time codes *)

Lemma mapGet_mapSet_same k v m : mapGet k (mapSet k v m) = Some v.
Proof.
  induction m as [|[k' v'] m IH]; simpl.
  - now rewrite String.eqb_refl.
  - destruct (String.eqb k' k) eqn:E; simpl; [now rewrite String.eqb_refl|].
    now rewrite E.
Qed.

Lemma mapGet_mapSet_other k k' v m : k' <> k -> mapGet k' (mapSet k v m) = mapGet k' m.
Proof.
  intros Hne. induction m as [|[k0 v0] m IH]; simpl.
  - destruct (String.eqb_spec k k'); [congruence | reflexivity].
  - destruct (String.eqb_spec k0 k); simpl.
    + subst. destruct (String.eqb_spec k k'); [congruence | reflexivity].
    + destruct (String.eqb k0 k'); [reflexivity | exact IH].
Qed.

Lemma mapGet_mapDelete_same k m : mapGet k (mapDelete k m) = None.
Proof.
  induction m as [|[k' v'] m IH]; simpl; [reflexivity|].
  destruct (String.eqb k' k) eqn:E; simpl; [exact IH|]. now rewrite E.
Qed.

(** A [sendOtp] request that is answered 200 has stored its code. *)
Lemma sendOtp_200_stores trim hashPhone phone now code dateNow w body w1 :
  sendOtp trim hashPhone phone now code dateNow [] w = (json 200 body, w1) ->
  otpStore w1
  = mapSet (hashPhone (trim (js_or phone ""))) (mkOtpEntry code (dateNow + OTP_TTL_MS))
           (otpStore w).
Proof.
  unfold sendOtp. destruct (blank trim phone); [discriminate|].
  rewrite sendOtpCount_run.
  destruct (inWindow _ now) as [existing|].
  - destruct (OTP_MAX_PER_WINDOW <=? _); [discriminate|].
    cbn. intros H; inversion H; reflexivity.
  - cbn. intros H; inversion H; reflexivity.
Qed.

(** X11: the code of a [sendOtp] request that was answered 200 is accepted
    by [verifyOtp] for that phone up to and including five minutes after
    it was stored, and only once: any later verification for the phone
    fails. *)
Theorem sent_otp_verifies_once trim hashPhone phone now code dateNow w body w1 :
  sendOtp trim hashPhone phone now code dateNow [] w = (json 200 body, w1) ->
  forall at_,
    at_ <= dateNow + 5 * 60 * 1000 ->
    let phone' := trim (js_or phone "") in
    fst (otpService_verifyOtp trim phone' (hashPhone phone') (Some code) at_ w1) = true /\
    forall code' later,
      fst (otpService_verifyOtp trim phone' (hashPhone phone') code' later
             (snd (otpService_verifyOtp trim phone' (hashPhone phone') (Some code) at_ w1)))
      = false.
Proof.
  intros Hsend at_ Hle phone'. apply sendOtp_200_stores in Hsend. fold phone' in Hsend.
  unfold otpService_verifyOtp at 1 3. rewrite Hsend, mapGet_mapSet_same.
  cbn [otp_expiresAt otp_code].
  destruct (Z.ltb_spec (dateNow + OTP_TTL_MS) at_); [unfold OTP_TTL_MS in *; lia|].
  assert (Hsame : String.eqb (trim code) (trim (js_or (Some code) "")) = true).
  { unfold js_or. destruct (String.eqb_spec code ""); [subst|]; apply String.eqb_refl. }
  rewrite Hsame. cbn [negb fst snd]. split; [reflexivity|].
  intros code' later. unfold otpService_verifyOtp. cbn [otpStore].
  now rewrite mapGet_mapDelete_same.
Qed.

Lemma sent_otp_verifies_once_witness :
  fst (otpService_verifyOtp Sample.trim "0790" (Sample.hashPhone "0790") (Some "111111")
         301001
         (snd (sendOtp Sample.trim Sample.hashPhone (Some " 0790 ") 1000 "111111" 1001 []
                       Sample.world0)))
  = true.
Proof.
  exact (proj1 (sent_otp_verifies_once Sample.trim Sample.hashPhone (Some " 0790 ") 1000
                  "111111" 1001 Sample.world0 _ _ eq_refl 301001
                  ltac:(discriminate))).
Defined.

(** X12: a code is refused once its five minutes are over, and the
    refusal removes it: the right code fails from then on, at any time. *)
Theorem expired_otp_is_dropped trim phone phoneHash code dateNow w at_ :
  dateNow + 5 * 60 * 1000 < at_ ->
  let w1 := snd (otpService_sendOtp phone phoneHash code dateNow w) in
  fst (otpService_verifyOtp trim phone phoneHash (Some code) at_ w1) = false /\
  forall code' later,
    fst (otpService_verifyOtp trim phone phoneHash code' later
           (snd (otpService_verifyOtp trim phone phoneHash (Some code) at_ w1)))
    = false.
Proof.
  intros Hlt w1. subst w1. unfold otpService_sendOtp. cbn [snd].
  unfold otpService_verifyOtp at 1 3. cbn [otpStore]. rewrite mapGet_mapSet_same.
  cbn [otp_expiresAt].
  destruct (Z.ltb_spec (dateNow + OTP_TTL_MS) at_); [|unfold OTP_TTL_MS in *; lia].
  cbn [fst snd]. split; [reflexivity|].
  intros code' later. unfold otpService_verifyOtp. cbn [otpStore].
  now rewrite mapGet_mapDelete_same.
Qed.

Lemma expired_otp_is_dropped_witness :
  fst (otpService_verifyOtp Sample.trim "0790" "h" (Some "111111") 301002
         (snd (otpService_sendOtp "0790" "h" "111111" 1001 Sample.world0)))
  = false.
Proof.
  exact (proj1 (expired_otp_is_dropped Sample.trim "0790" "h" "111111" 1001 Sample.world0
                  301002 ltac:(reflexivity))).
Defined.

(** X13: a wrong code is refused without any effect: the stored code stays
    and the right one is still accepted afterwards, however many wrong
    ones were tried. *)
Theorem wrong_otp_changes_nothing trim phone phoneHash code dateNow w wrong at_ :
  at_ <= dateNow + 5 * 60 * 1000 ->
  trim (js_or wrong "") <> trim code ->
  let w1 := snd (otpService_sendOtp phone phoneHash code dateNow w) in
  otpService_verifyOtp trim phone phoneHash wrong at_ w1 = (false, w1) /\
  fst (otpService_verifyOtp trim phone phoneHash (Some code) at_ w1) = true.
Proof.
  intros Hle Hne w1. subst w1. unfold otpService_sendOtp. cbn [snd].
  unfold otpService_verifyOtp. cbn [otpStore]. rewrite mapGet_mapSet_same.
  cbn [otp_expiresAt otp_code].
  destruct (Z.ltb_spec (dateNow + OTP_TTL_MS) at_); [unfold OTP_TTL_MS in *; lia|].
  split.
  - destruct (String.eqb_spec (trim code) (trim (js_or wrong ""))); [congruence|].
    reflexivity.
  - assert (Hsame : String.eqb (trim code) (trim (js_or (Some code) "")) = true).
    { unfold js_or. destruct (String.eqb_spec code ""); [subst|]; apply String.eqb_refl. }
    now rewrite Hsame.
Qed.

Lemma wrong_otp_changes_nothing_witness :
  otpService_verifyOtp Sample.trim "0790" "h" (Some "222222") 2000
    (snd (otpService_sendOtp "0790" "h" "111111" 1001 Sample.world0))
  = (false, snd (otpService_sendOtp "0790" "h" "111111" 1001 Sample.world0)).
Proof.
  exact (proj1 (wrong_otp_changes_nothing Sample.trim "0790" "h" "111111" 1001
                  Sample.world0 (Some "222222") 2000
                  ltac:(discriminate) ltac:(discriminate))).
Defined.

(** X14: a new code for a phone replaces the old one, which is refused
    from then on, and leaves the codes of other phones alone. *)
Theorem new_otp_replaces_old trim phone phoneHash code1 dateNow1 code2 dateNow2 w at_ :
  trim code1 <> trim code2 ->
  at_ <= dateNow2 + 5 * 60 * 1000 ->
  let w2 := snd (otpService_sendOtp phone phoneHash code2 dateNow2
                   (snd (otpService_sendOtp phone phoneHash code1 dateNow1 w))) in
  fst (otpService_verifyOtp trim phone phoneHash (Some code1) at_ w2) = false /\
  fst (otpService_verifyOtp trim phone phoneHash (Some code2) at_ w2) = true /\
  forall otherHash,
    otherHash <> phoneHash -> mapGet otherHash (otpStore w2) = mapGet otherHash (otpStore w).
Proof.
  intros Hne Hle w2. subst w2. unfold otpService_sendOtp. cbn [snd otpStore].
  unfold otpService_verifyOtp. cbn [otpStore]. rewrite mapGet_mapSet_same.
  cbn [otp_expiresAt otp_code].
  destruct (Z.ltb_spec (dateNow2 + OTP_TTL_MS) at_); [unfold OTP_TTL_MS in *; lia|].
  assert (Hjs : forall c, trim (js_or (Some c) "") = trim c).
  { intros c. unfold js_or. now destruct (String.eqb_spec c ""); subst. }
  rewrite !Hjs. split; [|split].
  - destruct (String.eqb_spec (trim code2) (trim code1)); [congruence | reflexivity].
  - now rewrite String.eqb_refl.
  - intros otherHash Ho. now rewrite !mapGet_mapSet_other.
Qed.

Lemma new_otp_replaces_old_witness :
  fst (otpService_verifyOtp Sample.trim "0790" "h" (Some "111111") 3000
         (snd (otpService_sendOtp "0790" "h" "222222" 2000
                 (snd (otpService_sendOtp "0790" "h" "111111" 1001 Sample.world0)))))
  = false.
Proof.
  exact (proj1 (new_otp_replaces_old Sample.trim "0790" "h" "111111" 1001 "222222" 2000
                  Sample.world0 3000 ltac:(discriminate) ltac:(discriminate))).
Defined.

(** ** Bearer tokens *)

Lemma splitOn_one_inv sep s b :
  splitOn sep s = [b] -> s = b /\ hasChar sep s = false.
Proof.
  revert b. induction s as [|c s IH]; simpl; intros b H.
  - inversion H. auto.
  - destruct (Ascii.eqb c sep) eqn:E.
    + inversion H as [[Hb Hrest]]. destruct s; simpl in Hrest; [discriminate|].
      destruct (Ascii.eqb a sep); [discriminate|].
      destruct (splitOn sep s); discriminate.
    + destruct (splitOn sep s) as [|p ps] eqn:Es; inversion H; subst.
      * destruct s; simpl in Es; [discriminate|].
        destruct (Ascii.eqb a sep); [discriminate|].
        destruct (splitOn sep s); discriminate.
      * destruct (IH p eq_refl) as [-> Hno]. auto.
Qed.

Lemma splitOn_two_inv sep s a b :
  splitOn sep s = [a; b] ->
  s = a ++ String sep b /\ hasChar sep a = false /\ hasChar sep b = false.
Proof.
  revert a. induction s as [|c s IH]; simpl; intros a H; [discriminate|].
  destruct (Ascii.eqb c sep) eqn:E.
  - inversion H as [[Ha Hrest]]. apply Ascii.eqb_eq in E. subst c.
    apply splitOn_one_inv in Hrest as [-> Hno]. auto.
  - destruct (splitOn sep s) as [|p ps] eqn:Es; inversion H; subst.
    destruct (IH p eq_refl) as (-> & Hp & Hb). simpl. rewrite E. auto.
Qed.

Lemma splitOn_one sep s : hasChar sep s = false -> splitOn sep s = [s].
Proof.
  induction s as [|c s IH]; simpl; intros H; [reflexivity|].
  apply orb_false_iff in H as [-> H]. now rewrite IH.
Qed.

Lemma splitOn_two sep a b :
  hasChar sep a = false -> hasChar sep b = false ->
  splitOn sep (a ++ String sep b) = [a; b].
Proof.
  intros Ha Hb. induction a as [|c a IH]; simpl.
  - rewrite Ascii.eqb_refl. now rewrite splitOn_one.
  - simpl in Ha. apply orb_false_iff in Ha as [-> Ha]. now rewrite IH.
Qed.

(** X15: [extractBearerToken] yields a token exactly for a header of the
    form [Bearer <token>] with one single space and no space inside the
    token (the lower-case header first, the capitalised one when that is
    missing or empty); every other header yields none. *)
Theorem extractBearerToken_iff headers token :
  extractBearerToken headers = Some token <->
  (if falsy (Headers.authorization headers) then Headers.Authorization headers
   else Headers.authorization headers) = Some ("Bearer " ++ token) /\
  hasChar " " token = false.
Proof.
  unfold extractBearerToken.
  set (h := if falsy (Headers.authorization headers) then Headers.Authorization headers
            else Headers.authorization headers).
  destruct h as [h|]; cbn [falsy js_or]; [|split; [discriminate | intros [H _]; discriminate]].
  destruct (String.eqb_spec h "") as [->|Hne].
  { split; [discriminate | intros [H _]; discriminate]. }
  split.
  - destruct (splitOn " " h) as [|scheme [|tok [|x rest]]] eqn:Es; try discriminate.
    destruct (String.eqb_spec scheme "Bearer"); [|discriminate].
    intros H; inversion H; subst.
    apply splitOn_two_inv in Es as (-> & _ & Hno). now split.
  - intros [H Hno]. inversion H; subst.
    pose proof (splitOn_two " " "Bearer" token eq_refl Hno) as Hs.
    cbn [append] in Hs. cbn [append]. now rewrite Hs.
Qed.

(** X16: [authVoter] hands a request on exactly when its bearer token is
    not empty, verifies, and carries the voter scope, and then with the
    verified payload as [req.user]; a request whose verified token carries
    the scope array ['voter'], as the tokens [login] signs do, is answered
    403 FORBIDDEN by [authAdmin]. *)
Theorem authVoter_passes_voter_tokens_only splitSpaces jwt_verify jwtSecret headers user :
  (authVoter splitSpaces jwt_verify jwtSecret headers = inr user <->
   exists token,
     extractBearerToken headers = Some token /\ token <> "" /\
     jwt_verify token jwtSecret = Some user /\
     hasScope splitSpaces user "voter" = true) /\
  (authVoter splitSpaces jwt_verify jwtSecret headers = inr user ->
   scope user = Some (ScopeArray ["voter"]) ->
   authAdmin splitSpaces jwt_verify jwtSecret headers
   = inl (json 403 (errorBody "FORBIDDEN" "Admin scope required" []))).
Proof.
  assert (Hiff : authVoter splitSpaces jwt_verify jwtSecret headers = inr user <->
                 exists token,
                   extractBearerToken headers = Some token /\ token <> "" /\
                   jwt_verify token jwtSecret = Some user /\
                   hasScope splitSpaces user "voter" = true).
  { unfold authVoter, verifyJwt. split.
    - destruct (extractBearerToken headers) as [token|]; [|discriminate].
      destruct (String.eqb_spec token ""); [discriminate|].
      destruct (jwt_verify token jwtSecret) as [decoded|] eqn:Hv; [|discriminate].
      destruct (hasScope splitSpaces decoded "voter") eqn:Hs; [|discriminate].
      intros H; inversion H; subst. exists token. repeat split; auto.
    - intros (token & -> & Hne & -> & ->).
      destruct (String.eqb_spec token ""); [contradiction | reflexivity]. }
  split; [exact Hiff|].
  intros Hpass Hscope. apply Hiff in Hpass as (token & Ht & Hne & Hv & _).
  unfold authAdmin, verifyJwt. rewrite Ht, Hv.
  destruct (String.eqb_spec token ""); [contradiction|].
  unfold hasScope. rewrite Hscope. reflexivity.
Qed.

Lemma authVoter_passes_voter_tokens_only_witness :
  authVoter Sample2.splitSpaces Sample2.jwt_verify "secret"
            (Headers.mk (Some "Bearer tok-v1") None)
  = inr Sample2.voterPayload /\
  authAdmin Sample2.splitSpaces Sample2.jwt_verify "secret"
            (Headers.mk (Some "Bearer tok-v1") None)
  = inl (json 403 (errorBody "FORBIDDEN" "Admin scope required" [])).
Proof.
  split; [reflexivity|].
  exact (proj2 (authVoter_passes_voter_tokens_only Sample2.splitSpaces Sample2.jwt_verify
                  "secret" (Headers.mk (Some "Bearer tok-v1") None) Sample2.voterPayload)
               eq_refl eq_refl).
Defined.

(** ** Login and its lockout *)

Ltac unfold_login := unfold login.
Ltac unfold_wrongCredentials := unfold wrongCredentials.
Ltac unfold_wrongCredentials_in H := unfold wrongCredentials in H.

Section LoginFacts.

Variable trim : string -> string.
Variable jwt_sign : JwtPayload -> string -> JwtSignOptions -> string.
Variable verifyPassword : string -> Row Voter.t -> bool.
Variable jwtSecret : string.

Local Abbreviation login := (login trim jwt_sign verifyPassword jwtSecret).
Local Abbreviation loginSeq := (loginSeq trim jwt_sign verifyPassword jwtSecret).
Local Abbreviation wrongCredentials := (wrongCredentials trim verifyPassword).

Lemma recordLoginFailure_run v now d :
  run (recordLoginFailure v (db_findOne login_attempts (byLoginVoterId v) d) now) [] d
  = run (loginFailure v now) [] d.
Proof. reflexivity. Qed.

Lemma loginFailure_keeps_voters v now d :
  rows_voters (snd (run (loginFailure v now) [] d)) = rows_voters d.
Proof.
  rewrite loginFailure_run. cbn [snd]. unfold db_updateOne, db_insertOne.
  cbn [collection].
  destruct (lapsed _ now); destruct (updateFirst _ _ (rows_login_attempts d));
    reflexivity.
Qed.

Lemma wrongCredentials_same_voters voterId password d d' :
  rows_voters d' = rows_voters d ->
  wrongCredentials voterId password d -> wrongCredentials voterId password d'.
Proof.
  unfold_wrongCredentials. unfold db_findOne. cbn [collection].
  now intros ->.
Qed.

(** A request with wrong credentials that is not locked out: 401, and the
    failure recorded. *)
Lemma login_wrong voterId password now uuid d :
  blank trim voterId = false -> blank trim password = false ->
  lockedOut (db_findOne login_attempts
               (byLoginVoterId (trim (js_or voterId ""))) d) now = false ->
  wrongCredentials voterId password d ->
  login voterId password now uuid d
  = (invalidCredentials, snd (run (loginFailure (trim (js_or voterId "")) now) [] d)).
Proof.
  intros Hv Hp Hlock Hwrong. unfold_login.
  rewrite Hv, Hp, Hlock. cbn [orb].
  unfold_wrongCredentials_in Hwrong.
  destruct (db_findOne voters _ d) as [voter|].
  - destruct Hwrong as [-> ->]. cbn [String.eqb negb]. now rewrite recordLoginFailure_run.
  - now rewrite recordLoginFailure_run.
Qed.

Lemma lapsed_not_lockedOut attemptDoc now :
  lapsed attemptDoc now = true -> lockedOut attemptDoc now = false.
Proof.
  unfold lapsed, lockedOut, windowActive. destruct attemptDoc as [a|]; [|reflexivity].
  destruct (LoginAttempt.windowEndsAt (doc a)) as [w|]; [|reflexivity].
  intros H. apply Z.leb_le in H. destruct (Z.ltb_spec now w); [lia | reflexivity].
Qed.

(** Failed requests below the maximum act on the store as
    [recordLoginFailure] does. *)
Lemma loginSeq_as_failures voterId calls : forall d e wend,
  blank trim voterId = false ->
  db_findOne login_attempts (byLoginVoterId (trim (js_or voterId ""))) d = Some e ->
  LoginAttempt.windowEndsAt (doc e) = Some wend ->
  LoginAttempt.count (doc e) + Z.of_nat (length calls) <= LOGIN_MAX_FAILED ->
  Forall (fun call => blank trim (fst (fst call)) = false /\
                      wrongCredentials voterId (fst (fst call)) d /\
                      snd (fst call) < wend) calls ->
  loginSeq voterId calls d
  = loginFailureSeq (trim (js_or voterId "")) (map (fun call => snd (fst call)) calls) d.
Proof.
  induction calls as [|[[password now] uuid] calls IH]; intros d e wend Hv Hf Hw Hle Hall;
    [reflexivity|].
  inversion Hall as [|? ? (Hp & Hwrong & Hlt) Hall']; subst. cbn [fst snd] in *.
  cbn [length] in Hle.
  assert (Hlock : lockedOut (db_findOne login_attempts
                               (byLoginVoterId (trim (js_or voterId ""))) d) now = false).
  { rewrite Hf. unfold lockedOut. rewrite Hw.
    destruct (Z.leb_spec LOGIN_MAX_FAILED (LoginAttempt.count (doc e))); [lia|].
    apply andb_false_r. }
  change (loginSeq voterId ((password, now, uuid) :: calls) d)
    with (loginSeq voterId calls (snd (login voterId password now uuid d))).
  rewrite (login_wrong voterId password now uuid d Hv Hp Hlock Hwrong). cbn [snd map].
  change (loginFailureSeq (trim (js_or voterId "")) (now :: map _ calls) d)
    with (loginFailureSeq (trim (js_or voterId "")) (map (fun call => snd (fst call)) calls)
            (snd (run (loginFailure (trim (js_or voterId "")) now) [] d))).
  apply (IH _ _ wend Hv (loginFailure_counts _ now d e wend Hf Hw Hlt) Hw).
  - cbn [doc incLoginCount LoginAttempt.count]. lia.
  - eapply Forall_impl; [|exact Hall']. intros call (H1 & H2 & H3).
    repeat split; auto.
    eapply wrongCredentials_same_voters; [apply loginFailure_keeps_voters | exact H2].
Qed.

Lemma login_locked voterId password now uuid d a wend :
  blank trim voterId = false -> blank trim password = false ->
  db_findOne login_attempts (byLoginVoterId (trim (js_or voterId ""))) d = Some a ->
  LoginAttempt.windowEndsAt (doc a) = Some wend ->
  5 <= LoginAttempt.count (doc a) ->
  now < wend ->
  login voterId password now uuid d = (accountLocked, d).
Proof.
  intros Hv Hp Hf Hw Hc Hlt. unfold_login.
  rewrite Hv, Hp, Hf. cbn [orb]. unfold lockedOut, windowActive. rewrite Hw.
  destruct (Z.ltb_spec now wend); [|lia].
  destruct (Z.leb_spec LOGIN_MAX_FAILED (LoginAttempt.count (doc a)));
    [reflexivity | unfold LOGIN_MAX_FAILED in *; lia].
Qed.

(** X17: an account whose running window has five or more recorded
    failures is answered 423 ACCOUNT_LOCKED whatever the password, the
    right one included, and the request changes nothing; once the window
    has ended, a request with wrong credentials is answered 401 again and
    starts a new count at 1. *)
Theorem locked_account_refuses_every_password voterId password now uuid d a wend :
  blank trim voterId = false -> blank trim password = false ->
  db_findOne login_attempts (byLoginVoterId (trim (js_or voterId ""))) d = Some a ->
  LoginAttempt.windowEndsAt (doc a) = Some wend ->
  5 <= LoginAttempt.count (doc a) ->
  (now < wend -> login voterId password now uuid d = (accountLocked, d)) /\
  (wend <= now -> wrongCredentials voterId password d ->
   fst (login voterId password now uuid d) = invalidCredentials /\
   loginCountOf (trim (js_or voterId "")) (snd (login voterId password now uuid d))
   = Some 1).
Proof.
  intros Hv Hp Hf Hw Hc. split.
  - intros Hlt. eapply login_locked; eassumption.
  - intros Hle Hwrong.
    assert (Hlapsed : lapsed (db_findOne login_attempts
                                (byLoginVoterId (trim (js_or voterId ""))) d) now = true).
    { rewrite Hf. unfold lapsed. rewrite Hw. now apply Z.leb_le. }
    rewrite (login_wrong voterId password now uuid d Hv Hp
               (lapsed_not_lockedOut _ _ Hlapsed) Hwrong).
    split; [reflexivity|]. cbn [snd].
    destruct (loginFailure_opens _ now d Hlapsed) as [i Hi].
    unfold loginCountOf. now rewrite Hi.
Qed.

(** X18: five requests with wrong credentials for one voter id, handled
    one after the other (no two of them overlap) inside fifteen minutes,
    the first of them opening the window, lock the account: the count
    stands at 5 and every further request handled after them and before
    the window ends is answered 423, whatever its password. *)
Theorem five_failed_logins_lock voterId p0 t0 u0 calls d :
  blank trim voterId = false ->
  lapsed (db_findOne login_attempts (byLoginVoterId (trim (js_or voterId ""))) d) t0
  = true ->
  length calls = 4%nat ->
  Forall (fun call => blank trim (fst (fst call)) = false /\
                      wrongCredentials voterId (fst (fst call)) d /\
                      snd (fst call) < t0 + 15 * 60 * 1000) ((p0, t0, u0) :: calls) ->
  loginCountOf (trim (js_or voterId "")) (loginSeq voterId ((p0, t0, u0) :: calls) d)
  = Some 5 /\
  forall password now uuid,
    blank trim password = false -> now < t0 + 15 * 60 * 1000 ->
    login voterId password now uuid (loginSeq voterId ((p0, t0, u0) :: calls) d)
    = (accountLocked, loginSeq voterId ((p0, t0, u0) :: calls) d).
Proof.
  intros Hv Hlapsed Hlen Hall.
  inversion Hall as [|? ? (Hp0 & Hwrong0 & _) Hall']; subst. cbn [fst snd] in *.
  change (loginSeq voterId ((p0, t0, u0) :: calls) d)
    with (loginSeq voterId calls (snd (login voterId p0 t0 u0 d))).
  rewrite (login_wrong voterId p0 t0 u0 d Hv Hp0 (lapsed_not_lockedOut _ _ Hlapsed) Hwrong0).
  cbn [snd]. set (d1 := snd (run (loginFailure (trim (js_or voterId "")) t0) [] d)).
  destruct (loginFailure_opens _ t0 d Hlapsed) as [i Hi]. fold d1 in Hi.
  assert (Hall1 : Forall (fun call => blank trim (fst (fst call)) = false /\
                                      wrongCredentials voterId (fst (fst call)) d1 /\
                                      snd (fst call) < t0 + 15 * 60 * 1000) calls).
  { eapply Forall_impl; [|exact Hall']. intros call (H1 & H2 & H3). repeat split; auto.
    eapply wrongCredentials_same_voters; [apply loginFailure_keeps_voters | exact H2]. }
  rewrite (loginSeq_as_failures voterId calls d1 _ (t0 + 15 * 60 * 1000) Hv Hi eq_refl).
  2:{ cbn [doc LoginAttempt.count]. rewrite Hlen. unfold LOGIN_MAX_FAILED. lia. }
  2:{ exact Hall1. }
  destruct (loginFailureSeq_counts (trim (js_or voterId ""))
              (map (fun call => snd (fst call)) calls) d1 _
              (t0 + 15 * 60 * 1000) Hi eq_refl) as (e' & Hf' & Hc' & Hw').
  { apply Forall_map. eapply Forall_impl; [|exact Hall1]. now intros call (_ & _ & H). }
  rewrite length_map, Hlen in Hc'. cbn [doc LoginAttempt.count] in Hc'.
  split.
  - unfold loginCountOf. rewrite Hf'. cbn [option_map]. now rewrite Hc'.
  - intros password now uuid Hp Hlt.
    apply (login_locked voterId password now uuid _ e' (t0 + 15 * 60 * 1000));
      auto. lia.
Qed.

(** Deleting the only row a filter accepts leaves none for it. *)
Lemma find_after_deleteFirst {T} (filter : Row T -> bool) (rs : list (Row T)) :
  (length (List.filter filter rs) <= 1)%nat -> find filter (deleteFirst filter rs) = None.
Proof.
  induction rs as [|a rs IH]; simpl; intros H; [reflexivity|].
  destruct (filter a) eqn:Ea; simpl in *.
  - apply find_none_of_all. intros r Hr.
    destruct (filter r) eqn:Er; [|reflexivity].
    assert (In r (List.filter filter rs)) by (apply filter_In; auto).
    destruct (List.filter filter rs); [contradiction | simpl in H; lia].
  - rewrite Ea. now apply IH.
Qed.

(** X19: a request with the right password for an active voter who is not
    locked out is answered 200 with the token [signJwt] makes (subject the
    voter id, scope ['voter'], one hour) and, with at most one attempt
    record for the voter, removes that record: the next failure counts
    as the first. *)
Theorem successful_login_clears_failures voterId password now uuid d voter :
  blank trim voterId = false -> blank trim password = false ->
  lockedOut (db_findOne login_attempts (byLoginVoterId (trim (js_or voterId ""))) d) now
  = false ->
  db_findOne voters (byVoterId (trim (js_or voterId ""))) d = Some voter ->
  Voter.status (doc voter) = "active" ->
  verifyPassword (trim (js_or password "")) voter = true ->
  (length (List.filter (byLoginVoterId (trim (js_or voterId ""))) (rows_login_attempts d))
   <= 1)%nat ->
  fst (login voterId password now uuid d)
  = json 200
      [("token",
        JStr (jwt_sign (mkPayload [("voterId", JStr (Voter.voterId (doc voter)));
                                   ("hasVoted", JBool (Voter.hasVoted (doc voter)));
                                   ("status", JStr "active")]
                                  (Some (ScopeArray ["voter"])) None)
                       jwtSecret
                       (mkJwtSignOptions "HS256" "1h" uuid
                                         (Some (Voter.voterId (doc voter))))));
       ("voter", JObj (projectVoter (doc voter)))] /\
  loginCountOf (trim (js_or voterId "")) (snd (login voterId password now uuid d)) = None /\
  forall password2 now2 uuid2,
    blank trim password2 = false ->
    wrongCredentials voterId password2 d ->
    loginCountOf (trim (js_or voterId ""))
                 (snd (login voterId password2 now2 uuid2
                             (snd (login voterId password now uuid d))))
    = Some 1.
Proof.
  intros Hv Hp Hlock Hvoter Ha Hok Hone.
  set (v := trim (js_or voterId "")) in *.
  assert (Hrun : login voterId password now uuid d
                 = (json 200
                      [("token",
                        JStr (signJwt jwt_sign jwtSecret
                                (mkPayload [("voterId", JStr (Voter.voterId (doc voter)));
                                            ("hasVoted", JBool (Voter.hasVoted (doc voter)));
                                            ("status", JStr (Voter.status (doc voter)))]
                                           (Some (ScopeArray ["voter"])) None)
                                (mkSignJwtOptions (Some "1h")
                                                  (Some (Voter.voterId (doc voter)))
                                                  None None)
                                uuid));
                       ("voter", JObj (projectVoter (doc voter)))],
                    db_deleteOne login_attempts (byLoginVoterId v) d)).
  { unfold_login. rewrite Hv, Hp. cbn [orb]. fold v.
    rewrite Hlock, Hvoter, Ha, Hok. reflexivity. }
  assert (Hgone : db_findOne login_attempts (byLoginVoterId v)
                    (db_deleteOne login_attempts (byLoginVoterId v) d) = None).
  { unfold db_findOne, db_deleteOne. cbn [collection setCollection rows_login_attempts].
    now apply find_after_deleteFirst. }
  rewrite Hrun. cbn [fst snd]. split; [|split].
  - unfold signJwt. cbn. now rewrite Ha.
  - unfold loginCountOf. now rewrite Hgone.
  - intros password2 now2 uuid2 Hp2 Hwrong.
    assert (Hlapsed : lapsed (db_findOne login_attempts (byLoginVoterId v)
                                (db_deleteOne login_attempts (byLoginVoterId v) d)) now2
                      = true) by now rewrite Hgone.
    rewrite (login_wrong voterId password2 now2 uuid2 _ Hv Hp2
               (lapsed_not_lockedOut _ _ Hlapsed)).
    + cbn [snd]. destruct (loginFailure_opens v now2 _ Hlapsed) as [i Hi].
      unfold loginCountOf. fold v. now rewrite Hi.
    + eapply wrongCredentials_same_voters; [|exact Hwrong]. reflexivity.
Qed.

End LoginFacts.

Lemma locked_account_refuses_every_password_witness :
  login Sample.trim Sample2.jwt_sign Sample2.verifyPassword "secret"
        (Some "v1") (Some "pw-v1") 2000 "uuid-9" Sample2.dbLocked
  = (accountLocked, Sample2.dbLocked).
Proof.
  apply (proj1 (locked_account_refuses_every_password Sample.trim Sample2.jwt_sign
                  Sample2.verifyPassword "secret" (Some "v1") (Some "pw-v1") 2000 "uuid-9"
                  Sample2.dbLocked
                  (mkRow 7%nat (LoginAttempt.mk "v1" 5 (Some 900000) 0 [])) 900000
                  eq_refl eq_refl eq_refl eq_refl ltac:(discriminate))).
  reflexivity.
Defined.

Lemma five_failed_logins_lock_witness :
  login Sample.trim Sample2.jwt_sign Sample2.verifyPassword "secret"
        (Some "v1") (Some "pw-v1") 6000 "uuid-9"
        (loginSeq Sample.trim Sample2.jwt_sign Sample2.verifyPassword "secret" (Some "v1")
                  Sample2.fiveWrong Sample2.db1)
  = (accountLocked,
     loginSeq Sample.trim Sample2.jwt_sign Sample2.verifyPassword "secret" (Some "v1")
              Sample2.fiveWrong Sample2.db1).
Proof.
  apply (proj2 (five_failed_logins_lock Sample.trim Sample2.jwt_sign
                  Sample2.verifyPassword "secret" (Some "v1") (Some "guess") 1000 "u1"
                  (tl Sample2.fiveWrong) Sample2.db1 eq_refl eq_refl eq_refl
                  ltac:(repeat constructor))).
  - reflexivity.
  - reflexivity.
Defined.

Lemma successful_login_clears_failures_witness :
  loginCountOf "v1"
    (snd (login Sample.trim Sample2.jwt_sign Sample2.verifyPassword "secret"
                (Some "v1") (Some "pw-v1") 3000 "uuid-9"
                (loginSeq Sample.trim Sample2.jwt_sign Sample2.verifyPassword "secret"
                          (Some "v1") [(Some "guess", 1000, "u1")] Sample2.db1)))
  = None.
Proof.
  apply (successful_login_clears_failures Sample.trim Sample2.jwt_sign
           Sample2.verifyPassword "secret" (Some "v1") (Some "pw-v1") 3000 "uuid-9"
           (loginSeq Sample.trim Sample2.jwt_sign Sample2.verifyPassword "secret"
                     (Some "v1") [(Some "guess", 1000, "u1")] Sample2.db1)
           (mkRow 0%nat (Voter.mk "v1" "active" false 0)));
    reflexivity.
Defined.

(** ** The error envelope *)

(** Every error of the transaction callback has a status, a code and a
    message. *)
Lemma submitVoteTxn_envelope v t e c n now sig :
  ProgAll passesSession hasEnvelope (submitVoteTxn v t e c n now sig).
Proof.
  unfold submitVoteTxn.
  repeat first
    [ apply ProgAll_Return
    | apply ProgAll_Throw; repeat split; cbn; discriminate
    | apply ProgAll_Await; [reflexivity | intros ?]
    | match goal with |- ProgAll _ _ (match ?x with _ => _ end) => destruct x end
    | match goal with |- ProgAll _ _ (if ?x then _ else _) => destruct x end
    | progress cbn [bind] ].
Qed.

(** With all three fields set, the [catch] block of [submitVote] and
    [errorHandler] build the same response. *)
Lemma submitVoteCatch_errorHandler err :
  hasEnvelope err -> submitVoteCatch err = errorHandler err.
Proof.
  intros (Hs & Hc & Hm). unfold submitVoteCatch, errorHandler, js_or.
  destruct (Z.eqb_spec (status err) 0); [contradiction|].
  destruct (String.eqb_spec (code err) ""); [contradiction|].
  destruct (String.eqb_spec (message err) ""); [contradiction|]. reflexivity.
Qed.


